(** * Locadora: reservation lifecycle, availability and billing

    A shallow embedding of the request handlers of [app.py] (with the status
    tables of [pdfgenerator.py], the schema of [init_db.py] and the query
    helper of [db_utils.py]) and the properties of the rental core.

    Modelling conventions.
    - A calendar date is the number of its day ([Z]); [(b - a).days] is [b - a].
    - Odometer readings and kilometre allowances are Python integers ([Z]).
    - Money is an exact rational ([Q]).  The handlers mix [Decimal] and
      [float]; both are read as the rational they denote, and a money column
      that is NULL reads as zero (the handlers read them through [or 0.0]).
      The money columns are [DECIMAL(10,2)]: the amounts of the tables and
      the amounts typed into a form are taken to have two decimals, and so
      have their sums, differences and products by whole numbers, which are
      stored as they are handed over.  Where a handler works out an amount
      that need not have two decimals from amounts that have them, the half
      day of creation and edit, the INSERT and the UPDATE round as the
      column does ([decimal_10_2]).
    - Status columns are TEXT in the schema and strings in the code; they are
      strings here, and the status tables are dictionaries keyed by strings.
    - A table is the list of its rows; [UPDATE ... WHERE id = k] rewrites the
      rows whose id is [k] and reports how many there were (the row count).
      The ORDER BY of a SELECT is left out: results are read as sets of rows.
    - A handler takes what the operator submitted in the form and the state
      of the database, and yields its outcome and the database afterwards. *)

From Stdlib Require Import ZArith QArith Qminmax Qround Lia Lqa List.
From stdpp Require Import base strings pretty gmap.
Import ListNotations.

Local Open Scope Z_scope.

(** ** Python exceptions and the outcome of a handler *)

Inductive exn : Type :=
  | KeyError (key : string)
  | Exception (msg : string).

Inductive result (A : Type) : Type :=
  | Ok (a : A)
  | Raise (e : exn).

Arguments Ok {A} a.
Arguments Raise {A} e.

(** What a run of a handler comes to: it did its work ([Done]); it declined
    with a message and touched nothing ([Refused]: [st.error], [st.stop], a
    widget that does not accept the submitted value); or an exception ended
    it ([Failed]: caught and reported, or ending the script run). *)
Inductive outcome (A : Type) : Type :=
  | Done (a : A)
  | Refused (msg : string)
  | Failed (e : exn).

Arguments Done {A} a.
Arguments Refused {A} msg.
Arguments Failed {A} e.

Definition is_done {A : Type} (o : outcome A) : bool :=
  match o with Done _ => true | _ => false end.

(** [d[k]] on a Python dictionary. *)
Definition getitem (d : gmap string string) (k : string) : result string :=
  match d !! k with
  | Some v => Ok v
  | None => Raise (KeyError k)
  end.

(** ** Streamlit number inputs

    [st.number_input(min_value=lo, max_value=hi)] keeps its value within the
    bounds it was given: a number outside them is not accepted by the widget
    and never reaches the script. *)

Definition number_input_int (min_value : Z) (submitted : Z) : option Z :=
  if submitted <? min_value then None else Some submitted.

Definition number_input (min_value : Q) (max_value : option Q) (submitted : Q)
    : option Q :=
  if Qle_bool min_value submitted then
    match max_value with
    | Some hi => if Qle_bool submitted hi then Some submitted else None
    | None => Some submitted
    end
  else None.

(** ** Status tables ([pdfgenerator.py]) *)

Definition STATUS_CARRO : gmap string string :=
  <["DISPONIVEL" := "Disponível"]>
  (<["LOCADO" := "Locado"]>
  (<["RESERVADO" := "Reservado"]>
  (<["INDISPONIVEL" := "Indisponível"]>
  (<["EXCLUIDO" := "Excluído"]> ∅)))).

Definition STATUS_CLIENTE : gmap string string :=
  <["ATIVO" := "Ativo"]>
  (<["INATIVO" := "Inativo"]>
  (<["REMOVIDO" := "Removido"]> ∅)).

Definition STATUS_RESERVA : gmap string string :=
  <["RESERVADA" := "Reservada"]>
  (<["LOCADA" := "Locada"]>
  (<["CANCELADA" := "Cancelada"]>
  (<["FINALIZADA" := "Finalizada"]> ∅))).

(** ** Rows and tables ([init_db.py]) *)

Record Carro : Type := mkCarro {
  carro_id : Z;
  placa : string;
  diaria : Q;
  preco_km : Q;
  km_atual : Z;
  carro_status : string
}.

Record Cliente : Type := mkCliente {
  cliente_id : Z;
  nome : string;
  validade_cnh : option Z;
  cliente_status : string
}.

Record Reserva : Type := mkReserva {
  reserva_id : Z;
  r_carro_id : Z;
  r_cliente_id : Z;
  data_inicio : Z;
  data_fim : Z;
  horario_entrega : option Z;
  reserva_status : string;
  status : string;
  custo_lavagem : Q;
  valor_total : Q;
  km_saida : option Z;
  km_volta : option Z;
  km_franquia : option Z;
  adiantamento : Q;
  valor_multas : Q;
  valor_danos : Q;
  valor_outros : Q;
  desconto_cliente : Q;
  meia_diaria : bool;
  total_diarias : Q;
  pagamento_parcial_entrega : Q;
  valor_restante : Q
}.

(** The status of a fine is one of the three options of its select box, which
    are the three values the schema's CHECK admits. *)
Inductive StatusMulta : Type := Pendente | Paga | Isentada.

Definition status_multa_texto (s : StatusMulta) : string :=
  match s with
  | Pendente => "Pendente"
  | Paga => "Paga"
  | Isentada => "Isentada"
  end.

Record Multa : Type := mkMulta {
  multa_id : Z;
  m_reserva_id : Z;
  tipo : string;
  valor : Q;
  data_multa : Z;
  multa_status : StatusMulta
}.

Record Database : Type := mkDatabase {
  carros : list Carro;
  clientes : list Cliente;
  reservas : list Reserva;
  multas : list Multa
}.

(** [UPDATE t SET ... WHERE id = k]: the rewritten table and the row count. *)
Definition sql_update {A : Type} (key : A -> Z) (k : Z) (set : A -> A)
    (t : list A) : list A * nat :=
  (List.map (fun row => if key row =? k then set row else row) t,
   length (List.filter (fun row => key row =? k) t)).

(** [SELECT * FROM t WHERE id = k] followed by [fetchone()] or [.iloc[0]]. *)
Definition select_by_id {A : Type} (key : A -> Z) (k : Z) (t : list A)
    : option A :=
  List.find (fun row => key row =? k) t.

(** A BIGSERIAL key: a number above those in use. *)
Definition next_id {A : Type} (key : A -> Z) (t : list A) : Z :=
  1 + List.fold_right (fun row m => Z.max (key row) m) 0 t.

(** ** Money columns ([init_db.py])

    A [DECIMAL(10,2)] column rounds the value it is handed to two decimals,
    half away from zero, and the statement is refused when the rounded value
    has more than eight digits before the point. *)

(** The value in hundredths, rounded. *)
Definition centavos (q : Q) : Z :=
  if Qle_bool 0 q then Qfloor (q * 100 + (1 # 2))
  else - Qfloor (- q * 100 + (1 # 2)).

Definition decimal_10_2 (q : Q) : Q := Qred (centavos q # 100).

Definition cabe_decimal_10_2 (q : Q) : bool :=
  Z.abs (centavos q) <? 10 ^ 10.

(** The money columns of a row of [reservas]. *)
Definition colunas_decimal (r : Reserva) : list Q :=
  [custo_lavagem r; valor_total r; adiantamento r; valor_multas r;
   valor_danos r; valor_outros r; desconto_cliente r; total_diarias r;
   pagamento_parcial_entrega r; valor_restante r].

(** The row as the table holds it. *)
Definition armazenar (r : Reserva) : Reserva :=
  {| reserva_id := reserva_id r;
     r_carro_id := r_carro_id r;
     r_cliente_id := r_cliente_id r;
     data_inicio := data_inicio r;
     data_fim := data_fim r;
     horario_entrega := horario_entrega r;
     reserva_status := reserva_status r;
     status := status r;
     custo_lavagem := decimal_10_2 (custo_lavagem r);
     valor_total := decimal_10_2 (valor_total r);
     km_saida := km_saida r;
     km_volta := km_volta r;
     km_franquia := km_franquia r;
     adiantamento := decimal_10_2 (adiantamento r);
     valor_multas := decimal_10_2 (valor_multas r);
     valor_danos := decimal_10_2 (valor_danos r);
     valor_outros := decimal_10_2 (valor_outros r);
     desconto_cliente := decimal_10_2 (desconto_cliente r);
     meia_diaria := meia_diaria r;
     total_diarias := decimal_10_2 (total_diarias r);
     pagamento_parcial_entrega := decimal_10_2 (pagamento_parcial_entrega r);
     valor_restante := decimal_10_2 (valor_restante r) |}.

(** ** Connections and transactions ([psycopg2], [db_utils.py])

    What lies outside the handlers: whether the store can be reached by a
    handler, whether the availability queries, which open connections of
    their own through [run_query_dataframe], get their answer, whether a
    commit goes through, what the document generator answers, and the day
    it is. *)

Record Ambiente : Type := mkAmbiente {
  conexao_ok : bool;
  consulta_ok : bool;
  commit_ok : bool;
  documento : result string;
  hoje : Z
}.

(** A connection with [autocommit = False]: the statements of the open
    transaction act on [pendente]; [confirmado] is what the store holds. *)
Record Conexao : Type := mkConexao {
  confirmado : Database;
  pendente : Database
}.

Definition tx (A : Type) : Type := Conexao -> result A * Conexao.

Definition tx_ret {A : Type} (a : A) : tx A := fun c => (Ok a, c).

Definition tx_raise {A : Type} (e : exn) : tx A := fun c => (Raise e, c).

Definition tx_bind {A B : Type} (m : tx A) (k : A -> tx B) : tx B :=
  fun c =>
    match m c with
    | (Ok a, c') => k a c'
    | (Raise e, c') => (Raise e, c')
    end.

Notation "'let*' x ':=' m 'in' k" := (tx_bind m (fun x => k))
  (at level 10, x name, m at level 100, k at level 200).

Definition get_db_connection (amb : Ambiente) (db : Database)
    : result Conexao :=
  if conexao_ok amb then Ok (mkConexao db db)
  else Raise (Exception "Erro ao conectar ao PostgreSQL").

Definition conn_commit (amb : Ambiente) : tx unit :=
  fun c =>
    if commit_ok amb then (Ok tt, mkConexao (pendente c) (pendente c))
    else (Raise (Exception "commit"), c).

Definition conn_rollback (c : Conexao) : Conexao :=
  mkConexao (confirmado c) (confirmado c).

(** [conn.close()]: what was not committed is gone. *)
Definition conn_close (c : Conexao) : Database := confirmado c.

(** A step that leaves the confirmed state alone. *)
Definition discreto {A : Type} (m : tx A) : Prop :=
  forall c r c', m c = (r, c') -> confirmado c' = confirmado c.

(** A body that, when it raises, has confirmed nothing. *)
Definition reversivel {A : Type} (m : tx A) : Prop :=
  forall c e c', m c = (Raise e, c') -> confirmado c' = confirmado c.

Definition com_carros (t : list Carro) (db : Database) : Database :=
  mkDatabase t (clientes db) (reservas db) (multas db).

Definition com_reservas (t : list Reserva) (db : Database) : Database :=
  mkDatabase (carros db) (clientes db) t (multas db).

Definition com_multas (t : list Multa) (db : Database) : Database :=
  mkDatabase (carros db) (clientes db) (reservas db) t.

(** [cursor.execute("UPDATE carros SET ... WHERE id=%s")], then
    [cursor.rowcount]. *)
Definition execute_update_carros (k : Z) (set : Carro -> Carro) : tx nat :=
  fun c =>
    let '(t, n) := sql_update carro_id k set (carros (pendente c)) in
    (Ok n, mkConexao (confirmado c) (com_carros t (pendente c))).

(** The table constraint [CHECK (data_fim >= data_inicio)] of [reservas]. *)
Definition check_datas (r : Reserva) : bool := data_inicio r <=? data_fim r.

(** [cursor.execute("UPDATE reservas SET ... WHERE id=%s")], then
    [cursor.rowcount]; the statement is refused by the store when a row it
    writes breaks the table constraint. *)
Definition execute_update_reservas (k : Z) (set : Reserva -> Reserva)
    : tx nat :=
  fun c =>
    let '(t, n) := sql_update reserva_id k set (reservas (pendente c)) in
    if List.forallb
         (fun r => if reserva_id r =? k then check_datas (set r) else true)
         (reservas (pendente c))
    then (Ok n, mkConexao (confirmado c) (com_reservas t (pendente c)))
    else (Raise (Exception "reservas_check"), c).

(** The same statement with the rounding of the money columns: the UPDATE
    of the edit, whose amounts need not have two decimals. *)
Definition execute_update_reservas_decimal (k : Z) (set : Reserva -> Reserva)
    : tx nat :=
  fun c =>
    if List.forallb
         (fun r => if reserva_id r =? k
                   then List.forallb cabe_decimal_10_2 (colunas_decimal (set r))
                   else true)
         (reservas (pendente c))
    then execute_update_reservas k (fun r => armazenar (set r)) c
    else (Raise (Exception "numeric field overflow"), c).

(** [run_query] of [db_utils.py] for a statement that writes: a connection
    of its own, the statement, a commit; an exception is caught, rolled back
    and returned as its text, never raised. *)
Definition run_query (amb : Ambiente) (stmt : tx unit) (db : Database)
    : option string * Database :=
  match get_db_connection amb db with
  | Raise _ => (Some "erro", db)
  | Ok conn =>
      match (let* _ := stmt in conn_commit amb) conn with
      | (Ok _, conn') => (None, conn_close conn')
      | (Raise _, conn') => (Some "erro", conn_close (conn_rollback conn'))
      end
  end.

(** ** Availability ([get_available_vehicles], [check_vehicle_availability]) *)

Definition reserva_ocupa (r : Reserva) : bool :=
  bool_decide (reserva_status r = "Reservada")
  || bool_decide (reserva_status r = "Locada").

(** The date condition of the inner SELECT; its parameters are
    [(data_fim, data_inicio)] of the request, in this order. *)
Definition periodo_conflita (permitir_dia_devolucao : bool)
    (inicio fim : Z) (r : Reserva) : bool :=
  if permitir_dia_devolucao
  then (data_inicio r <? fim) && (data_fim r >? inicio)
  else (data_inicio r <=? fim) && (data_fim r >=? inicio).

Definition carro_fora_de_uso (c : Carro) : bool :=
  bool_decide (carro_status c = "Indisponível")
  || bool_decide (carro_status c = "Excluído").

(** [c.id NOT IN (SELECT r.carro_id FROM reservas r WHERE ...)]. *)
Definition carro_ocupado (db : Database) (permitir_dia_devolucao : bool)
    (inicio fim : Z) (c : Carro) : bool :=
  List.existsb
    (fun r => (r_carro_id r =? carro_id c) && reserva_ocupa r
              && periodo_conflita permitir_dia_devolucao inicio fim r)
    (reservas db).

(** [run_query_dataframe] of [db_utils.py]: the rows of the SELECT, and an
    empty frame when the query did not go through. *)
Definition run_query_dataframe {A : Type} (amb : Ambiente) (linhas : list A)
    : list A :=
  if consulta_ok amb then linhas else [].

Definition get_available_vehicles (amb : Ambiente) (db : Database)
    (inicio fim : Z) (permitir_dia_devolucao : bool) : list Carro :=
  run_query_dataframe amb
    (List.filter
       (fun c => negb (carro_fora_de_uso c)
                 && negb (carro_ocupado db permitir_dia_devolucao inicio fim c))
       (carros db)).

(** [if reserva_id_to_exclude:] holds for an id that is given and not zero.
    The SELECT gives one row, the count; on an empty frame the function
    answers [True]. *)
Definition check_vehicle_availability (amb : Ambiente) (db : Database)
    (carro : Z) (inicio fim : Z) (reserva_id_to_exclude : option Z) : bool :=
  let excluida (r : Reserva) :=
    match reserva_id_to_exclude with
    | Some k => if k =? 0 then false else reserva_id r =? k
    | None => false
    end in
  let result :=
    run_query_dataframe amb
      [length
         (List.filter
            (fun r => (r_carro_id r =? carro) && reserva_ocupa r
                      && periodo_conflita false inicio fim r
                      && negb (excluida r))
            (reservas db))] in
  match result with
  | count :: _ => Nat.eqb count 0%nat
  | [] => true
  end.

(** ** Fleet: the "Marcar como EXCLUÍDO" button ([app.py], Frota) *)

Definition set_carro_status (s : string) (c : Carro) : Carro :=
  mkCarro (carro_id c) (placa c) (diaria c) (preco_km c) (km_atual c) s.

(** The handler of the button.  [dados_atuais] is the row of the vehicle as
    the page loaded it.  The arguments of [run_query] are evaluated before
    the call, so a failing dictionary lookup among them ends the run with
    the query not issued. *)
Definition marcar_como_excluido (amb : Ambiente) (db : Database)
    (id_edit : Z) (dados_atuais : Carro) : outcome unit * Database :=
  match getitem STATUS_CARRO "LOCADO" with
  | Raise e => (Failed e, db)
  | Ok locado =>
      match getitem STATUS_CARRO "RESERVADO" with
      | Raise e => (Failed e, db)
      | Ok reservado =>
          if bool_decide (carro_status dados_atuais = locado)
             || bool_decide (carro_status dados_atuais = reservado)
          then (Refused "Não é possível excluir. Finalize a pendência primeiro.",
                db)
          else
            match getitem STATUS_CARRO "EXCLUÍDO" with
            | Raise e => (Failed e, db)
            | Ok excluido =>
                (Done tt,
                 snd (run_query amb
                        (let* _ := execute_update_carros id_edit
                                     (set_carro_status excluido) in
                         tx_ret tt)
                        db))
            end
      end
  end.

(** ** Pricing at creation ([app.py], Reservas Simplificadas) *)

Definition dias_periodo (inicio fim : Z) : Z := Z.max 1 (fim - inicio + 0).

(** [valor_diarias]: the days at the daily rate, the first of them at half
    the rate when [meia_diaria] is ticked. *)
Definition valor_diarias (diaria : Q) (dias : Z) (meia_diaria : bool) : Q :=
  if meia_diaria && (dias >? 0)
  then (diaria * inject_Z (dias - 1) + diaria * (1 # 2))%Q
  else (diaria * inject_Z dias)%Q.

Definition total_diarias_reserva (diaria : Q) (dias : Z) (meia_diaria : bool)
    (desconto : Q) : Q :=
  Qmax 0 (valor_diarias diaria dias meia_diaria - desconto).

(** What the operator submitted in the creation form. *)
Record NovaReserva : Type := mkNovaReserva {
  nr_inicio : Z;
  nr_fim : Z;
  nr_permitir_dia_devolucao : bool;
  nr_cliente : Z;
  nr_carro : Z;
  nr_meia_diaria : bool;
  nr_desconto : Q;
  nr_km_franquia : Z;
  nr_adiantamento : Q
}.

(** The row of the INSERT.  [dados_carro] is a row of the availability
    query, which does not select [km_atual]: [km_saida_registrado] is 0. *)
Definition nova_reserva_row (k : Z) (f : NovaReserva) (dados_carro : Carro)
    : Reserva :=
  let dias := dias_periodo (nr_inicio f) (nr_fim f) in
  let total :=
    total_diarias_reserva (diaria dados_carro) dias (nr_meia_diaria f)
      (nr_desconto f) in
  let valor_total := total in
  {| reserva_id := k;
     r_carro_id := nr_carro f;
     r_cliente_id := nr_cliente f;
     data_inicio := nr_inicio f;
     data_fim := nr_fim f;
     horario_entrega := None;
     reserva_status := "Reservada";
     status := "Ativa";
     custo_lavagem := 0;
     valor_total := valor_total;
     km_saida := Some 0;
     km_volta := None;
     km_franquia := Some (nr_km_franquia f);
     adiantamento := nr_adiantamento f;
     valor_multas := 0;
     valor_danos := 0;
     valor_outros := 0;
     desconto_cliente := nr_desconto f;
     meia_diaria := nr_meia_diaria f;
     total_diarias := total;
     pagamento_parcial_entrega := 0;
     valor_restante := (valor_total - nr_adiantamento f)%Q |}.

(** The INSERT: the money columns round, and the statement is refused when
    one of them does not fit or the dates break the table constraint. *)
Definition execute_insert_reserva (r : Reserva) : tx unit :=
  fun c =>
    if negb (List.forallb cabe_decimal_10_2 (colunas_decimal r))
    then (Raise (Exception "numeric field overflow"), c)
    else if check_datas r
    then (Ok tt,
          mkConexao (confirmado c)
            (com_reservas (reservas (pendente c) ++ [armazenar r])
               (pendente c)))
    else (Raise (Exception "reservas_check"), c).

Definition clientes_ativos (db : Database) : list Cliente :=
  List.filter (fun c => bool_decide (cliente_status c = "Ativo")) (clientes db).

(** The "Salvar reserva" button.  The result is the key of the new row, or
    nothing when [run_query] came back with an error text. *)
Definition salvar_reserva (amb : Ambiente) (db : Database) (f : NovaReserva)
    : outcome (option Z) * Database :=
  if negb (nr_inicio f <=? nr_fim f) then (Refused "", db) else
  let carros_disponiveis :=
    get_available_vehicles amb db (nr_inicio f) (nr_fim f)
      (nr_permitir_dia_devolucao f) in
  match carros_disponiveis with
  | [] => (Refused "Nenhum veículo disponível para o período selecionado.", db)
  | _ =>
    match select_by_id cliente_id (nr_cliente f) (clientes_ativos db),
          select_by_id carro_id (nr_carro f) carros_disponiveis with
    | Some _, Some dados_carro =>
        let dias := dias_periodo (nr_inicio f) (nr_fim f) in
        let valor_total :=
          total_diarias_reserva (diaria dados_carro) dias (nr_meia_diaria f)
            (nr_desconto f) in
        match number_input 0 None (nr_desconto f),
              number_input_int 0 (nr_km_franquia f),
              number_input 0
                (if Qle_bool valor_total 0 then None else Some valor_total)
                (nr_adiantamento f) with
        | Some _, Some _, Some _ =>
            let k := next_id reserva_id (reservas db) in
            match run_query amb
                    (execute_insert_reserva (nova_reserva_row k f dados_carro))
                    db with
            | (None, db') => (Done (Some k), db')
            | (Some _, db') => (Done None, db')
            end
        | _, _, _ => (Refused "valor fora dos limites do campo", db)
        end
    | _, _ => (Refused "Selecione o cliente e o veículo", db)
    end
  end.

(** ** Editing a reservation ([app.py], Gerenciar Reservas) *)

(** What the operator submitted in the edit form. *)
Record Edicao : Type := mkEdicao {
  e_reserva : Z;
  e_cliente : Z;
  e_carro : Z;
  e_inicio : Z;
  e_fim : Z;
  e_horario : option Z;
  e_status : string;
  e_reserva_status : string;
  e_km_saida : Z;
  e_km_volta : Z;
  e_km_franquia : Z;
  e_custo_lavagem : Q;
  e_adiantamento : Q;
  e_pagamento_parcial : Q;
  e_valor_multas : Q;
  e_valor_danos : Q;
  e_valor_outros : Q;
  e_desconto : Q;
  e_meia_diaria : bool
}.

(** [carros_query]: the vehicles free in the stored window of the
    reservation, this reservation itself set aside. *)
Definition carros_df (db : Database) (r : Reserva) : list Carro :=
  List.filter
    (fun c =>
       negb (carro_fora_de_uso c)
       && negb (List.existsb
                  (fun x => (r_carro_id x =? carro_id c) && reserva_ocupa x
                            && periodo_conflita false (data_inicio r)
                                 (data_fim r) x
                            && negb (reserva_id x =? reserva_id r))
                  (reservas db)))
    (carros db).

(** [drop_duplicates(subset='id', keep='first')]. *)
Fixpoint drop_duplicates (vistos : list Z) (t : list Carro) : list Carro :=
  match t with
  | [] => []
  | c :: t' =>
      if List.existsb (Z.eqb (carro_id c)) vistos
      then drop_duplicates vistos t'
      else c :: drop_duplicates (carro_id c :: vistos) t'
  end.

Definition datas_alteradas (r : Reserva) (f : Edicao) : bool :=
  negb (e_inicio f =? data_inicio r) || negb (e_fim f =? data_fim r).

Definition carros_disponiveis_edit (amb : Ambiente) (db : Database)
    (r : Reserva) (f : Edicao)
    : list Carro :=
  drop_duplicates []
    (if datas_alteradas r f then
       get_available_vehicles amb db (e_inicio f) (e_fim f) false
       ++ (if check_vehicle_availability amb db (r_carro_id r) (e_inicio f)
                (e_fim f) (Some (reserva_id r))
           then List.filter (fun c => carro_id c =? r_carro_id r)
                  (carros_df db r)
           else [])
     else carros_df db r).

Definition campos_calculo_alterados (r : Reserva) (f : Edicao) : bool :=
  datas_alteradas r f
  || negb (Bool.eqb (e_meia_diaria f) (meia_diaria r))
  || negb (Qeq_bool (e_desconto f) (desconto_cliente r)).

(** [total_diarias_calculado]: recomputed from the rate of the chosen
    vehicle when the dates, the half-day flag or the discount changed, and
    the stored figure otherwise.  The discount is not taken off here. *)
Definition total_diarias_calculado (amb : Ambiente) (db : Database)
    (r : Reserva) (f : Edicao)
    : Q :=
  if campos_calculo_alterados r f then
    match select_by_id carro_id (e_carro f)
            (carros_disponiveis_edit amb db r f) with
    | Some carro_info =>
        let diaria_veiculo := diaria carro_info in
        let dias_periodo := Z.max 1 (e_fim f - e_inicio f) in
        let valor_diarias_calculado :=
          if e_meia_diaria f && (dias_periodo >? 0)
          then (diaria_veiculo * inject_Z (dias_periodo - 1)
                + diaria_veiculo * (1 # 2))%Q
          else (diaria_veiculo * inject_Z dias_periodo)%Q in
        valor_diarias_calculado
    | None => total_diarias r
    end
  else total_diarias r.

(** [valor_total_calculado]: here the discount is taken off, from the sum
    of the days and the extra costs. *)
Definition valor_total_calculado (amb : Ambiente) (db : Database)
    (r : Reserva) (f : Edicao)
    : Q :=
  match select_by_id carro_id (e_carro f) (carros db) with
  | Some _ =>
      let subtotal_calculado :=
        (total_diarias_calculado amb db r f + e_valor_multas f + e_valor_danos f
         + e_valor_outros f + e_custo_lavagem f)%Q in
      Qmax 0 (subtotal_calculado - e_desconto f)
  | None =>
      Qmax 0 (e_valor_multas f + e_valor_danos f + e_valor_outros f
              + e_custo_lavagem f - e_desconto f)
  end.

(** [campos_update], applied to the row. *)
Definition editar_row (amb : Ambiente) (db : Database) (r : Reserva)
    (f : Edicao)
    (x : Reserva) : Reserva :=
  let total := valor_total_calculado amb db r f in
  {| reserva_id := reserva_id x;
     r_carro_id := e_carro f;
     r_cliente_id := e_cliente f;
     data_inicio := e_inicio f;
     data_fim := e_fim f;
     horario_entrega := e_horario f;
     reserva_status := e_reserva_status f;
     status := e_status f;
     custo_lavagem := e_custo_lavagem f;
     valor_total := total;
     km_saida := Some (e_km_saida f);
     km_volta := Some (e_km_volta f);
     km_franquia := Some (e_km_franquia f);
     adiantamento := e_adiantamento f;
     valor_multas := e_valor_multas f;
     valor_danos := e_valor_danos f;
     valor_outros := e_valor_outros f;
     desconto_cliente := e_desconto f;
     meia_diaria := e_meia_diaria f;
     total_diarias := total_diarias_calculado amb db r f;
     pagamento_parcial_entrega := e_pagamento_parcial f;
     valor_restante :=
       (total - e_adiantamento f - e_pagamento_parcial f)%Q |}.

Definition tx_getitem (d : gmap string string) (k : string) : tx string :=
  fun c =>
    match getitem d k with
    | Ok v => (Ok v, c)
    | Raise e => (Raise e, c)
    end.

(** The transaction of "Salvar alterações". *)
Definition transacao_edicao (amb : Ambiente) (db : Database) (r : Reserva)
    (f : Edicao) : tx unit :=
  let* n := execute_update_reservas_decimal (e_reserva f)
              (editar_row amb db r f) in
  if Nat.eqb n 0 then tx_raise (Exception "Nenhuma linha foi atualizada.") else
  let* disponivel := tx_getitem STATUS_CARRO "DISPONIVEL" in
  let* reservada := tx_getitem STATUS_RESERVA "RESERVADA" in
  let* status_carro_destino :=
    if bool_decide (e_reserva_status f = reservada)
    then tx_getitem STATUS_CARRO "RESERVADO"
    else
      let* locada := tx_getitem STATUS_RESERVA "LOCADA" in
      if bool_decide (e_reserva_status f = locada)
      then tx_getitem STATUS_CARRO "LOCADO"
      else tx_ret disponivel in
  let* _ := execute_update_carros (e_carro f)
              (set_carro_status status_carro_destino) in
  let* _ :=
    if negb (e_carro f =? r_carro_id r)
    then
      let* disponivel' := tx_getitem STATUS_CARRO "DISPONIVEL" in
      execute_update_carros (r_carro_id r) (set_carro_status disponivel')
    else tx_ret 0%nat in
  conn_commit amb.

(** The shape the three transactional handlers share:
    [conn = get_db_connection(); try: ...; conn.commit() except: conn.rollback()
    finally: conn.close()]. *)
Definition em_transacao {A : Type} (amb : Ambiente) (db : Database)
    (corpo : tx A) : result A * Database :=
  match get_db_connection amb db with
  | Raise e => (Raise e, db)
  | Ok conn =>
      match corpo conn with
      | (Ok a, conn') => (Ok a, conn_close conn')
      | (Raise e, conn') => (Raise e, conn_close (conn_rollback conn'))
      end
  end.

Definition tem_cliente (db : Database) (r : Reserva) : bool :=
  List.existsb (fun c => cliente_id c =? r_cliente_id r) (clientes db).

Definition tem_carro (db : Database) (r : Reserva) : bool :=
  List.existsb (fun c => carro_id c =? r_carro_id r) (carros db).

(** [reservas_edicao_df]: the reservations open to editing. *)
Definition reservas_edicao (db : Database) : list Reserva :=
  List.filter
    (fun r => bool_decide (status r = "Ativa") && tem_cliente db r
              && tem_carro db r)
    (reservas db).

Definition valores_status_reserva : list string :=
  ["Reservada"; "Locada"; "Cancelada"; "Finalizada"].

Definition campos_edicao_validos (amb : Ambiente) (f : Edicao) : bool :=
  (hoje amb <=? e_inicio f) && (e_inicio f <=? e_fim f)
  && (0 <=? e_km_saida f) && (e_km_saida f <=? e_km_volta f)
  && (0 <=? e_km_franquia f)
  && Qle_bool 0 (e_custo_lavagem f) && Qle_bool 0 (e_adiantamento f)
  && Qle_bool 0 (e_pagamento_parcial f) && Qle_bool 0 (e_valor_multas f)
  && Qle_bool 0 (e_valor_danos f) && Qle_bool 0 (e_valor_outros f)
  && Qle_bool 0 (e_desconto f)
  && bool_decide (e_status f ∈ ["Ativa"; "Inativa"])
  && bool_decide (e_reserva_status f ∈ valores_status_reserva).

(** The "Salvar alterações" button. *)
Definition salvar_alteracoes (amb : Ambiente) (db : Database) (f : Edicao)
    : outcome unit * Database :=
  match select_by_id reserva_id (e_reserva f) (reservas_edicao db) with
  | None => (Refused "Selecione uma reserva", db)
  | Some r =>
      match clientes db, carros_df db r with
      | [], _ | _, [] =>
          (Refused "Cadastre clientes e veículos para editar reservas.", db)
      | _, _ =>
          if negb (campos_edicao_validos amb f)
          then (Refused "valor fora dos limites do campo", db)
          else
            match select_by_id cliente_id (e_cliente f) (clientes db),
                  select_by_id carro_id (e_carro f)
                    (carros_disponiveis_edit amb db r f) with
            | Some _, Some _ =>
                if e_fim f <? e_inicio f
                then (Refused "A data de devolução precisa ser posterior.", db)
                else if negb (check_vehicle_availability amb db (e_carro f)
                                (e_inicio f) (e_fim f) (Some (e_reserva f)))
                then (Refused "O veículo não está disponível para o período.", db)
                else
                  match em_transacao amb db (transacao_edicao amb db r f) with
                  | (Ok _, db') => (Done tt, db')
                  | (Raise e, db') => (Failed e, db')
                  end
            | _, _ => (Refused "Selecione o cliente e o veículo", db)
            end
      end
  end.

(** ** Delivery ([app.py], Entrega do veículo) *)

(** What the operator submitted in the delivery form. *)
Record Entrega : Type := mkEntrega {
  en_reserva : Z;
  en_km_confirma : Z;
  en_data_saida : Z;
  en_horario : option Z;
  en_valor_pago_agora : Q
}.

Definition entregar_carro (locado : string) (km_confirma : Z) (c : Carro)
    : Carro :=
  mkCarro (carro_id c) (placa c) (diaria c) (preco_km c) km_confirma locado.

(** The SET clause of the delivery: odometer-out, start date, status, time,
    advance, total and balance; the other columns stay. *)
Definition entregar_row (km_confirma data_saida : Z) (locada : string)
    (horario : option Z) (adiantamento valor_total valor_restante : Q)
    (x : Reserva) : Reserva :=
  {| reserva_id := reserva_id x;
     r_carro_id := r_carro_id x;
     r_cliente_id := r_cliente_id x;
     data_inicio := data_saida;
     data_fim := data_fim x;
     horario_entrega := horario;
     reserva_status := locada;
     status := status x;
     custo_lavagem := custo_lavagem x;
     valor_total := valor_total;
     km_saida := Some km_confirma;
     km_volta := km_volta x;
     km_franquia := km_franquia x;
     adiantamento := adiantamento;
     valor_multas := valor_multas x;
     valor_danos := valor_danos x;
     valor_outros := valor_outros x;
     desconto_cliente := desconto_cliente x;
     meia_diaria := meia_diaria x;
     total_diarias := total_diarias x;
     pagamento_parcial_entrega := pagamento_parcial_entrega x;
     valor_restante := valor_restante |}.

(** [gerar_contrato_pdf], with its exception wrapped as the handler does. *)
Definition gerar_documento (amb : Ambiente) (erro : string) : tx string :=
  fun c =>
    match documento amb with
    | Ok pdf_bytes => (Ok pdf_bytes, c)
    | Raise _ => (Raise (Exception erro), c)
    end.

(** The inner [try] of [finalizar_entrega]. *)
Definition transacao_entrega (amb : Ambiente) (carro id_reserva_sel : Z)
    (km_confirma data_saida : Z) (horario : option Z)
    (dados_carro : Carro) (dados_reserva : Reserva)
    (adiantamento valor_restante : Q) : tx string :=
  let* locado := tx_getitem STATUS_CARRO "LOCADO" in
  let* n := execute_update_carros carro (entregar_carro locado km_confirma) in
  if Nat.eqb n 0 then tx_raise (Exception "Carro não encontrado") else
  let dias_locacao := Z.max 1 (data_fim dados_reserva - data_saida + 0) in
  let valor_total := (diaria dados_carro * inject_Z dias_locacao)%Q in
  let* locada := tx_getitem STATUS_RESERVA "LOCADA" in
  let* m := execute_update_reservas id_reserva_sel
              (entregar_row km_confirma data_saida locada horario
                 adiantamento valor_total valor_restante) in
  if Nat.eqb m 0 then tx_raise (Exception "Falha ao atualizar a reserva") else
  let* pdf_bytes := gerar_documento amb "Erro ao gerar contrato" in
  let* _ := conn_commit amb in
  tx_ret pdf_bytes.

(** [finalizar_entrega]: [(sucesso, pdf_bytes)] and the database afterwards. *)
Definition finalizar_entrega (amb : Ambiente) (db : Database)
    (carro id_reserva_sel km_confirma data_saida : Z) (horario : option Z)
    (dados_carro : Carro) (dados_reserva : Reserva)
    (adiantamento valor_restante : Q)
    : (bool * option string) * Database :=
  match em_transacao amb db
          (transacao_entrega amb carro id_reserva_sel km_confirma data_saida
             horario dados_carro dados_reserva adiantamento valor_restante) with
  | (Ok pdf_bytes, db') => ((true, Some pdf_bytes), db')
  | (Raise _, db') => ((false, None), db')
  end.

(** [get_reservas_entrega]: the reservations waiting for delivery. *)
Definition reservas_entrega (db : Database) : list Reserva :=
  List.filter
    (fun r =>
       bool_decide (status r = "Ativa")
       && bool_decide (reserva_status r = "Reservada")
       && tem_cliente db r
       && List.existsb
            (fun c => (carro_id c =? r_carro_id r)
                      && negb (bool_decide (carro_status c = "Locado")))
            (carros db))
    (reservas db).

Definition validar_cnh_simplificada (amb : Ambiente) (dados_cliente : Cliente)
    : bool :=
  match validade_cnh dados_cliente with
  | None => false
  | Some validade_date => negb (validade_date <? hoje amb)
  end.

(** [int(dados_reserva.get('km_saida') or dados_carro.get('km_atual') or 0)]. *)
Definition km_saida_entrega (dados_reserva : Reserva) (dados_carro : Carro)
    : Z :=
  match km_saida dados_reserva with
  | Some k => if k =? 0 then km_atual dados_carro else k
  | None => km_atual dados_carro
  end.

(** [valor_previsto]: the stored total of the days, or, when that is zero,
    the rate times the days of the window counted inclusively. *)
Definition valor_previsto (dados_reserva : Reserva) (dados_carro : Carro) : Q :=
  if Qeq_bool (total_diarias dados_reserva) 0
  then
    let dias_previstos :=
      Z.max 1 (data_fim dados_reserva - data_inicio dados_reserva + 1) in
    (inject_Z dias_previstos * diaria dados_carro)%Q
  else total_diarias dados_reserva.

(** The "Confirmar entrega" button.  The rows are those [carregar_dados]
    joins for the chosen reservation. *)
Definition confirmar_entrega (amb : Ambiente) (db : Database) (f : Entrega)
    : outcome string * Database :=
  match select_by_id reserva_id (en_reserva f) (reservas_entrega db) with
  | None => (Refused "Selecione a reserva", db)
  | Some dados_reserva =>
      match select_by_id carro_id (r_carro_id dados_reserva) (carros db),
            select_by_id cliente_id (r_cliente_id dados_reserva) (clientes db)
      with
      | Some dados_carro, Some dados_cliente =>
          if negb (validar_cnh_simplificada amb dados_cliente)
          then (Refused "CNH expirada ou não informada", db)
          else
            let km_saida := km_saida_entrega dados_reserva dados_carro in
            let valor_previsto := valor_previsto dados_reserva dados_carro in
            let adiantamento_reserva := adiantamento dados_reserva in
            let saldo := Qmax 0 (valor_previsto - adiantamento_reserva) in
            match number_input_int km_saida (en_km_confirma f),
                  number_input 0 (Some (Qmax saldo 0)) (en_valor_pago_agora f)
            with
            | Some km_confirma, Some valor_pago_agora =>
                let total_pago := (adiantamento_reserva + valor_pago_agora)%Q in
                let valor_restante := Qmax 0 (valor_previsto - total_pago) in
                match finalizar_entrega amb db (r_carro_id dados_reserva)
                        (en_reserva f) km_confirma (en_data_saida f)
                        (en_horario f) dados_carro dados_reserva total_pago
                        valor_restante with
                | ((true, Some pdf_bytes), db') => (Done pdf_bytes, db')
                | (_, db') =>
                    (Failed (Exception "Erro ao finalizar entrega"), db')
                end
            | _, _ => (Refused "valor fora dos limites do campo", db)
            end
      | _, _ => (Refused "Erro ao carregar dados", db)
      end
  end.

(** ** Return ([app.py], Devolução) *)

(** What the operator submitted in the return form. *)
Record Devolucao : Type := mkDevolucao {
  dv_reserva : Z;
  dv_km_volta : Z;
  dv_cobrar_lavagem : bool;
  dv_valor_lavagem : Q;
  dv_valor_multas : Q;
  dv_valor_danos : Q;
  dv_valor_outros : Q;
  dv_valor_pago : Q
}.

(** [query_dev]: the rentals that are out. *)
Definition locacoes_pendentes (db : Database) : list Reserva :=
  List.filter
    (fun r => bool_decide (status r = "Ativa")
              && bool_decide (reserva_status r = "Locada")
              && tem_carro db r && tem_cliente db r)
    (reservas db).

(** [int(reserva['km_saida'])], 0 when there is none. *)
Definition km_saida_safe (reserva : Reserva) : Z :=
  match km_saida reserva with
  | Some k => k
  | None => 0
  end.

(** The allowance the handler goes on with: the stored one, and zero once
    the kilometres driven are more than it. *)
Definition km_franquia_reserva (km_rodados_totais : Z) (franquia : option Z)
    : Z :=
  let km_franquia_reserva :=
    match franquia with
    | Some k => k
    | None => 0
    end in
  if km_rodados_totais >? km_franquia_reserva then 0 else km_franquia_reserva.

Definition km_a_cobrar (km_volta km_saida_safe : Z) (franquia : option Z) : Z :=
  let km_rodados_totais := km_volta - km_saida_safe in
  Z.max 0 (km_rodados_totais - km_franquia_reserva km_rodados_totais franquia).

Definition custo_km (km_volta km_saida_safe : Z) (franquia : option Z)
    (preco_km : Q) : Q :=
  (inject_Z (km_a_cobrar km_volta km_saida_safe franquia) * preco_km)%Q.

(** The same charge as [gerar_recibo_para_download] works it out when a
    receipt is asked for again from the history. *)
Definition custo_km_recibo (km_volta km_saida : Z) (franquia : option Z)
    (preco_km : Q) : Q :=
  (inject_Z
     (Z.max 0
        (km_volta - km_saida
         - match franquia with Some k => k | None => 0 end))
   * preco_km)%Q.

(** [x > 0] on money. *)
Definition positivo (x : Q) : bool := negb (Qle_bool x 0).

(** The figures the page works out before the button is pressed. *)
Record Contas : Type := mkContas {
  ct_data_devolucao : Z;
  ct_dias_cobranca : Z;
  ct_km_rodados : Z;
  ct_km_franquia : Z;
  ct_km_a_cobrar : Z;
  ct_custo_km : Q;
  ct_custo_diarias : Q;
  ct_valor_lavagem : Q;
  ct_subtotal : Q;
  ct_total_final : Q;
  ct_valor_pago : Q;
  ct_valor_restante : Q
}.

Definition contas_devolucao (amb : Ambiente) (reserva : Reserva)
    (preco : Q) (f : Devolucao) : Contas :=
  let km_volta := dv_km_volta f in
  let data_saida_real := data_inicio reserva in
  let data_devolucao :=
    if hoje amb <? data_saida_real then data_saida_real else hoje amb in
  let dias := data_devolucao - data_saida_real in
  let dias_cobranca := Z.max dias 1 in
  let km_rodados_totais := km_volta - km_saida_safe reserva in
  let franquia := km_franquia_reserva km_rodados_totais (km_franquia reserva) in
  let custo := custo_km km_volta (km_saida_safe reserva) (km_franquia reserva)
                 preco in
  let custo_diarias_com_desconto := total_diarias reserva in
  let valor_lavagem := if dv_cobrar_lavagem f then dv_valor_lavagem f else 0%Q in
  let subtotal_sem_adiantamento :=
    (custo_diarias_com_desconto + custo + valor_lavagem + dv_valor_multas f
     + dv_valor_danos f + dv_valor_outros f)%Q in
  let total_final := (subtotal_sem_adiantamento - adiantamento reserva)%Q in
  let valor_pago := if positivo total_final then dv_valor_pago f else 0%Q in
  let valor_restante :=
    if positivo total_final then Qmax 0 (total_final - valor_pago) else 0%Q in
  {| ct_data_devolucao := data_devolucao;
     ct_dias_cobranca := dias_cobranca;
     ct_km_rodados := km_rodados_totais;
     ct_km_franquia := franquia;
     ct_km_a_cobrar := km_a_cobrar km_volta (km_saida_safe reserva)
                         (km_franquia reserva);
     ct_custo_km := custo;
     ct_custo_diarias := custo_diarias_com_desconto;
     ct_valor_lavagem := valor_lavagem;
     ct_subtotal := subtotal_sem_adiantamento;
     ct_total_final := total_final;
     ct_valor_pago := valor_pago;
     ct_valor_restante := valor_restante |}.

(** The bounds of the widgets of the return form. *)
Definition campos_devolucao_validos (amb : Ambiente) (reserva : Reserva)
    (preco : Q) (f : Devolucao) : bool :=
  let total_final := ct_total_final (contas_devolucao amb reserva preco f) in
  match number_input_int (km_saida_safe reserva) (dv_km_volta f),
        (if dv_cobrar_lavagem f then number_input 0 None (dv_valor_lavagem f)
         else Some 0%Q),
        number_input 0 None (dv_valor_multas f),
        number_input 0 None (dv_valor_danos f),
        number_input 0 None (dv_valor_outros f),
        (if positivo total_final
         then number_input 0 (Some (total_final * 2)%Q) (dv_valor_pago f)
         else Some 0%Q) with
  | Some _, Some _, Some _, Some _, Some _, Some _ => true
  | _, _, _, _, _, _ => false
  end.

(** The SET clause of the return. *)
Definition devolver_row (km : Z) (ct : Contas) (multas_v danos outros : Q)
    (valor_restante_final : Q) (x : Reserva) : Reserva :=
  {| reserva_id := reserva_id x;
     r_carro_id := r_carro_id x;
     r_cliente_id := r_cliente_id x;
     data_inicio := data_inicio x;
     data_fim := ct_data_devolucao ct;
     horario_entrega := horario_entrega x;
     reserva_status := "Finalizada";
     status := "Finalizada";
     custo_lavagem := ct_valor_lavagem ct;
     valor_total := ct_subtotal ct;
     km_saida := km_saida x;
     km_volta := Some km;
     km_franquia := km_franquia x;
     adiantamento := adiantamento x;
     valor_multas := multas_v;
     valor_danos := danos;
     valor_outros := outros;
     desconto_cliente := desconto_cliente x;
     meia_diaria := meia_diaria x;
     total_diarias := ct_custo_diarias ct;
     pagamento_parcial_entrega := pagamento_parcial_entrega x;
     valor_restante := valor_restante_final |}.

Definition devolver_carro (disponivel : string) (km : Z) (c : Carro) : Carro :=
  mkCarro (carro_id c) (placa c) (diaria c) (preco_km c) km disponivel.

(** [SELECT * FROM reservas WHERE id = %s FOR UPDATE], [fetchone()]. *)
Definition tx_select_reserva (k : Z) : tx (option Reserva) :=
  fun c => (Ok (select_by_id reserva_id k (reservas (pendente c))), c).

Definition valor_restante_final (ct : Contas) : Q :=
  if positivo (ct_total_final ct) then Qmax 0 (ct_valor_restante ct) else 0%Q.

(** The inner [try] of "Finalizar Devolução e Liberar Veículo". *)
Definition transacao_devolucao (amb : Ambiente) (reserva : Reserva)
    (f : Devolucao) (ct : Contas) : tx string :=
  let* reserva_atual := tx_select_reserva (dv_reserva f) in
  match reserva_atual with
  | None => tx_raise (Exception "Reserva não encontrada")
  | Some _ =>
      let* n := execute_update_reservas (dv_reserva f)
                  (devolver_row (dv_km_volta f) ct (dv_valor_multas f)
                     (dv_valor_danos f) (dv_valor_outros f)
                     (valor_restante_final ct)) in
      if Nat.eqb n 0 then tx_raise (Exception "Falha ao atualizar a reserva")
      else
        let* disponivel := tx_getitem STATUS_CARRO "DISPONIVEL" in
        let* m := execute_update_carros (r_carro_id reserva)
                    (devolver_carro disponivel (dv_km_volta f)) in
        if Nat.eqb m 0
        then tx_raise (Exception "Falha ao atualizar o status do veículo")
        else
          let* pdf_bytes := gerar_documento amb "Erro ao gerar recibo" in
          let* _ := conn_commit amb in
          tx_ret pdf_bytes
  end.

(** [recibo_dados]: the figures of a receipt, with the document. *)
Record Recibo : Type := mkRecibo {
  rc_km_rodados : Z;
  rc_km_franquia : Z;
  rc_km_excedente : Z;
  rc_custo_km : Q;
  rc_custo_diarias : Q;
  rc_valor_pago : Q;
  rc_valor_restante : Q;
  rc_total_final : Q;
  rc_pdf : string
}.

(** The receipt drawn inside the transaction. *)
Definition recibo_dados (ct : Contas) (pdf_bytes : string) : Recibo :=
  {| rc_km_rodados := ct_km_rodados ct;
     rc_km_franquia := ct_km_franquia ct;
     rc_km_excedente := Z.max 0 (ct_km_rodados ct - ct_km_franquia ct);
     rc_custo_km := ct_custo_km ct;
     rc_custo_diarias := ct_custo_diarias ct;
     rc_valor_pago :=
       if positivo (ct_total_final ct)
       then Qmin (ct_valor_pago ct) (ct_total_final ct) else 0%Q;
     rc_valor_restante := valor_restante_final ct;
     rc_total_final := ct_total_final ct;
     rc_pdf := pdf_bytes |}.

(** The return handler: the chosen rental, the widgets, the figures, the
    transaction, with the receipt drawn inside it. *)
Definition finalizar_devolucao (amb : Ambiente) (db : Database)
    (f : Devolucao) : outcome Recibo * Database :=
  match select_by_id reserva_id (dv_reserva f) (locacoes_pendentes db) with
  | None => (Refused "Selecione a locação pendente", db)
  | Some reserva =>
      match select_by_id carro_id (r_carro_id reserva) (carros db) with
      | None => (Refused "Selecione a locação pendente", db)
      | Some carro =>
          if negb (campos_devolucao_validos amb reserva (preco_km carro) f)
          then (Refused "valor fora dos limites do campo", db)
          else
            let ct := contas_devolucao amb reserva (preco_km carro) f in
            match em_transacao amb db (transacao_devolucao amb reserva f ct)
            with
            | (Ok pdf_bytes, db') => (Done (recibo_dados ct pdf_bytes), db')
            | (Raise e, db') => (Failed e, db')
            end
      end
  end.

(** The receipt drawn after the transaction.  Once the [try] of the button
    is over, whether it went through or not, the page reads the vehicle
    again and calls [gerar_recibo_pdf] a second time; the figures are those
    of the page, but for the payment: [valor_pago] and [valor_restante] are
    worked out anew from the balance of the page. *)
Definition recibo_dados_final (ct : Contas) (pdf_bytes : string) : Recibo :=
  let valor_pago := ct_valor_pago ct in
  let valor_restante := ct_valor_restante ct in
  {| rc_km_rodados := ct_km_rodados ct;
     rc_km_franquia := ct_km_franquia ct;
     rc_km_excedente := Z.max 0 (ct_km_rodados ct - ct_km_franquia ct);
     rc_custo_km := ct_custo_km ct;
     rc_custo_diarias := ct_custo_diarias ct;
     rc_valor_pago :=
       if positivo valor_restante then Qmin valor_pago valor_restante
       else 0%Q;
     rc_valor_restante :=
       if positivo valor_restante then Qmax 0 (valor_restante - valor_pago)
       else 0%Q;
     rc_total_final := ct_total_final ct;
     rc_pdf := pdf_bytes |}.

(** What [st.session_state.pdf_para_download] holds when the run of the
    button ends, the receipt offered for download: nothing when the button
    did not get to its [try]; else the second receipt, which replaces the
    one of the transaction.  [run_query(...).iloc[0]] on the vehicle ends
    the run when the store cannot be reached or the row is not there, and
    so does a failure of the generator. *)
Definition comprovante_devolucao (amb : Ambiente) (db : Database)
    (f : Devolucao) : result (option Recibo) :=
  match select_by_id reserva_id (dv_reserva f) (locacoes_pendentes db) with
  | None => Ok None
  | Some reserva =>
      match select_by_id carro_id (r_carro_id reserva) (carros db) with
      | None => Ok None
      | Some carro =>
          if negb (campos_devolucao_validos amb reserva (preco_km carro) f)
          then Ok None
          else
            let ct := contas_devolucao amb reserva (preco_km carro) f in
            let db' :=
              snd (em_transacao amb db (transacao_devolucao amb reserva f ct))
            in
            if negb (conexao_ok amb) then Raise (Exception "AttributeError")
            else
              match select_by_id carro_id (r_carro_id reserva) (carros db')
              with
              | None => Raise (Exception "IndexError")
              | Some _ =>
                  match documento amb with
                  | Ok pdf_bytes => Ok (Some (recibo_dados_final ct pdf_bytes))
                  | Raise e => Raise e
                  end
              end
      end
  end.

(** ** Fines ([app.py], Gestão de Multas) *)

Definition set_reserva_status_operacional (s : string) (x : Reserva)
    : Reserva :=
  {| reserva_id := reserva_id x;
     r_carro_id := r_carro_id x;
     r_cliente_id := r_cliente_id x;
     data_inicio := data_inicio x;
     data_fim := data_fim x;
     horario_entrega := horario_entrega x;
     reserva_status := reserva_status x;
     status := s;
     custo_lavagem := custo_lavagem x;
     valor_total := valor_total x;
     km_saida := km_saida x;
     km_volta := km_volta x;
     km_franquia := km_franquia x;
     adiantamento := adiantamento x;
     valor_multas := valor_multas x;
     valor_danos := valor_danos x;
     valor_outros := valor_outros x;
     desconto_cliente := desconto_cliente x;
     meia_diaria := meia_diaria x;
     total_diarias := total_diarias x;
     pagamento_parcial_entrega := pagamento_parcial_entrega x;
     valor_restante := valor_restante x |}.

Definition set_multa_status (s : StatusMulta) (m : Multa) : Multa :=
  mkMulta (multa_id m) (m_reserva_id m) (tipo m) (valor m) (data_multa m) s.

(** [UPDATE reservas SET status = ... WHERE id = %s] through [run_query]. *)
Definition atualizar_status_reserva (amb : Ambiente) (k : Z) (s : string)
    (db : Database) : Database :=
  snd (run_query amb
         (let* _ := execute_update_reservas k
                      (set_reserva_status_operacional s) in
          tx_ret tt)
         db).

(** The INSERT of a fine; the row must point at a reservation that exists. *)
Definition execute_insert_multa (m : Multa) : tx unit :=
  fun c =>
    match select_by_id reserva_id (m_reserva_id m) (reservas (pendente c)) with
    | Some _ =>
        (Ok tt,
         mkConexao (confirmado c)
           (com_multas (multas (pendente c) ++ [m]) (pendente c)))
    | None => (Raise (Exception "multas_reserva_id_fkey"), c)
    end.

(** What the operator submitted to register a fine. *)
Record NovaMulta : Type := mkNovaMulta {
  nm_data_consulta : Z;
  nm_reserva : Z;
  nm_tipo : string;
  nm_valor : Q;
  nm_data_hora : Z
}.

(** "Consultar veículos": the reservations that cover the day of the
    infraction. *)
Definition reservas_na_data (db : Database) (dia : Z) : list Reserva :=
  List.filter
    (fun r =>
       (data_inicio r <=? dia) && (dia <=? data_fim r)
       && bool_decide (reserva_status r ∈ ["Locada"; "Reservada"; "Finalizada"])
       && tem_carro db r && tem_cliente db r)
    (reservas db).

(** The "Registrar multa" button. *)
Definition registrar_multa (amb : Ambiente) (db : Database) (f : NovaMulta)
    : outcome unit * Database :=
  match select_by_id reserva_id (nm_reserva f)
          (reservas_na_data db (nm_data_consulta f)) with
  | None => (Refused "Selecione o veículo", db)
  | Some carro =>
      match number_input 0 None (nm_valor f) with
      | None => (Refused "valor fora dos limites do campo", db)
      | Some valor_multa =>
          let nova :=
            mkMulta (next_id multa_id (multas db)) (reserva_id carro)
              (nm_tipo f) valor_multa (nm_data_hora f) Pendente in
          let db1 := snd (run_query amb (execute_insert_multa nova) db) in
          (Done tt,
           atualizar_status_reserva amb (reserva_id carro)
             "Com Multa Pendente" db1)
      end
  end.

(** What the operator submitted on the card of a fine. *)
Record StatusDaMulta : Type := mkStatusDaMulta {
  sm_filtro_inicio : Z;
  sm_filtro_fim : Z;
  sm_multa : Z;
  sm_novo_status : StatusMulta
}.

(** [multas_df]: the fines listed for the filter. *)
Definition multas_listadas (db : Database) (inicio fim : Z) : list Multa :=
  List.filter
    (fun m =>
       (inicio <=? data_multa m) && (data_multa m <=? fim + 1)
       && List.existsb
            (fun r => (reserva_id r =? m_reserva_id m) && tem_carro db r
                      && tem_cliente db r)
            (reservas db))
    (multas db).

Definition status_multa_eqb (a b : StatusMulta) : bool :=
  match a, b with
  | Pendente, Pendente | Paga, Paga | Isentada, Isentada => true
  | _, _ => false
  end.

(** The "Atualizar status" button of a fine. *)
Definition atualizar_status_multa (amb : Ambiente) (db : Database)
    (f : StatusDaMulta) : outcome unit * Database :=
  match select_by_id multa_id (sm_multa f)
          (multas_listadas db (sm_filtro_inicio f) (sm_filtro_fim f)) with
  | None => (Refused "Nenhuma multa encontrada", db)
  | Some multa =>
      let novo_status := sm_novo_status f in
      if negb (status_multa_eqb novo_status (multa_status multa))
      then
        let db1 :=
          snd (run_query amb
                 (fun c =>
                    let '(t, _) :=
                      sql_update multa_id (multa_id multa)
                        (set_multa_status novo_status) (multas (pendente c)) in
                    (Ok tt, mkConexao (confirmado c) (com_multas t (pendente c))))
                 db) in
        if bool_decide (status_multa_texto novo_status = "Paga")
        then (Done tt,
              atualizar_status_reserva amb (m_reserva_id multa) "Finalizada" db1)
        else (Done tt,
              atualizar_status_reserva amb (m_reserva_id multa)
                "Com Multa Pendente" db1)
      else (Refused "O status selecionado já está aplicado.", db)
  end.

(** The reservation has a fine that is still pending. *)
Definition tem_multa_pendente (db : Database) (k : Z) : bool :=
  List.existsb
    (fun m => (m_reserva_id m =? k) && status_multa_eqb (multa_status m) Pendente)
    (multas db).

Definition status_da_reserva (db : Database) (k : Z) : option string :=
  option_map status (select_by_id reserva_id k (reservas db)).

(** ** The constraints of the schema

    PRIMARY KEY on each table and the CHECK on the dates of a reservation;
    the store never holds a state without them. *)

Fixpoint chaves_unicas {A : Type} (key : A -> Z) (t : list A) : bool :=
  match t with
  | [] => true
  | row :: t' =>
      negb (List.existsb (fun x => key x =? key row) t') && chaves_unicas key t'
  end.

Definition bd_valido (db : Database) : bool :=
  chaves_unicas carro_id (carros db)
  && chaves_unicas cliente_id (clientes db)
  && chaves_unicas reserva_id (reservas db)
  && chaves_unicas multa_id (multas db)
  && List.forallb check_datas (reservas db).

(** ** Scenarios

    One vehicle at 100.00 a day and 0.80 a kilometre with 1000 km on the
    clock, one customer with a valid licence, and the day numbered 100. *)

Definition amb_cenario : Ambiente := mkAmbiente true true true (Ok "pdf") 100.

(** The same day with the availability queries left unanswered. *)
Definition amb_sem_consulta : Ambiente :=
  mkAmbiente true false true (Ok "pdf") 100.

Definition carro_cenario : Carro :=
  mkCarro 1 "ABC1D23" 100 (4 # 5) 1000 "Disponível".

Definition cliente_cenario : Cliente := mkCliente 1 "Ana" (Some 400) "Ativo".

Definition bd_inicial : Database :=
  mkDatabase [carro_cenario] [cliente_cenario] [] [].

(** Three days, no half day, no discount, allowance 300 km, 150.00 paid in
    advance. *)
Definition reserva_simples : NovaReserva :=
  mkNovaReserva 100 103 false 1 1 false 0 300 150.

(** The same three days with the half day on pick-up. *)
Definition reserva_meia_diaria : NovaReserva :=
  mkNovaReserva 100 103 false 1 1 true 0 300 0.

(** The same three days with a discount that covers the whole charge. *)
Definition reserva_cortesia : NovaReserva :=
  mkNovaReserva 100 103 false 1 1 false 300 300 0.

Definition bd_reservado : Database :=
  snd (salvar_reserva amb_cenario bd_inicial reserva_simples).

Definition bd_cortesia : Database :=
  snd (salvar_reserva amb_cenario bd_inicial reserva_cortesia).

(** The reservation edited to carry a discount of 50.00. *)
Definition edicao_desconto : Edicao :=
  mkEdicao 1 1 1 100 103 None "Ativa" "Reservada" 0 0 300 0 150 0 0 0 0 50
    false.




(** The vehicle handed over at 1000 km on the first day, the balance of
    150.00 collected. *)
Definition entrega_cenario : Entrega := mkEntrega 1 1000 100 (Some 9) 150.

(** The courtesy reservation handed over with nothing collected. *)
Definition entrega_cortesia : Entrega := mkEntrega 1 1000 100 (Some 9) 0.

Definition bd_locado : Database :=
  snd (confirmar_entrega amb_cenario bd_reservado entrega_cenario).




(** The vehicle back at 1350 km, no extras, nothing paid on return. *)
Definition devolucao_cenario : Devolucao :=
  mkDevolucao 1 1350 false 0 0 0 0 0.

Definition bd_finalizado : Database :=
  snd (finalizar_devolucao amb_cenario bd_locado devolucao_cenario).

(** A fine of 200.00 for an infraction on day 100. *)
Definition multa_cenario : NovaMulta :=
  mkNovaMulta 100 1 "Excesso de Velocidade" 200 100.

Definition bd_multado : Database :=
  snd (registrar_multa amb_cenario bd_finalizado multa_cenario).

Definition marcar_paga : StatusDaMulta := mkStatusDaMulta 90 110 1 Paga.

Definition marcar_isentada : StatusDaMulta := mkStatusDaMulta 90 110 1 Isentada.

(** A vehicle with a rental that ends on day 103. *)
Definition bd_devolve_103 : Database :=
  mkDatabase [carro_cenario] [cliente_cenario]
    [nova_reserva_row 1 reserva_simples carro_cenario] [].

(** The same, with the vehicle out of use. *)
Definition bd_indisponivel_103 : Database :=
  mkDatabase [mkCarro 1 "ABC1D23" 100 (4 # 5) 1000 "Indisponível"]
    [cliente_cenario] [nova_reserva_row 1 reserva_simples carro_cenario] [].

(** A second reservation of the vehicle, for the days 110 to 113, and a
    third, for the days 120 to 123. *)
Definition reserva_seguinte : NovaReserva :=
  mkNovaReserva 110 113 false 1 1 false 0 300 0.

Definition reserva_terceira : NovaReserva :=
  mkNovaReserva 120 123 false 1 1 false 0 300 0.

Definition bd_duas_reservas : Database :=
  snd (salvar_reserva amb_cenario bd_reservado reserva_seguinte).

(** The second reservation moved to the days 105 to 108, and moved to the
    days 101 to 104, into the window of the first. *)
Definition edicao_mudanca : Edicao :=
  mkEdicao 2 1 1 105 108 None "Ativa" "Reservada" 0 0 300 0 0 0 0 0 0 0 false.

Definition edicao_sobreposta : Edicao :=
  mkEdicao 2 1 1 101 104 None "Ativa" "Reservada" 0 0 300 0 0 0 0 0 0 0 false.

(** The first of the two reservations handed over, as in [bd_locado]. *)
Definition bd_duas_locado : Database :=
  snd (confirmar_entrega amb_cenario bd_duas_reservas entrega_cenario).

(** The return of the scenario with 140.00 of the 280.00 due paid, and with
    all of it paid. *)
Definition devolucao_metade : Devolucao :=
  mkDevolucao 1 1350 false 0 0 0 0 140.

Definition devolucao_quitada : Devolucao :=
  mkDevolucao 1 1350 false 0 0 0 0 280.

(** ** Booked windows

    Two reservations of one vehicle, both in state Reservada or Locada,
    whose windows share a day ([sobrepoe]) or more than a boundary day
    ([sobrepoe_estrito]), and the stores in which no two reservations do. *)

Definition sobrepoe (a b : Reserva) : bool :=
  (r_carro_id a =? r_carro_id b) && reserva_ocupa a && reserva_ocupa b
  && (data_inicio a <=? data_fim b) && (data_inicio b <=? data_fim a).

Definition sobrepoe_estrito (a b : Reserva) : bool :=
  (r_carro_id a =? r_carro_id b) && reserva_ocupa a && reserva_ocupa b
  && (data_inicio a <? data_fim b) && (data_inicio b <? data_fim a).

Definition sem_sobreposicao (db : Database) : Prop :=
  forall a b, In a (reservas db) -> In b (reservas db) ->
              reserva_id a <> reserva_id b -> sobrepoe a b = false.

Definition sem_sobreposicao_estrita (db : Database) : Prop :=
  forall a b, In a (reservas db) -> In b (reservas db) ->
              reserva_id a <> reserva_id b -> sobrepoe_estrito a b = false.

(** ** The documents ([pdfgenerator.py]) *)

(** [prazo_dias] of [gerar_contrato_pdf]: the days between the two dates,
    one when there are none. *)
Definition prazo_dias (data_inicio data_fim : Z) : Z :=
  let prazo_dias := data_fim - data_inicio in
  if prazo_dias =? 0 then 1 else prazo_dias.

(** The table of [_numero_por_extenso]. *)
Definition extensos : gmap Z string :=
  list_to_map
    [(1, "UM"); (2, "DOIS"); (3, "TRES"); (4, "QUATRO"); (5, "CINCO");
     (6, "SEIS"); (7, "SETE"); (8, "OITO"); (9, "NOVE"); (10, "DEZ");
     (11, "ONZE"); (12, "DOZE"); (13, "TREZE"); (14, "QUATORZE");
     (15, "QUINZE"); (20, "VINTE"); (30, "TRINTA"); (40, "QUARENTA");
     (50, "CINQUENTA"); (60, "SESSENTA"); (70, "SETENTA"); (80, "OITENTA");
     (90, "NOVENTA")].

(** [_numero_por_extenso]: the term of the contract in words.  [str(numero)]
    is the decimal numeral, which [.upper()] leaves as it is; [//] and [%]
    by 10 are the floor division and its remainder. *)
Definition _numero_por_extenso (numero : Z) : result string :=
  match extensos !! numero with
  | Some extenso => Ok extenso
  | None =>
      if numero <? 20 then Ok (pretty numero)
      else if numero <? 100 then
        let dezena := (numero / 10) * 10 in
        let unidade := numero mod 10 in
        match extensos !! dezena with
        | None => Raise (KeyError (pretty dezena))
        | Some da_dezena =>
            if unidade =? 0 then Ok da_dezena
            else Ok (da_dezena +:+ " E "
                     +:+ default (pretty unidade) (extensos !! unidade))
        end
      else Ok (pretty numero)
  end.

(** [label_total] of [gerar_recibo_pdf]: what the last line of the receipt
    calls the total. *)
Definition label_total (total_final valor_pago valor_restante : Q) : string :=
  if Qle_bool 0 total_final
  then if positivo valor_pago && Qle_bool valor_restante 0
       then "VALOR QUITADO" else "VALOR A PAGAR"
  else "VALOR A DEVOLVER AO CLIENTE".

(** [recibo_dados] of [gerar_recibo_para_download]: the figures of a receipt
    drawn again from the history. *)
Record ReciboHistorico : Type := mkReciboHistorico {
  rh_dias_cobranca : Z;
  rh_custo_diarias : Q;
  rh_custo_km : Q;
  rh_valor_lavagem : Q;
  rh_valor_multas : Q;
  rh_valor_danos : Q;
  rh_valor_outros : Q;
  rh_adiantamento : Q;
  rh_total_final : Q;
  rh_label_total : string
}.

(** [gerar_recibo_para_download], up to the call of [gerar_recibo_pdf]: the
    reservation joined with its customer and its vehicle ([None] when there
    is no such row, or the store cannot be reached), and the figures.  The
    odometer readings are subtracted as they are stored: a reading that is
    NULL ends the run with a [TypeError].  The dictionary has no [valor_pago]
    and no [valor_restante], which [gerar_recibo_pdf] then reads as zero. *)
Definition gerar_recibo_para_download (amb : Ambiente) (db : Database)
    (reserva_id' : Z) : result (option ReciboHistorico) :=
  let reserva_df :=
    if conexao_ok amb
    then List.filter (fun r => tem_cliente db r && tem_carro db r) (reservas db)
    else [] in
  match select_by_id reserva_id reserva_id' reserva_df with
  | None => Ok None
  | Some reserva_data =>
      match select_by_id carro_id (r_carro_id reserva_data) (carros db) with
      | None => Ok None
      | Some carro =>
          let dias_cobranca := data_fim reserva_data - data_inicio reserva_data in
          match km_volta reserva_data, km_saida reserva_data with
          | Some volta, Some saida =>
              Ok (Some
                    {| rh_dias_cobranca := dias_cobranca;
                       rh_custo_diarias :=
                         (diaria carro * inject_Z dias_cobranca)%Q;
                       rh_custo_km :=
                         custo_km_recibo volta saida (km_franquia reserva_data)
                           (preco_km carro);
                       rh_valor_lavagem := custo_lavagem reserva_data;
                       rh_valor_multas := valor_multas reserva_data;
                       rh_valor_danos := valor_danos reserva_data;
                       rh_valor_outros := valor_outros reserva_data;
                       rh_adiantamento := adiantamento reserva_data;
                       rh_total_final := valor_total reserva_data;
                       rh_label_total :=
                         label_total (valor_total reserva_data) 0 0 |})
          | _, _ => Raise (Exception "TypeError")
          end
      end
  end.

(** ** Customers: the "Marcar como REMOVIDO" button ([app.py], Clientes) *)

Definition com_clientes (t : list Cliente) (db : Database) : Database :=
  mkDatabase (carros db) t (reservas db) (multas db).

Definition execute_update_clientes (k : Z) (set : Cliente -> Cliente)
    : tx nat :=
  fun c =>
    let '(t, n) := sql_update cliente_id k set (clientes (pendente c)) in
    (Ok n, mkConexao (confirmado c) (com_clientes t (pendente c))).

Definition set_cliente_status (s : string) (c : Cliente) : Cliente :=
  mkCliente (cliente_id c) (nome c) (validade_cnh c) s.

(** [df_clientes]: the customers the page lists, the removed ones left out;
    [run_query_dataframe] gives an empty frame when the store cannot be
    reached. *)
Definition df_clientes (amb : Ambiente) (db : Database) (removido : string)
    : list Cliente :=
  if conexao_ok amb
  then List.filter
         (fun c => negb (bool_decide (cliente_status c = removido)))
         (clientes db)
  else [].

(** The handler of the button: the count of the reservations of the customer
    that are booked or out, and the UPDATE of the status when there is
    none. *)
Definition marcar_como_removido (amb : Ambiente) (db : Database)
    (id_cliente_sel : Z) : outcome unit * Database :=
  match getitem STATUS_CLIENTE "REMOVIDO" with
  | Raise e => (Failed e, db)
  | Ok removido =>
      match select_by_id cliente_id id_cliente_sel (df_clientes amb db removido)
      with
      | None => (Refused "Selecione o cliente", db)
      | Some _ =>
          let reservas_ativas_check :=
            length
              (List.filter
                 (fun r => (r_cliente_id r =? id_cliente_sel) && reserva_ocupa r)
                 (reservas db)) in
          if negb (Nat.eqb reservas_ativas_check 0)
          then (Refused "Não é possível remover. Finalize a devolução primeiro.",
                db)
          else
            (Done tt,
             snd (run_query amb
                    (let* _ := execute_update_clientes id_cliente_sel
                                 (set_cliente_status removido) in
                     tx_ret tt)
                    db))
      end
  end.

(** ** Fleet: the "Atualizar Dados e Status" button ([app.py], Frota) *)

(** What the operator submitted in the form of the vehicle (the columns the
    model keeps, and the two other mandatory texts). *)
Record AtualizacaoCarro : Type := mkAtualizacaoCarro {
  up_marca : string;
  up_modelo : string;
  up_placa : string;
  up_diaria : Q;
  up_p_km : Q;
  up_km : Z;
  up_status : string
}.

(** [list(STATUS_CARRO.values())], the options of the status selectbox. *)
Definition valores_status_carro : list string :=
  ["Disponível"; "Locado"; "Reservado"; "Indisponível"; "Excluído"].

Definition atualizar_carro_row (f : AtualizacaoCarro) (c : Carro) : Carro :=
  mkCarro (carro_id c) (up_placa f) (up_diaria f) (up_p_km f) (up_km f)
    (up_status f).

(** The UPDATE of all the columns of a vehicle.  [placa] is UNIQUE in the
    schema: the statement is refused by the store when the row it writes
    would carry the plate of another row. *)
Definition execute_update_carro_dados (k : Z) (f : AtualizacaoCarro)
    : tx nat :=
  fun c =>
    let '(t, n) :=
      sql_update carro_id k (atualizar_carro_row f) (carros (pendente c)) in
    if List.existsb (fun x => carro_id x =? k) (carros (pendente c))
       && List.existsb
            (fun y => negb (carro_id y =? k) && bool_decide (placa y = up_placa f))
            (carros (pendente c))
    then (Raise (Exception "carros_placa_key"), c)
    else (Ok n, mkConexao (confirmado c) (com_carros t (pendente c))).

(** [df]: the fleet the page lists, the excluded vehicles left out. *)
Definition frota_atual (amb : Ambiente) (db : Database) (excluido : string)
    : list Carro :=
  if conexao_ok amb
  then List.filter
         (fun c => negb (bool_decide (carro_status c = excluido)))
         (carros db)
  else [].

(** The handler of the button. *)
Definition atualizar_dados_e_status (amb : Ambiente) (db : Database)
    (id_edit : Z) (f : AtualizacaoCarro) : outcome unit * Database :=
  match getitem STATUS_CARRO "EXCLUIDO" with
  | Raise e => (Failed e, db)
  | Ok excluido =>
      match select_by_id carro_id id_edit (frota_atual amb db excluido) with
      | None => (Refused "Selecione o veículo", db)
      | Some dados_atuais =>
          let atualiza :=
            (Done tt,
             snd (run_query amb
                    (let* _ := execute_update_carro_dados id_edit f in
                     tx_ret tt)
                    db)) in
          if negb (bool_decide (up_status f ∈ valores_status_carro))
          then (Refused "valor fora das opções do campo", db)
          else if up_km f <? km_atual dados_atuais
          then (Refused "O KM atualizado não pode ser menor que o KM registrado anteriormente.",
                db)
          else if bool_decide (up_marca f = EmptyString)
                  || bool_decide (up_modelo f = EmptyString)
                  || bool_decide (up_placa f = EmptyString)
          then (Refused "Marca, Modelo e Placa são obrigatórios.", db)
          else if negb (bool_decide (up_placa f = placa dados_atuais))
          then
            if List.existsb
                 (fun c => bool_decide (placa c = up_placa f)
                           && negb (carro_id c =? id_edit))
                 (carros db)
            then (Refused "Placa já está cadastrada para outro veiculo.", db)
            else atualiza
          else atualiza
      end
  end.


(** The vehicle of the scenario updated to the status "Excluído". *)
Definition atualizacao_excluido : AtualizacaoCarro :=
  mkAtualizacaoCarro "Fiat" "Uno" "ABC1D23" 100 (4 # 5) 1000 "Excluído".

(** * Properties *)

(** ** Tables: selections and updates *)

Section Tabelas.
Context {A : Type} (key : A -> Z).

Lemma select_by_id_some (k : Z) (t : list A) (row : A) :
  select_by_id key k t = Some row -> In row t /\ key row = k.
Proof.
  unfold select_by_id. intros H. apply List.find_some in H.
  destruct H as [Hin Hk]. split; [exact Hin | lia].
Qed.

Lemma select_by_id_none (k : Z) (t : list A) :
  select_by_id key k t = None -> forall row, In row t -> key row <> k.
Proof.
  unfold select_by_id. intros H row Hin Hk.
  pose proof (List.find_none _ _ H row Hin) as Hf. simpl in Hf. lia.
Qed.

Lemma chaves_unicas_select (k : Z) (t : list A) (row : A) :
  chaves_unicas key t = true -> In row t -> key row = k ->
  select_by_id key k t = Some row.
Proof.
  induction t as [|x t IH]; simpl; intros Hu Hin Hk; [contradiction|].
  apply andb_prop in Hu. destruct Hu as [Hx Hu].
  destruct Hin as [-> | Hin].
  - destruct (Z.eqb_spec (key row) k); [reflexivity | contradiction].
  - destruct (Z.eqb_spec (key x) k) as [Hxk | Hxk].
    + exfalso. apply negb_true_iff in Hx.
      assert (Hex : List.existsb (fun y => key y =? key x) t = true).
      { apply List.existsb_exists. exists row. split; [exact Hin | lia]. }
      congruence.
    + apply IH; assumption.
Qed.

(** Under the key, picking a row out of a selection of the table is
    picking it out of the table. *)
Lemma select_by_id_filter (p : A -> bool) (k : Z) (t : list A) (row : A) :
  chaves_unicas key t = true ->
  select_by_id key k (List.filter p t) = Some row ->
  select_by_id key k t = Some row /\ p row = true.
Proof.
  intros Hu H. apply select_by_id_some in H. destruct H as [Hin Hk].
  apply List.filter_In in Hin. destruct Hin as [Hin Hp].
  split; [apply chaves_unicas_select; assumption | exact Hp].
Qed.

Lemma sql_update_rowcount (k : Z) (set : A -> A) (t : list A) :
  snd (sql_update key k set t) = 0%nat <-> select_by_id key k t = None.
Proof.
  unfold sql_update, select_by_id. simpl.
  induction t as [|x t IH]; simpl; [tauto|].
  destruct (key x =? k); simpl; [split; discriminate | exact IH].
Qed.

Lemma select_by_id_update (k : Z) (set : A -> A) (t : list A) :
  (forall row, key (set row) = key row) ->
  select_by_id key k (fst (sql_update key k set t))
  = option_map set (select_by_id key k t).
Proof.
  intros Hset. unfold sql_update, select_by_id. simpl.
  induction t as [|x t IH]; simpl; [reflexivity|].
  destruct (Z.eqb_spec (key x) k) as [Hx | Hx].
  - rewrite Hset. destruct (Z.eqb_spec (key x) k); [reflexivity | contradiction].
  - destruct (Z.eqb_spec (key x) k); [contradiction | exact IH].
Qed.

Lemma select_by_id_update_other (k k' : Z) (set : A -> A) (t : list A) :
  (forall row, key (set row) = key row) -> k' <> k ->
  select_by_id key k' (fst (sql_update key k set t)) = select_by_id key k' t.
Proof.
  intros Hset Hne. unfold sql_update, select_by_id. simpl.
  induction t as [|x t IH]; simpl; [reflexivity|].
  destruct (Z.eqb_spec (key x) k) as [Hx | Hx].
  - rewrite Hset. destruct (Z.eqb_spec (key x) k'); [lia | exact IH].
  - destruct (key x =? k'); [reflexivity | exact IH].
Qed.
End Tabelas.

(** ** Transactions: nothing is confirmed before the commit *)

Lemma discreto_reversivel {A : Type} (m : tx A) : discreto m -> reversivel m.
Proof. intros H c e c' Hm. exact (H _ _ _ Hm). Qed.

Lemma discreto_ret {A : Type} (a : A) : discreto (tx_ret a).
Proof. intros c r c' H. inversion H. reflexivity. Qed.

Lemma discreto_raise {A : Type} (e : exn) : discreto (@tx_raise A e).
Proof. intros c r c' H. inversion H. reflexivity. Qed.

Lemma discreto_getitem (d : gmap string string) (k : string) :
  discreto (tx_getitem d k).
Proof.
  intros c r c' H. unfold tx_getitem in H.
  destruct (getitem d k); inversion H; reflexivity.
Qed.

Lemma discreto_update_carros (k : Z) (set : Carro -> Carro) :
  discreto (execute_update_carros k set).
Proof.
  intros c r c' H. unfold execute_update_carros in H.
  destruct (sql_update carro_id k set (carros (pendente c))).
  inversion H. reflexivity.
Qed.

Lemma discreto_update_reservas (k : Z) (set : Reserva -> Reserva) :
  discreto (execute_update_reservas k set).
Proof.
  intros c r c' H. unfold execute_update_reservas in H.
  destruct (sql_update reserva_id k set (reservas (pendente c))).
  destruct (List.forallb _ _); inversion H; reflexivity.
Qed.

Lemma discreto_update_reservas_decimal (k : Z) (set : Reserva -> Reserva) :
  discreto (execute_update_reservas_decimal k set).
Proof.
  intros c r c' H. unfold execute_update_reservas_decimal in H.
  destruct (List.forallb _ (reservas (pendente c))).
  - exact (discreto_update_reservas _ _ _ _ _ H).
  - inversion H. reflexivity.
Qed.

Lemma discreto_select_reserva (k : Z) : discreto (tx_select_reserva k).
Proof. intros c r c' H. inversion H. reflexivity. Qed.

Lemma discreto_documento (amb : Ambiente) (erro : string) :
  discreto (gerar_documento amb erro).
Proof.
  intros c r c' H. unfold gerar_documento in H.
  destruct (documento amb); inversion H; reflexivity.
Qed.

Lemma discreto_bind {A B : Type} (m : tx A) (k : A -> tx B) :
  discreto m -> (forall a, discreto (k a)) -> discreto (tx_bind m k).
Proof.
  intros Hm Hk c r c' H. unfold tx_bind in H.
  destruct (m c) as [[a | e] c1] eqn:E.
  - rewrite (Hk a _ _ _ H). exact (Hm _ _ _ E).
  - inversion H. subst. exact (Hm _ _ _ E).
Qed.

Lemma reversivel_bind {A B : Type} (m : tx A) (k : A -> tx B) :
  discreto m -> (forall a, reversivel (k a)) -> reversivel (tx_bind m k).
Proof.
  intros Hm Hk c e c' H. unfold tx_bind in H.
  destruct (m c) as [[a | e1] c1] eqn:E.
  - rewrite (Hk a _ _ _ H). exact (Hm _ _ _ E).
  - inversion H. subst. exact (Hm _ _ _ E).
Qed.

Lemma reversivel_commit {A : Type} (amb : Ambiente) (a : A) :
  reversivel (let* _ := conn_commit amb in tx_ret a).
Proof.
  intros c e c' H. unfold tx_bind, conn_commit, tx_ret in H.
  destruct (commit_ok amb); inversion H. reflexivity.
Qed.

Lemma reversivel_commit_last (amb : Ambiente) : reversivel (conn_commit amb).
Proof.
  intros c e c' H. unfold conn_commit in H.
  destruct (commit_ok amb); inversion H. reflexivity.
Qed.

Lemma reversivel_if {A : Type} (b : bool) (m1 m2 : tx A) :
  reversivel m1 -> reversivel m2 -> reversivel (if b then m1 else m2).
Proof. destruct b; auto. Qed.

Lemma discreto_if {A : Type} (b : bool) (m1 m2 : tx A) :
  discreto m1 -> discreto m2 -> discreto (if b then m1 else m2).
Proof. destruct b; auto. Qed.

Create HintDb tx discriminated.

#[local] Hint Resolve discreto_ret discreto_raise discreto_getitem
  discreto_update_carros discreto_update_reservas
  discreto_update_reservas_decimal discreto_select_reserva
  discreto_documento discreto_reversivel reversivel_commit
  reversivel_commit_last : tx.

Ltac passo_tx :=
  repeat first
    [ solve [ auto with tx ]
    | apply reversivel_bind; [ | intros ? ]
    | apply reversivel_if
    | apply discreto_bind; [ | intros ? ]
    | apply discreto_if ].

(** A transaction whose body is reversible leaves the store as it was when
    it does not come to its end. *)
Lemma em_transacao_raise {A : Type} (amb : Ambiente) (db db' : Database)
    (corpo : tx A) (e : exn) :
  reversivel corpo ->
  em_transacao amb db corpo = (Raise e, db') -> db' = db.
Proof.
  intros Hrev H. unfold em_transacao, get_db_connection in H.
  destruct (conexao_ok amb); [| inversion H; reflexivity].
  destruct (corpo (mkConexao db db)) as [[a | e1] conn'] eqn:E.
  - inversion H.
  - inversion H. subst. unfold conn_close, conn_rollback. simpl.
    exact (Hrev _ _ _ E).
Qed.

Lemma reversivel_transacao_entrega amb carro id km data_saida horario dc dr ad vr :
  reversivel (transacao_entrega amb carro id km data_saida horario dc dr ad vr).
Proof. unfold transacao_entrega. passo_tx. Qed.

Lemma reversivel_transacao_devolucao amb reserva f ct :
  reversivel (transacao_devolucao amb reserva f ct).
Proof.
  unfold transacao_devolucao. passo_tx.
  destruct a; passo_tx.
Qed.

Lemma reversivel_transacao_edicao amb db r f :
  reversivel (transacao_edicao amb db r f).
Proof. unfold transacao_edicao. passo_tx. Qed.

(** ** The status tables *)

Lemma status_carro_locado : getitem STATUS_CARRO "LOCADO" = Ok "Locado".
Proof. reflexivity. Qed.

Lemma status_carro_reservado : getitem STATUS_CARRO "RESERVADO" = Ok "Reservado".
Proof. reflexivity. Qed.

Lemma status_carro_disponivel :
  getitem STATUS_CARRO "DISPONIVEL" = Ok "Disponível".
Proof. reflexivity. Qed.

Lemma status_carro_excluido : getitem STATUS_CARRO "EXCLUIDO" = Ok "Excluído".
Proof. reflexivity. Qed.

Lemma status_carro_excluido_acentuado :
  getitem STATUS_CARRO "EXCLUÍDO" = Raise (KeyError "EXCLUÍDO").
Proof. reflexivity. Qed.

Lemma status_reserva_locada : getitem STATUS_RESERVA "LOCADA" = Ok "Locada".
Proof. reflexivity. Qed.

Lemma status_reserva_reservada :
  getitem STATUS_RESERVA "RESERVADA" = Ok "Reservada".
Proof. reflexivity. Qed.

(** ** Delivery *)

(** What a delivery that went through has done. *)
Lemma transacao_entrega_ok amb carro id km ds hor dc dr ad vr c pdf c' :
  transacao_entrega amb carro id km ds hor dc dr ad vr c = (Ok pdf, c') ->
  select_by_id carro_id carro (carros (pendente c)) <> None
  /\ select_by_id reserva_id id (reservas (pendente c)) <> None
  /\ documento amb = Ok pdf
  /\ confirmado c'
     = com_reservas
         (fst (sql_update reserva_id id
                 (entregar_row km ds "Locada" hor ad
                    (diaria dc * inject_Z (Z.max 1 (data_fim dr - ds + 0)))%Q vr)
                 (reservas (pendente c))))
         (com_carros
            (fst (sql_update carro_id carro (entregar_carro "Locado" km)
                    (carros (pendente c))))
            (pendente c)).
Proof.
  unfold transacao_entrega, tx_bind, tx_getitem.
  rewrite status_carro_locado, status_reserva_locada.
  unfold execute_update_carros.
  destruct (sql_update carro_id carro (entregar_carro "Locado" km)
              (carros (pendente c))) as [t n] eqn:Ec.
  destruct (Nat.eqb_spec n 0) as [Hn | Hn]; [discriminate|].
  unfold execute_update_reservas. cbn [pendente confirmado com_carros reservas].
  set (linha := entregar_row km ds "Locada" hor ad _ vr).
  destruct (sql_update reserva_id id linha (reservas (pendente c)))
    as [t2 m] eqn:Er.
  destruct (List.forallb _ (reservas (pendente c))); [|discriminate].
  destruct (Nat.eqb_spec m 0) as [Hm | Hm]; [discriminate|].
  unfold gerar_documento. destruct (documento amb) as [p | e]; [|discriminate].
  unfold conn_commit. destruct (commit_ok amb); [|discriminate].
  unfold tx_ret. intros H. inversion H. subst. cbn.
  assert (Hn' : snd (sql_update carro_id carro (entregar_carro "Locado" km)
                       (carros (pendente c))) = n) by (rewrite Ec; reflexivity).
  assert (Hm' : snd (sql_update reserva_id id linha (reservas (pendente c))) = m)
    by (rewrite Er; reflexivity).
  repeat split.
  - intros Hnone. apply (sql_update_rowcount carro_id carro
                            (entregar_carro "Locado" km)) in Hnone. congruence.
  - intros Hnone. apply (sql_update_rowcount reserva_id id linha) in Hnone.
    congruence.
Qed.

(** C6. The delivery is all or nothing: a run of [finalizar_entrega] that
    reports failure leaves the whole store, and so the vehicle row and the
    reservation row, as they were; a run that reports success has written
    both rows, found both, and has the contract; and a missing vehicle row,
    a missing reservation row or a failing contract generator each make the
    run report failure. *)
Theorem C6_deliver_atomic amb db carro id km ds hor dc dr ad vr :
  let saida := finalizar_entrega amb db carro id km ds hor dc dr ad vr in
  (fst (fst saida) = false -> snd saida = db)
  /\ (fst (fst saida) = true ->
      carros (snd saida)
      = fst (sql_update carro_id carro (entregar_carro "Locado" km) (carros db))
      /\ reservas (snd saida)
         = fst (sql_update reserva_id id
                  (entregar_row km ds "Locada" hor ad
                     (diaria dc * inject_Z (Z.max 1 (data_fim dr - ds + 0)))%Q
                     vr)
                  (reservas db))
      /\ clientes (snd saida) = clientes db
      /\ multas (snd saida) = multas db
      /\ select_by_id carro_id carro (carros db) <> None
      /\ select_by_id reserva_id id (reservas db) <> None
      /\ exists pdf, documento amb = Ok pdf /\ snd (fst saida) = Some pdf)
  /\ (select_by_id carro_id carro (carros db) = None -> fst (fst saida) = false)
  /\ (select_by_id reserva_id id (reservas db) = None ->
      fst (fst saida) = false)
  /\ ((exists e, documento amb = Raise e) -> fst (fst saida) = false).
Proof.
  intros saida.
  assert (Hok : fst (fst saida) = true ->
      carros (snd saida)
      = fst (sql_update carro_id carro (entregar_carro "Locado" km) (carros db))
      /\ reservas (snd saida)
         = fst (sql_update reserva_id id
                  (entregar_row km ds "Locada" hor ad
                     (diaria dc * inject_Z (Z.max 1 (data_fim dr - ds + 0)))%Q
                     vr)
                  (reservas db))
      /\ clientes (snd saida) = clientes db
      /\ multas (snd saida) = multas db
      /\ select_by_id carro_id carro (carros db) <> None
      /\ select_by_id reserva_id id (reservas db) <> None
      /\ exists pdf, documento amb = Ok pdf /\ snd (fst saida) = Some pdf).
  { subst saida. unfold finalizar_entrega, em_transacao, get_db_connection.
    destruct (conexao_ok amb); [|discriminate].
    destruct (transacao_entrega amb carro id km ds hor dc dr ad vr
                (mkConexao db db)) as [[pdf | e] c'] eqn:E; [|discriminate].
    intros _. apply transacao_entrega_ok in E.
    destruct E as (Hc & Hr & Hd & Hconf). cbn in *.
    unfold conn_close. rewrite Hconf. cbn.
    repeat split; try assumption. exists pdf. split; [assumption | reflexivity]. }
  split; [| split; [exact Hok |]].
  - subst saida. unfold finalizar_entrega.
    destruct (em_transacao amb db _) as [[pdf | e] db'] eqn:E; [discriminate|].
    intros _. cbn. eapply em_transacao_raise; [| exact E].
    apply reversivel_transacao_entrega.
  - repeat split.
    + intros Hnone. destruct (fst (fst saida)); [| reflexivity].
      destruct (Hok eq_refl) as (_ & _ & _ & _ & H & _). contradiction.
    + intros Hnone. destruct (fst (fst saida)); [| reflexivity].
      destruct (Hok eq_refl) as (_ & _ & _ & _ & _ & H & _). contradiction.
    + intros [e He]. destruct (fst (fst saida)); [| reflexivity].
      destruct (Hok eq_refl) as (_ & _ & _ & _ & _ & _ & pdf & H & _). congruence.
Qed.

Lemma C6_deliver_atomic_witness :
  snd (finalizar_entrega (mkAmbiente true true true (Raise (Exception "fpdf")) 100)
         bd_reservado 1 1 1000 100 (Some 9) carro_cenario
         (nova_reserva_row 1 reserva_simples carro_cenario) 300 0)
  = bd_reservado.
Proof.
  apply (proj1 (C6_deliver_atomic
                  (mkAmbiente true true true (Raise (Exception "fpdf")) 100)
                  bd_reservado 1 1 1000 100 (Some 9) carro_cenario
                  (nova_reserva_row 1 reserva_simples carro_cenario) 300 0)).
  vm_compute. reflexivity.
Defined.

(** ** Fleet: the soft-delete button *)

(** C7. A vehicle that is rented or reserved is not marked as excluded: the
    button answers with a refusal and the store is left as it was. *)
Theorem C7_soft_delete_guard amb db id_edit dados_atuais :
  carro_status dados_atuais = "Locado"
  \/ carro_status dados_atuais = "Reservado" ->
  exists msg,
    marcar_como_excluido amb db id_edit dados_atuais = (Refused msg, db).
Proof.
  intros H. unfold marcar_como_excluido.
  rewrite status_carro_locado, status_carro_reservado.
  destruct H as [H | H]; rewrite H; cbn; eexists; reflexivity.
Qed.

Lemma C7_soft_delete_guard_witness :
  exists msg,
    marcar_como_excluido amb_cenario bd_locado 1
      (mkCarro 1 "ABC1D23" 100 (4 # 5) 1000 "Locado")
    = (Refused msg, bd_locado).
Proof.
  apply (C7_soft_delete_guard amb_cenario bd_locado 1
           (mkCarro 1 "ABC1D23" 100 (4 # 5) 1000 "Locado")).
  left. reflexivity.
Defined.

(** C9. For a vehicle that is neither rented nor reserved the button ends in
    a KeyError: the table of vehicle statuses has no key "EXCLUÍDO" (its key
    is "EXCLUIDO"), the lookup is among the arguments of the query, and the
    query is never issued.  Whatever the status of the vehicle, the button
    leaves the store as it was: no vehicle is marked as excluded through
    this button.  (The other button of the form, "Atualizar Dados e Status",
    writes the status chosen in the form, "Excluído" among its options.) *)
Theorem C9_excluido_key_error amb db id_edit dados_atuais :
  carro_status dados_atuais <> "Locado" ->
  carro_status dados_atuais <> "Reservado" ->
  marcar_como_excluido amb db id_edit dados_atuais
  = (Failed (KeyError "EXCLUÍDO"), db)
  /\ STATUS_CARRO !! "EXCLUÍDO" = None
  /\ STATUS_CARRO !! "EXCLUIDO" = Some "Excluído"
  /\ forall c, snd (marcar_como_excluido amb db id_edit c) = db.
Proof.
  intros Hl Hr. unfold marcar_como_excluido.
  rewrite status_carro_locado, status_carro_reservado,
    status_carro_excluido_acentuado.
  repeat split.
  - rewrite !bool_decide_eq_false_2 by assumption. reflexivity.
  - intros c. destruct (_ || _); reflexivity.
Qed.

Lemma C9_excluido_key_error_witness :
  marcar_como_excluido amb_cenario bd_inicial 1 carro_cenario
  = (Failed (KeyError "EXCLUÍDO"), bd_inicial).
Proof.
  apply (C9_excluido_key_error amb_cenario bd_inicial 1 carro_cenario);
    vm_compute; discriminate.
Defined.

(** The form of the fleet page with the status "Excluído" chosen and
    "Atualizar Dados e Status" pressed: the vehicle of the scenario, which is
    Disponível, is marked as excluded. *)
Lemma C9_excluido_key_error_counterexample :
  exists c db' c',
    select_by_id carro_id 1 (carros bd_inicial) = Some c
    /\ carro_status c = "Disponível"
    /\ In (up_status atualizacao_excluido) valores_status_carro
    /\ atualizar_dados_e_status amb_cenario bd_inicial 1 atualizacao_excluido
       = (Done tt, db')
    /\ select_by_id carro_id 1 (carros db') = Some c'
    /\ carro_status c' = "Excluído"
    /\ carro_status c' <> carro_status c.
Proof.
  do 3 eexists.
  split; [vm_compute; reflexivity |].
  split; [reflexivity |].
  split; [vm_compute; tauto |].
  split; [vm_compute; reflexivity |].
  split; [vm_compute; reflexivity |].
  split; [reflexivity |].
  vm_compute. discriminate.
Qed.

(** ** Availability *)

Lemma get_available_vehicles_In amb db inicio fim permitir c :
  In c (get_available_vehicles amb db inicio fim permitir)
  <-> In c (carros db) /\ carro_fora_de_uso c = false
      /\ carro_ocupado db permitir inicio fim c = false
      /\ consulta_ok amb = true.
Proof.
  unfold get_available_vehicles, run_query_dataframe.
  destruct (consulta_ok amb).
  - rewrite List.filter_In.
    rewrite andb_true_iff, !negb_true_iff. tauto.
  - split; [intros [] | intros (_ & _ & _ & H); discriminate].
Qed.

Lemma reserva_ocupa_true r :
  reserva_status r = "Reservada" \/ reserva_status r = "Locada" ->
  reserva_ocupa r = true.
Proof.
  unfold reserva_ocupa. intros [H | H]; rewrite H; reflexivity.
Qed.

Lemma periodo_conflita_fecho inicio fim r :
  periodo_conflita false inicio fim r = true
  <-> data_inicio r <= fim /\ inicio <= data_fim r.
Proof.
  unfold periodo_conflita. rewrite andb_true_iff, Z.leb_le, Z.geb_le. tauto.
Qed.

Lemma periodo_conflita_estrito inicio fim r :
  periodo_conflita true inicio fim r = true
  <-> data_inicio r < fim /\ inicio < data_fim r.
Proof.
  unfold periodo_conflita.
  rewrite andb_true_iff, Z.ltb_lt, Z.gtb_ltb, Z.ltb_lt. tauto.
Qed.

(** A reservation that does not overlap the request under the test in
    force counts for nothing in the answer. *)
Lemma get_available_vehicles_sem amb db inicio fim permitir r t1 t2 :
  reservas db = t1 ++ r :: t2 ->
  periodo_conflita permitir inicio fim r = false ->
  get_available_vehicles amb db inicio fim permitir
  = get_available_vehicles amb (com_reservas (t1 ++ t2) db) inicio fim permitir.
Proof.
  intros Hsplit Hlivre. unfold get_available_vehicles. f_equal.
  cbn [carros com_reservas]. apply List.filter_ext. intros c.
  f_equal. f_equal. unfold carro_ocupado. cbn [reservas com_reservas].
  rewrite Hsplit, !List.existsb_app. cbn [List.existsb].
  rewrite Hlivre, andb_false_r. reflexivity.
Qed.

(** C4, as the function has it.  A vehicle has a reservation in state
    Reservada or Locada that ends on day D, and a request starts on day D.
    Without the same-day option the vehicle is not offered: the dates
    overlap under the non-strict test.  With the option that reservation
    does not overlap under the strict test: the answer is the one the store
    would give without that reservation, and the vehicle is offered when
    nothing else keeps it out, that is, when the query is answered, the
    status of the vehicle is neither Indisponível nor Excluído, and none of
    its other reservations overlaps strictly. *)
Theorem C4_turnover_boundary amb db (c : Carro) (r : Reserva) (D fim : Z) :
  In c (carros db) -> In r (reservas db) -> r_carro_id r = carro_id c ->
  reserva_status r = "Reservada" \/ reserva_status r = "Locada" ->
  data_inicio r <= data_fim r -> data_fim r = D -> D <= fim ->
  ~ In c (get_available_vehicles amb db D fim false)
  /\ periodo_conflita false D fim r = true
  /\ periodo_conflita true D fim r = false
  /\ (forall t1 t2,
        reservas db = t1 ++ r :: t2 ->
        get_available_vehicles amb db D fim true
        = get_available_vehicles amb (com_reservas (t1 ++ t2) db) D fim true)
  /\ (consulta_ok amb = true ->
      carro_fora_de_uso c = false ->
      (forall r', In r' (reservas db) -> r' <> r ->
                  r_carro_id r' = carro_id c -> reserva_ocupa r' = true ->
                  periodo_conflita true D fim r' = false) ->
      In c (get_available_vehicles amb db D fim true)).
Proof.
  intros Hc Hr Hid Hst Hchk Hfim HD.
  assert (Hfecho : periodo_conflita false D fim r = true)
    by (apply periodo_conflita_fecho; lia).
  assert (Hestrito : periodo_conflita true D fim r = false).
  { destruct (periodo_conflita true D fim r) eqn:E; [| reflexivity].
    apply periodo_conflita_estrito in E. lia. }
  split; [| split; [exact Hfecho | split; [exact Hestrito | split]]].
  - rewrite get_available_vehicles_In. intros (_ & _ & Hoc & _).
    unfold carro_ocupado in Hoc.
    assert (Hex : List.existsb
              (fun x => (r_carro_id x =? carro_id c) && reserva_ocupa x
                        && periodo_conflita false D fim x) (reservas db) = true).
    { apply List.existsb_exists. exists r. split; [exact Hr |].
      rewrite Hfecho, (reserva_ocupa_true r Hst), Hid, Z.eqb_refl. reflexivity. }
    congruence.
  - intros t1 t2 Hsplit.
    apply (get_available_vehicles_sem amb db D fim true r t1 t2 Hsplit Hestrito).
  - intros Hok Huso Houtras. rewrite get_available_vehicles_In.
    split; [exact Hc | split; [exact Huso | split; [| exact Hok]]].
    unfold carro_ocupado.
    destruct (List.existsb _ (reservas db)) eqn:E; [| reflexivity].
    apply List.existsb_exists in E. destruct E as (x & Hx & Hp).
    rewrite !andb_true_iff in Hp. destruct Hp as [[Hxc Hxo] Hxp].
    assert (Hne : x <> r) by (intros ->; congruence).
    rewrite (Houtras x Hx Hne) in Hxp; [discriminate | lia | exact Hxo].
Qed.

Lemma C4_turnover_boundary_witness :
  ~ In carro_cenario
      (get_available_vehicles amb_cenario bd_devolve_103 103 105 false)
  /\ In carro_cenario
       (get_available_vehicles amb_cenario bd_devolve_103 103 105 true).
Proof.
  pose proof (C4_turnover_boundary amb_cenario bd_devolve_103 carro_cenario
                (nova_reserva_row 1 reserva_simples carro_cenario) 103 105)
    as H.
  destruct H as (Hfora & _ & _ & _ & Hdentro).
  - left. reflexivity.
  - left. reflexivity.
  - reflexivity.
  - left. reflexivity.
  - vm_compute. discriminate.
  - reflexivity.
  - lia.
  - split; [exact Hfora |]. apply Hdentro; [reflexivity | reflexivity |].
    intros r' [<- | []] Hne. contradiction.
Defined.

(** A vehicle whose status is Indisponível has a reservation in state
    Reservada that ends on day 103; a request for the days 103 to 105 with
    the same-day option does not list it, on a store that answers. *)
Lemma C4_turnover_boundary_counterexample :
  exists c r,
    In c (carros bd_indisponivel_103) /\ In r (reservas bd_indisponivel_103)
    /\ r_carro_id r = carro_id c /\ reserva_status r = "Reservada"
    /\ data_fim r = 103 /\ consulta_ok amb_cenario = true
    /\ ~ In c (get_available_vehicles amb_cenario bd_indisponivel_103
                 103 105 true).
Proof.
  exists (mkCarro 1 "ABC1D23" 100 (4 # 5) 1000 "Indisponível").
  exists (nova_reserva_row 1 reserva_simples carro_cenario).
  split; [left; reflexivity |]. split; [left; reflexivity |].
  repeat (split; [reflexivity |]).
  vm_compute. intros [].
Qed.

(** ** Return *)

Lemma key_devolver_row km ct mu da ou vr x :
  reserva_id (devolver_row km ct mu da ou vr x) = reserva_id x.
Proof. reflexivity. Qed.

(** What a return that went through has done. *)
Lemma transacao_devolucao_ok amb reserva f ct c pdf c' :
  transacao_devolucao amb reserva f ct c = (Ok pdf, c') ->
  documento amb = Ok pdf
  /\ confirmado c'
     = com_carros
         (fst (sql_update carro_id (r_carro_id reserva)
                 (devolver_carro "Disponível" (dv_km_volta f))
                 (carros (pendente c))))
         (com_reservas
            (fst (sql_update reserva_id (dv_reserva f)
                    (devolver_row (dv_km_volta f) ct (dv_valor_multas f)
                       (dv_valor_danos f) (dv_valor_outros f)
                       (valor_restante_final ct))
                    (reservas (pendente c))))
            (pendente c)).
Proof.
  unfold transacao_devolucao, tx_bind, tx_select_reserva.
  destruct (select_by_id reserva_id (dv_reserva f) (reservas (pendente c)));
    [| discriminate].
  unfold execute_update_reservas.
  set (linha := devolver_row _ ct _ _ _ _).
  destruct (sql_update reserva_id (dv_reserva f) linha (reservas (pendente c)))
    as [t n] eqn:Er.
  destruct (List.forallb _ (reservas (pendente c))); [| discriminate].
  destruct (Nat.eqb n 0); [discriminate |].
  unfold tx_getitem. rewrite status_carro_disponivel.
  unfold execute_update_carros. cbn [pendente confirmado com_reservas carros].
  destruct (sql_update carro_id (r_carro_id reserva) _ (carros (pendente c)))
    as [t2 m] eqn:Ec.
  destruct (Nat.eqb m 0); [discriminate |].
  unfold gerar_documento. destruct (documento amb) as [p | e]; [| discriminate].
  unfold conn_commit. destruct (commit_ok amb); [| discriminate].
  unfold tx_ret. intros H. inversion H. subst. cbn. split; reflexivity.
Qed.

(** A return that went through: the rental and the vehicle it was about,
    the widgets within their bounds, the receipt and the rows written. *)
Lemma finalizar_devolucao_done amb db f rec db' :
  finalizar_devolucao amb db f = (Done rec, db') ->
  exists r c pdf,
    select_by_id reserva_id (dv_reserva f) (locacoes_pendentes db) = Some r
    /\ select_by_id carro_id (r_carro_id r) (carros db) = Some c
    /\ campos_devolucao_validos amb r (preco_km c) f = true
    /\ rec = recibo_dados (contas_devolucao amb r (preco_km c) f) pdf
    /\ reservas db'
       = fst (sql_update reserva_id (dv_reserva f)
                (devolver_row (dv_km_volta f)
                   (contas_devolucao amb r (preco_km c) f) (dv_valor_multas f)
                   (dv_valor_danos f) (dv_valor_outros f)
                   (valor_restante_final (contas_devolucao amb r (preco_km c) f)))
                (reservas db))
    /\ carros db'
       = fst (sql_update carro_id (r_carro_id r)
                (devolver_carro "Disponível" (dv_km_volta f)) (carros db)).
Proof.
  unfold finalizar_devolucao.
  destruct (select_by_id reserva_id (dv_reserva f) (locacoes_pendentes db))
    as [r |] eqn:Er; [| discriminate].
  destruct (select_by_id carro_id (r_carro_id r) (carros db)) as [c |] eqn:Ec;
    [| discriminate].
  destruct (campos_devolucao_validos amb r (preco_km c) f) eqn:Ev;
    [| discriminate].
  cbn [negb]. unfold em_transacao, get_db_connection.
  destruct (conexao_ok amb); [| discriminate].
  destruct (transacao_devolucao amb r f _ (mkConexao db db))
    as [[pdf | e] c'] eqn:E; [| discriminate].
  intros H. inversion H. subst. apply transacao_devolucao_ok in E.
  destruct E as [_ Hconf]. unfold conn_close. rewrite Hconf. cbn.
  exists r, c, pdf. repeat split; first [assumption | reflexivity].
Qed.

Lemma campos_devolucao_km amb r preco f :
  campos_devolucao_validos amb r preco f = true ->
  km_saida_safe r <= dv_km_volta f.
Proof.
  unfold campos_devolucao_validos, number_input_int.
  destruct (Z.ltb_spec (dv_km_volta f) (km_saida_safe r)); [discriminate | lia].
Qed.

Lemma km_a_cobrar_cases km_volta km_saida A :
  km_saida <= km_volta ->
  km_a_cobrar km_volta km_saida (Some A)
  = if km_volta - km_saida >? A then km_volta - km_saida else 0.
Proof.
  intros H. unfold km_a_cobrar, km_franquia_reserva.
  rewrite Z.gtb_ltb. destruct (Z.ltb_spec A (km_volta - km_saida)); lia.
Qed.

(** C1, as the handler has it.  On a return that went through, with
    odometer-out kmOut, odometer-in kmIn, allowance A and rate R: kmIn is not
    below kmOut, and the kilometre charge is nothing while the kilometres
    driven stay within the allowance and the whole of the kilometres driven
    times the rate once they are more than the allowance: the handler sets
    the allowance to zero when the kilometres driven exceed it.  With 1000,
    1350, 300 and 0.80 the charge is 280.00, where the receipt drawn again
    from the history ([gerar_recibo_para_download]), which takes the
    allowance off, works out 40.00. *)
Theorem C1_km_charge amb db f r c kmOut A rec db' :
  select_by_id reserva_id (dv_reserva f) (locacoes_pendentes db) = Some r ->
  select_by_id carro_id (r_carro_id r) (carros db) = Some c ->
  km_saida r = Some kmOut -> km_franquia r = Some A ->
  finalizar_devolucao amb db f = (Done rec, db') ->
  kmOut <= dv_km_volta f
  /\ rc_custo_km rec
     == (if dv_km_volta f - kmOut >? A
         then inject_Z (dv_km_volta f - kmOut) * preco_km c else 0)
  /\ custo_km 1350 1000 (Some 300) (4 # 5) == 280
  /\ custo_km_recibo 1350 1000 (Some 300) (4 # 5) == 40.
Proof.
  intros Hr Hc Hs Hf Hdone.
  apply finalizar_devolucao_done in Hdone.
  destruct Hdone as (r0 & c0 & pdf & Hr0 & Hc0 & Hv & Hrec & _).
  rewrite Hr in Hr0. inversion Hr0. subst r0.
  rewrite Hc in Hc0. inversion Hc0. subst c0.
  apply campos_devolucao_km in Hv.
  assert (Hsafe : km_saida_safe r = kmOut)
    by (unfold km_saida_safe; rewrite Hs; reflexivity).
  rewrite Hsafe in Hv.
  split; [exact Hv |]. split; [| split; reflexivity].
  subst rec. cbn. unfold custo_km. rewrite Hsafe, Hf.
  rewrite km_a_cobrar_cases by exact Hv.
  destruct (dv_km_volta f - kmOut >? A); [reflexivity | ring].
Qed.

Lemma C1_km_charge_witness :
  exists rec db',
    finalizar_devolucao amb_cenario bd_locado devolucao_cenario = (Done rec, db')
    /\ 1000 <= dv_km_volta devolucao_cenario
    /\ rc_custo_km rec == 280.
Proof.
  eexists. eexists. split; [vm_compute; reflexivity |].
  edestruct (C1_km_charge amb_cenario bd_locado devolucao_cenario) as (H1 & H2 & _).
  - vm_compute. reflexivity.
  - vm_compute. reflexivity.
  - vm_compute. reflexivity.
  - vm_compute. reflexivity.
  - vm_compute. reflexivity.
  - split; [exact H1 |]. rewrite H2. vm_compute. reflexivity.
Defined.

(** The km-overage scenario on the handler: 1000 km out, 1350 km in, an
    allowance of 300 km and 0.80 a kilometre are charged 280.00, not the
    40.00 of [max(0, 350 - 300) * 0.80]. *)
Lemma C1_km_charge_counterexample :
  exists r rec db',
    select_by_id reserva_id 1 (locacoes_pendentes bd_locado) = Some r
    /\ km_saida r = Some 1000 /\ km_franquia r = Some 300
    /\ option_map preco_km (select_by_id carro_id (r_carro_id r)
                              (carros bd_locado)) = Some (4 # 5)
    /\ dv_km_volta devolucao_cenario = 1350
    /\ finalizar_devolucao amb_cenario bd_locado devolucao_cenario
       = (Done rec, db')
    /\ rc_custo_km rec == 280
    /\ ~ rc_custo_km rec
         == inject_Z (Z.max 0 ((1350 - 1000) - 300)) * (4 # 5).
Proof.
  eexists. eexists. eexists.
  split; [vm_compute; reflexivity |].
  repeat split; try (vm_compute; reflexivity).
  vm_compute. discriminate.
Qed.

(** The row of the rental after a return that went through. *)
Lemma finalizar_devolucao_row amb db f rec db' :
  bd_valido db = true ->
  finalizar_devolucao amb db f = (Done rec, db') ->
  exists r c pdf,
    select_by_id reserva_id (dv_reserva f) (locacoes_pendentes db) = Some r
    /\ select_by_id carro_id (r_carro_id r) (carros db) = Some c
    /\ campos_devolucao_validos amb r (preco_km c) f = true
    /\ rec = recibo_dados (contas_devolucao amb r (preco_km c) f) pdf
    /\ select_by_id reserva_id (dv_reserva f) (reservas db')
       = Some (devolver_row (dv_km_volta f)
                 (contas_devolucao amb r (preco_km c) f) (dv_valor_multas f)
                 (dv_valor_danos f) (dv_valor_outros f)
                 (valor_restante_final (contas_devolucao amb r (preco_km c) f))
                 r).
Proof.
  intros Hbd Hdone. apply finalizar_devolucao_done in Hdone.
  destruct Hdone as (r & c & pdf & Hr & Hc & Hv & Hrec & Hres & _).
  exists r, c, pdf. repeat split; try assumption.
  rewrite Hres, select_by_id_update by (intros; reflexivity).
  unfold bd_valido in Hbd. rewrite !andb_true_iff in Hbd.
  destruct Hbd as [[[[_ _] Hk] _] _].
  apply (select_by_id_filter reserva_id _ _ _ _ Hk) in Hr.
  destruct Hr as [Hr _]. rewrite Hr. reflexivity.
Qed.

(** C8. On the return of a rental whose odometer-out is recorded, an
    odometer-in below it is not accepted: the handler declines and the store
    is left as it was.  A return that went through has an odometer-in that is
    not below the odometer-out, and that is what the row holds. *)
Theorem C8_odometer_monotonic amb db f r kmOut :
  bd_valido db = true ->
  select_by_id reserva_id (dv_reserva f) (locacoes_pendentes db) = Some r ->
  km_saida r = Some kmOut ->
  (dv_km_volta f < kmOut ->
   exists msg, finalizar_devolucao amb db f = (Refused msg, db))
  /\ (forall rec db',
        finalizar_devolucao amb db f = (Done rec, db') ->
        kmOut <= dv_km_volta f
        /\ exists r',
             select_by_id reserva_id (dv_reserva f) (reservas db') = Some r'
             /\ km_saida r' = Some kmOut
             /\ km_volta r' = Some (dv_km_volta f)).
Proof.
  intros Hbd Hr Hs.
  assert (Hsafe : km_saida_safe r = kmOut)
    by (unfold km_saida_safe; rewrite Hs; reflexivity).
  split.
  - intros Hlt. unfold finalizar_devolucao. rewrite Hr.
    destruct (select_by_id carro_id (r_carro_id r) (carros db)) as [c |];
      [| eexists; reflexivity].
    assert (Hv : campos_devolucao_validos amb r (preco_km c) f = false).
    { unfold campos_devolucao_validos, number_input_int. rewrite Hsafe.
      destruct (Z.ltb_spec (dv_km_volta f) kmOut); [reflexivity | lia]. }
    rewrite Hv. cbn. eexists. reflexivity.
  - intros rec db' Hdone.
    apply (finalizar_devolucao_row amb db f rec db' Hbd) in Hdone.
    destruct Hdone as (r0 & c & pdf & Hr0 & _ & Hv & _ & Hrow).
    rewrite Hr in Hr0. inversion Hr0. subst r0.
    apply campos_devolucao_km in Hv. rewrite Hsafe in Hv.
    split; [exact Hv |]. eexists. split; [exact Hrow |].
    split; [exact Hs | reflexivity].
Qed.

Lemma C8_odometer_monotonic_witness :
  exists msg,
    finalizar_devolucao amb_cenario bd_locado
      (mkDevolucao 1 999 false 0 0 0 0 0)
    = (Refused msg, bd_locado).
Proof.
  edestruct (C8_odometer_monotonic amb_cenario bd_locado
               (mkDevolucao 1 999 false 0 0 0 0 0)) as [H _].
  - vm_compute. reflexivity.
  - vm_compute. reflexivity.
  - vm_compute. reflexivity.
  - apply H. vm_compute. reflexivity.
Defined.

(** ** The balance after a return *)

Lemma positivo_true x : positivo x = true -> (0 < x)%Q.
Proof.
  unfold positivo. rewrite negb_true_iff. intros H.
  apply Qnot_le_lt. intros Hle. apply Qle_bool_iff in Hle. congruence.
Qed.

Lemma positivo_false x : positivo x = false -> (x <= 0)%Q.
Proof.
  unfold positivo. rewrite negb_false_iff. apply Qle_bool_iff.
Qed.

Lemma Qmax_0_idem y : Qmax 0 (Qmax 0 y) == Qmax 0 y.
Proof. apply Q.max_r, Q.le_max_l. Qed.

(** C5. The reservation finalized by a return holds, as its remaining
    balance, the total less the advance less the payment received, and not
    less than nothing; the payment received is what the operator entered when
    something was due and nothing otherwise, and the statement is the same
    for the payment the receipt shows (the amount received up to what was
    due).  The balance is never negative. *)
Theorem C5_balance_invariant amb db f rec db' :
  bd_valido db = true ->
  finalizar_devolucao amb db f = (Done rec, db') ->
  exists r',
    select_by_id reserva_id (dv_reserva f) (reservas db') = Some r'
    /\ reserva_status r' = "Finalizada"
    /\ valor_restante r'
       == Qmax 0 (valor_total r' - adiantamento r'
                  - (if positivo (valor_total r' - adiantamento r')
                     then dv_valor_pago f else 0))
    /\ valor_restante r'
       == Qmax 0 (valor_total r' - adiantamento r' - rc_valor_pago rec)
    /\ (0 <= valor_restante r')%Q.
Proof.
  intros Hbd Hdone.
  apply (finalizar_devolucao_row amb db f rec db' Hbd) in Hdone.
  destruct Hdone as (r & c & pdf & _ & _ & _ & Hrec & Hrow).
  eexists. split; [exact Hrow |]. split; [reflexivity |].
  subst rec. cbn.
  set (tf := (_ - adiantamento r)%Q).
  unfold valor_restante_final. cbn. fold tf.
  destruct (positivo tf) eqn:Etf.
  - apply positivo_true in Etf.
    split; [apply Qmax_0_idem |]. split; [| apply Q.le_max_l].
    rewrite Qmax_0_idem.
    destruct (Q.min_spec (dv_valor_pago f) tf) as [[Hlt Hmin] | [Hle Hmin]];
      rewrite Hmin.
    + reflexivity.
    + rewrite (Q.max_l 0 (tf - dv_valor_pago f)) by lra.
      rewrite (Q.max_l 0 (tf - tf)) by lra. reflexivity.
  - apply positivo_false in Etf.
    assert (H0 : Qmax 0 (tf - 0) == 0) by (apply Q.max_l; lra).
    rewrite H0. repeat split; try reflexivity. apply Qle_refl.
Qed.

Lemma C5_balance_invariant_witness :
  exists r',
    select_by_id reserva_id 1 (reservas bd_finalizado) = Some r'
    /\ valor_restante r' == 280 /\ valor_total r' == 580
    /\ adiantamento r' == 300.
Proof.
  edestruct (C5_balance_invariant amb_cenario bd_locado devolucao_cenario)
    as (r' & Hrow & _ & _ & _ & _).
  - vm_compute. reflexivity.
  - vm_compute. reflexivity.
  - exists r'. split; [exact Hrow |].
    vm_compute in Hrow. inversion Hrow. vm_compute. repeat split; reflexivity.
Defined.

(** ** The totals written by a delivery *)

Lemma number_input_int_some lo x y :
  number_input_int lo x = Some y -> y = x /\ lo <= x.
Proof.
  unfold number_input_int. destruct (Z.ltb_spec x lo) as [Hlt | Hge];
    [discriminate |].
  intros Hy. inversion Hy. split; [reflexivity | lia].
Qed.

Lemma number_input_some lo hi x y : number_input lo hi x = Some y -> y = x.
Proof.
  unfold number_input. destruct (Qle_bool lo x); [| discriminate].
  destruct hi as [h |]; [destruct (Qle_bool x h) |]; intros H;
    inversion H; reflexivity.
Qed.

Lemma Qmax_0_compat x y : x == y -> Qmax 0 x == Qmax 0 y.
Proof.
  intros H.
  destruct (Q.max_spec 0 x) as [[Hx Ex] | [Hx Ex]];
    destruct (Q.max_spec 0 y) as [[Hy Ey] | [Hy Ey]];
    rewrite Ex, Ey; lra.
Qed.

(** A delivery that went through: the reservation and the vehicle it read,
    and the row it wrote. *)
Lemma confirmar_entrega_done amb db f pdf db' :
  bd_valido db = true ->
  confirmar_entrega amb db f = (Done pdf, db') ->
  exists r c,
    select_by_id reserva_id (en_reserva f) (reservas db) = Some r
    /\ reserva_status r = "Reservada"
    /\ select_by_id carro_id (r_carro_id r) (carros db) = Some c
    /\ km_saida_entrega r c <= en_km_confirma f
    /\ select_by_id reserva_id (en_reserva f) (reservas db')
       = Some (entregar_row (en_km_confirma f) (en_data_saida f) "Locada"
                 (en_horario f) (adiantamento r + en_valor_pago_agora f)%Q
                 (diaria c
                  * inject_Z (Z.max 1 (data_fim r - en_data_saida f + 0)))%Q
                 (Qmax 0 (valor_previsto r c
                          - (adiantamento r + en_valor_pago_agora f)))
                 r).
Proof.
  intros Hbd. unfold confirmar_entrega.
  destruct (select_by_id reserva_id (en_reserva f) (reservas_entrega db))
    as [r |] eqn:Er; [| discriminate].
  destruct (select_by_id carro_id (r_carro_id r) (carros db)) as [c |] eqn:Ec;
    [| discriminate].
  destruct (select_by_id cliente_id (r_cliente_id r) (clientes db));
    [| discriminate].
  destruct (validar_cnh_simplificada amb c0); [| discriminate]. cbn [negb].
  destruct (number_input_int _ (en_km_confirma f)) as [km |] eqn:Ekm;
    [| discriminate].
  destruct (number_input 0 _ (en_valor_pago_agora f)) as [pago |] eqn:Ep;
    [| discriminate].
  apply number_input_int_some in Ekm. destruct Ekm as [-> Hkm].
  apply number_input_some in Ep. subst pago.
  unfold finalizar_entrega, em_transacao, get_db_connection.
  destruct (conexao_ok amb); [| discriminate].
  destruct (transacao_entrega _ _ _ _ _ _ _ _ _ _ (mkConexao db db))
    as [[p | e] c'] eqn:E; [| discriminate].
  intros H. inversion H. subst. apply transacao_entrega_ok in E.
  destruct E as (_ & _ & _ & Hconf). unfold conn_close. rewrite Hconf.
  cbn [reservas com_reservas com_carros pendente].
  unfold bd_valido in Hbd. rewrite !andb_true_iff in Hbd.
  destruct Hbd as [[[[_ _] Hk] _] _].
  apply (select_by_id_filter reserva_id _ _ _ _ Hk) in Er.
  destruct Er as [Er Hp]. rewrite !andb_true_iff in Hp.
  destruct Hp as [[[_ Hst] _] _]. apply bool_decide_eq_true in Hst.
  exists r, c. repeat split; try assumption.
  rewrite select_by_id_update by (intros; reflexivity).
  rewrite Er. reflexivity.
Qed.

(** C10, as the handler has it.  A delivery that went through overwrites
    the grand total with the daily rate times [max(1, end - departure)]: the
    half-day flag, the discount and the stored total of the days play no part
    in it, and they stay as they were.  The balance it stores is
    [max(0, P - advance - collected now)], where P is the stored total of the
    days when that is not zero, and the daily rate times
    [max(1, end - start + 1)] when it is zero. *)
Theorem C10_delivery_totals amb db f pdf db' :
  bd_valido db = true ->
  confirmar_entrega amb db f = (Done pdf, db') ->
  exists r c r',
    select_by_id reserva_id (en_reserva f) (reservas db) = Some r
    /\ select_by_id carro_id (r_carro_id r) (carros db) = Some c
    /\ select_by_id reserva_id (en_reserva f) (reservas db') = Some r'
    /\ valor_total r'
       == diaria c * inject_Z (Z.max 1 (data_fim r - en_data_saida f))
    /\ total_diarias r' = total_diarias r
    /\ meia_diaria r' = meia_diaria r
    /\ desconto_cliente r' = desconto_cliente r
    /\ (~ total_diarias r == 0 ->
        valor_restante r'
        == Qmax 0 (total_diarias r - adiantamento r - en_valor_pago_agora f))
    /\ (total_diarias r == 0 ->
        valor_restante r'
        == Qmax 0 (inject_Z (Z.max 1 (data_fim r - data_inicio r + 1)) * diaria c
                   - adiantamento r - en_valor_pago_agora f)).
Proof.
  intros Hbd Hdone.
  apply (confirmar_entrega_done amb db f pdf db' Hbd) in Hdone.
  destruct Hdone as (r & c & Hr & _ & Hc & _ & Hrow).
  exists r, c. eexists. split; [exact Hr |]. split; [exact Hc |].
  split; [exact Hrow |]. cbn.
  split; [rewrite Z.add_0_r; reflexivity |].
  repeat split.
  - intros Hnz. unfold valor_previsto.
    destruct (Qeq_bool (total_diarias r) 0) eqn:E.
    + apply Qeq_bool_iff in E. contradiction.
    + apply Qmax_0_compat. ring.
  - intros Hz. unfold valor_previsto.
    destruct (Qeq_bool (total_diarias r) 0) eqn:E.
    + apply Qmax_0_compat. ring.
    + apply Qeq_bool_neq in E. contradiction.
Qed.

Lemma C10_delivery_totals_witness :
  exists r',
    select_by_id reserva_id 1 (reservas bd_locado) = Some r'
    /\ valor_total r' == 300 /\ valor_restante r' == 0.
Proof.
  edestruct (C10_delivery_totals amb_cenario bd_reservado entrega_cenario)
    as (r & c & r' & Hr & Hc & Hrow & Hvt & _).
  - vm_compute. reflexivity.
  - vm_compute. reflexivity.
  - exists r'. split; [exact Hrow |].
    vm_compute in Hrow. inversion Hrow. vm_compute. split; reflexivity.
Defined.

(** A reservation whose stored total of the days is zero (its discount
    covers the charge), handed over with nothing collected: the balance
    stored is 400.00, not [max(0, 0 - 0 - 0)]. *)
Lemma C10_delivery_totals_counterexample :
  exists r pdf db' r',
    select_by_id reserva_id 1 (reservas bd_cortesia) = Some r
    /\ total_diarias r == 0 /\ adiantamento r == 0
    /\ en_valor_pago_agora entrega_cortesia == 0
    /\ confirmar_entrega amb_cenario bd_cortesia entrega_cortesia
       = (Done pdf, db')
    /\ select_by_id reserva_id 1 (reservas db') = Some r'
    /\ valor_restante r' == 400
    /\ ~ valor_restante r'
         == Qmax 0 (total_diarias r - adiantamento r
                    - en_valor_pago_agora entrega_cortesia).
Proof.
  eexists. eexists. eexists. eexists.
  split; [vm_compute; reflexivity |].
  split; [vm_compute; reflexivity |].
  split; [vm_compute; reflexivity |].
  split; [vm_compute; reflexivity |].
  split; [vm_compute; reflexivity |].
  split; [vm_compute; reflexivity |].
  split; [vm_compute; reflexivity |].
  vm_compute. discriminate.
Qed.

(** ** Money columns: the rounding to two decimals *)

Lemma Qfloor_unico (y : Q) (z : Z) :
  (inject_Z z <= y)%Q -> (y < inject_Z (z + 1))%Q -> Qfloor y = z.
Proof.
  intros H1 H2.
  pose proof (Qfloor_le y) as H3. pose proof (Qlt_floor y) as H4.
  assert (H5 : z < Qfloor y + 1).
  { rewrite Zlt_Qlt. eapply Qle_lt_trans; eassumption. }
  assert (H6 : Qfloor y < z + 1).
  { rewrite Zlt_Qlt. eapply Qle_lt_trans; eassumption. }
  lia.
Qed.

Lemma Qfloor_nao_negativo (y : Q) : (0 <= y)%Q -> 0 <= Qfloor y.
Proof. intros H. exact (Qfloor_resp_le 0 y H). Qed.

Lemma Qle_bool_falso (x y : Q) : Qle_bool x y = false -> (y < x)%Q.
Proof.
  intros H. apply Qnot_le_lt. intros K. apply Qle_bool_iff in K. congruence.
Qed.

Lemma centavos_nao_negativo (q : Q) :
  (0 <= q)%Q -> centavos q = Qfloor (q * 100 + (1 # 2)).
Proof.
  intros H. unfold centavos. apply Qle_bool_iff in H. rewrite H. reflexivity.
Qed.

Lemma centavos_negativo (q : Q) :
  (q < 0)%Q -> centavos q = - Qfloor (- q * 100 + (1 # 2)).
Proof.
  intros H. unfold centavos. destruct (Qle_bool 0 q) eqn:E; [| reflexivity].
  apply Qle_bool_iff in E. lra.
Qed.

Lemma centavos_comp (x y : Q) : x == y -> centavos x = centavos y.
Proof.
  intros H. destruct (Qlt_le_dec x 0) as [Hx | Hx].
  - rewrite (centavos_negativo x Hx), (centavos_negativo y) by lra.
    f_equal. apply Qfloor_comp. lra.
  - rewrite (centavos_nao_negativo x Hx), (centavos_nao_negativo y) by lra.
    apply Qfloor_comp. lra.
Qed.

Lemma centavos_mono (x y : Q) : (x <= y)%Q -> centavos x <= centavos y.
Proof.
  intros H. destruct (Qlt_le_dec x 0) as [Hx | Hx];
    destruct (Qlt_le_dec y 0) as [Hy | Hy]; try lra.
  - rewrite (centavos_negativo x Hx), (centavos_negativo y Hy).
    apply Z.opp_le_mono. rewrite !Z.opp_involutive.
    apply Qfloor_resp_le. lra.
  - rewrite (centavos_negativo x Hx), (centavos_nao_negativo y Hy).
    assert (0 <= Qfloor (- x * 100 + (1 # 2)))
      by (apply Qfloor_nao_negativo; lra).
    assert (0 <= Qfloor (y * 100 + (1 # 2)))
      by (apply Qfloor_nao_negativo; lra).
    lia.
  - rewrite (centavos_nao_negativo x Hx), (centavos_nao_negativo y Hy).
    apply Qfloor_resp_le. lra.
Qed.

Lemma centavos_oposto (q : Q) : centavos (- q) = - centavos q.
Proof.
  destruct (Qlt_le_dec q 0) as [Hq | Hq].
  - rewrite (centavos_negativo q Hq), (centavos_nao_negativo (- q)) by lra.
    lia.
  - destruct (Qlt_le_dec 0 q) as [Hp | Hp].
    + rewrite (centavos_nao_negativo q Hq), (centavos_negativo (- q)) by lra.
      f_equal. apply Qfloor_comp. lra.
    + assert (Hz : q == 0) by lra.
      rewrite (centavos_comp (- q) 0), (centavos_comp q 0) by lra.
      reflexivity.
Qed.

Lemma decimal_10_2_valor (q : Q) : decimal_10_2 q == centavos q # 100.
Proof. apply Qred_correct. Qed.

Lemma decimal_10_2_comp (x y : Q) : x == y -> decimal_10_2 x = decimal_10_2 y.
Proof.
  intros H. unfold decimal_10_2. rewrite (centavos_comp x y H). reflexivity.
Qed.

Lemma centesimos_le (a b : Z) : a <= b -> (a # 100 <= b # 100)%Q.
Proof. intros H. unfold Qle. cbn [Qnum Qden]. lia. Qed.

Lemma decimal_10_2_mono (x y : Q) :
  (x <= y)%Q -> (decimal_10_2 x <= decimal_10_2 y)%Q.
Proof.
  intros H. rewrite !decimal_10_2_valor.
  apply centesimos_le, centavos_mono, H.
Qed.

Lemma decimal_10_2_zero : decimal_10_2 0 == 0.
Proof. reflexivity. Qed.

Lemma decimal_10_2_nao_negativo (q : Q) :
  (0 <= q)%Q -> (0 <= decimal_10_2 q)%Q.
Proof.
  intros H. rewrite <- decimal_10_2_zero. apply decimal_10_2_mono, H.
Qed.

Lemma decimal_10_2_nao_positivo (q : Q) :
  (q <= 0)%Q -> (decimal_10_2 q <= 0)%Q.
Proof.
  intros H. rewrite <- decimal_10_2_zero. apply decimal_10_2_mono, H.
Qed.

Lemma decimal_10_2_oposto (q : Q) : decimal_10_2 (- q) == - decimal_10_2 q.
Proof.
  rewrite !decimal_10_2_valor, centavos_oposto. reflexivity.
Qed.

(** An amount of two decimals is a whole number of hundredths. *)
Lemma decimal_10_2_centavos (a : Q) :
  decimal_10_2 a == a -> a * 100 == inject_Z (centavos a).
Proof.
  intros H. remember (centavos a) as m eqn:Em.
  rewrite decimal_10_2_valor, <- Em in H. rewrite <- H.
  unfold Qeq, Qmult, inject_Z. cbn [Qnum Qden]. lia.
Qed.

(** Taking an amount of two decimals off: the rounding commutes with it. *)
Lemma decimal_10_2_menos (x a : Q) :
  (0 <= x)%Q -> (a <= x)%Q -> decimal_10_2 a == a ->
  decimal_10_2 (x - a) == decimal_10_2 x - a.
Proof.
  intros Hx Hxa Ha.
  pose proof (decimal_10_2_centavos a Ha) as Hm.
  assert (Hc : centavos (x - a) = centavos x - centavos a).
  { rewrite (centavos_nao_negativo (x - a)), (centavos_nao_negativo x)
      by lra.
    remember (centavos a) as m eqn:Em.
    pose proof (Qfloor_le (x * 100 + (1 # 2))) as H3.
    pose proof (Qlt_floor (x * 100 + (1 # 2))) as H4.
    remember (Qfloor (x * 100 + (1 # 2))) as n eqn:En.
    rewrite inject_Z_plus in H4. change (inject_Z 1) with 1%Q in H4.
    apply Qfloor_unico.
    - unfold Z.sub. rewrite inject_Z_plus, inject_Z_opp. lra.
    - unfold Z.sub. rewrite !inject_Z_plus, inject_Z_opp.
      change (inject_Z 1) with 1%Q. lra. }
  rewrite !decimal_10_2_valor, Hc.
  rewrite decimal_10_2_valor in Ha.
  remember (centavos a) as m eqn:Em. remember (centavos x) as n eqn:En.
  rewrite <- Ha.
  unfold Qeq, Qminus, Qplus, Qopp. cbn [Qnum Qden]. lia.
Qed.

Lemma decimal_10_2_positivo (q : Q) : (0 < decimal_10_2 q)%Q -> (0 < q)%Q.
Proof.
  intros H. destruct (Qlt_le_dec 0 q) as [Hq | Hq]; [exact Hq |].
  pose proof (decimal_10_2_nao_positivo q Hq). lra.
Qed.

(** ** The charge for the days, at creation and on edit *)




Lemma drop_duplicates_In vistos t c :
  In c (drop_duplicates vistos t) -> In c t.
Proof.
  revert vistos. induction t as [| x t IH]; intros vistos; simpl; [tauto |].
  destruct (List.existsb _ vistos).
  - intros H. right. exact (IH _ H).
  - intros [H | H]; [left; exact H | right; exact (IH _ H)].
Qed.

Lemma carros_disponiveis_edit_In amb db r f c :
  In c (carros_disponiveis_edit amb db r f) -> In c (carros db).
Proof.
  unfold carros_disponiveis_edit. intros H. apply drop_duplicates_In in H.
  destruct (datas_alteradas r f).
  - apply List.in_app_or in H. destruct H as [H | H].
    + apply get_available_vehicles_In in H. tauto.
    + destruct (check_vehicle_availability _ _ _ _ _ _); [| contradiction].
      apply List.filter_In in H. destruct H as [H _].
      unfold carros_df in H. apply List.filter_In in H. tauto.
  - unfold carros_df in H. apply List.filter_In in H. tauto.
Qed.

(** What an edit that went through has written in [reservas]. *)
Lemma transacao_edicao_ok amb db r f c u c' :
  transacao_edicao amb db r f c = (Ok u, c') ->
  reservas (confirmado c')
  = fst (sql_update reserva_id (e_reserva f)
           (fun x => armazenar (editar_row amb db r f x))
           (reservas (pendente c))).
Proof.
  unfold transacao_edicao, tx_bind, execute_update_reservas_decimal.
  destruct (List.forallb _ (reservas (pendente c))); [| discriminate].
  unfold execute_update_reservas.
  destruct (sql_update reserva_id (e_reserva f)
              (fun x => armazenar (editar_row amb db r f x))
              (reservas (pendente c))) as [t n] eqn:Er.
  destruct (List.forallb _ (reservas (pendente c))); [| discriminate].
  destruct (Nat.eqb n 0); [discriminate |].
  unfold tx_getitem, tx_ret, execute_update_carros, conn_commit.
  rewrite status_carro_disponivel, status_reserva_reservada,
    status_carro_reservado, status_reserva_locada, status_carro_locado.
  cbn [pendente confirmado].
  destruct (bool_decide (e_reserva_status f = "Reservada"));
    [| destruct (bool_decide (e_reserva_status f = "Locada"))];
    destruct (sql_update carro_id (e_carro f) _ _) as [t1 n1];
    (destruct (negb (e_carro f =? r_carro_id r));
     [ cbn [pendente confirmado com_carros carros];
       destruct (sql_update carro_id (r_carro_id r) _ _) as [t2 n2] | ]);
    destruct (commit_ok amb); try discriminate;
    intros H; inversion H; reflexivity.
Qed.

(** An edit that went through: the reservation as it was, the vehicle
    chosen, and the row as it is, its amounts as the columns hold them. *)
Lemma salvar_alteracoes_done amb db f db' :
  bd_valido db = true ->
  salvar_alteracoes amb db f = (Done tt, db') ->
  exists r c,
    select_by_id reserva_id (e_reserva f) (reservas db) = Some r
    /\ select_by_id carro_id (e_carro f) (carros_disponiveis_edit amb db r f)
       = Some c
    /\ select_by_id carro_id (e_carro f) (carros db) = Some c
    /\ select_by_id reserva_id (e_reserva f) (reservas db')
       = Some (armazenar (editar_row amb db r f r)).
Proof.
  intros Hbd. unfold salvar_alteracoes.
  destruct (select_by_id reserva_id (e_reserva f) (reservas_edicao db))
    as [r |] eqn:Er; [| discriminate].
  destruct (clientes db) as [| cl0 cls] eqn:Ecl; [discriminate |].
  destruct (carros_df db r) as [| c0 cs] eqn:Edf; [discriminate |].
  destruct (campos_edicao_validos amb f); [| discriminate]. cbn [negb].
  destruct (select_by_id cliente_id (e_cliente f) (cl0 :: cls)) as [cl |];
    [| discriminate].
  destruct (select_by_id carro_id (e_carro f) (carros_disponiveis_edit amb db r f))
    as [c |] eqn:Ec; [| discriminate].
  destruct (e_fim f <? e_inicio f); [discriminate |].
  destruct (check_vehicle_availability _ _ _ _ _ _); [| discriminate].
  cbn [negb]. unfold em_transacao, get_db_connection.
  destruct (conexao_ok amb); [| discriminate].
  destruct (transacao_edicao amb db r f (mkConexao db db))
    as [[u | e] c'] eqn:E; [| discriminate].
  intros H. inversion H. subst. apply transacao_edicao_ok in E.
  unfold conn_close. cbn [pendente] in E.
  unfold bd_valido in Hbd. rewrite !andb_true_iff in Hbd.
  destruct Hbd as [[[[Hkc _] Hk] _] _].
  apply (select_by_id_filter reserva_id _ _ _ _ Hk) in Er.
  destruct Er as [Er _].
  exists r, c. repeat split; try assumption.
  - pose proof (select_by_id_some carro_id _ _ _ Ec) as [Hin Hid].
    apply carros_disponiveis_edit_In in Hin.
    apply chaves_unicas_select; assumption.
  - rewrite E, select_by_id_update by (intros; reflexivity).
    rewrite Er. reflexivity.
Qed.




(** ** Fines and the operational status of the reservation *)

Lemma check_datas_preservado (k : Z) (set : Reserva -> Reserva) t :
  (forall x, data_inicio (set x) = data_inicio x
             /\ data_fim (set x) = data_fim x) ->
  List.forallb check_datas t = true ->
  List.forallb
    (fun r => if reserva_id r =? k then check_datas (set r) else true) t
  = true.
Proof.
  intros Hset. induction t as [| x t IH]; simpl; [reflexivity |].
  rewrite !andb_true_iff. intros [Hx Ht]. split; [| exact (IH Ht)].
  destruct (reserva_id x =? k); [| reflexivity].
  unfold check_datas in *. destruct (Hset x) as [-> ->]. exact Hx.
Qed.

(** The UPDATE of the operational status, on a store that can be reached. *)
Lemma atualizar_status_reserva_ok amb k s db :
  conexao_ok amb = true -> commit_ok amb = true ->
  List.forallb check_datas (reservas db) = true ->
  atualizar_status_reserva amb k s db
  = com_reservas
      (fst (sql_update reserva_id k (set_reserva_status_operacional s)
              (reservas db)))
      db.
Proof.
  intros Hcon Hcom Hchk.
  unfold atualizar_status_reserva, run_query, get_db_connection.
  rewrite Hcon. unfold tx_bind, execute_update_reservas.
  cbn [pendente confirmado].
  rewrite (check_datas_preservado k (set_reserva_status_operacional s))
    by (first [exact Hchk | intros; split; reflexivity]).
  unfold sql_update, tx_ret, conn_commit. rewrite Hcom. reflexivity.
Qed.

(** What the button of a fine leaves as the operational status of the
    reservation: "Finalizada" for Paga, "Com Multa Pendente" for each of the
    other two, whatever the other fines of the reservation are. *)
Lemma atualizar_status_multa_reserva amb db f multa :
  conexao_ok amb = true -> commit_ok amb = true ->
  List.forallb check_datas (reservas db) = true ->
  select_by_id multa_id (sm_multa f)
    (multas_listadas db (sm_filtro_inicio f) (sm_filtro_fim f)) = Some multa ->
  sm_novo_status f <> multa_status multa ->
  select_by_id reserva_id (m_reserva_id multa) (reservas db) <> None ->
  status_da_reserva (snd (atualizar_status_multa amb db f)) (m_reserva_id multa)
  = Some (match sm_novo_status f with
          | Paga => "Finalizada"
          | _ => "Com Multa Pendente"
          end).
Proof.
  intros Hcon Hcom Hchk Hm Hne Hr. unfold atualizar_status_multa. rewrite Hm.
  assert (Hneq : status_multa_eqb (sm_novo_status f) (multa_status multa) = false).
  { destruct (sm_novo_status f), (multa_status multa);
      try reflexivity; contradiction. }
  rewrite Hneq. cbn [negb].
  set (db1 := snd (run_query amb _ db)).
  assert (Hdb1 : reservas db1 = reservas db).
  { subst db1. unfold run_query, get_db_connection. rewrite Hcon.
    unfold tx_bind. cbn [pendente confirmado].
    destruct (sql_update multa_id _ _ _) as [t n].
    unfold conn_commit. rewrite Hcom. reflexivity. }
  assert (Hchk1 : List.forallb check_datas (reservas db1) = true)
    by (rewrite Hdb1; exact Hchk).
  destruct (select_by_id reserva_id (m_reserva_id multa) (reservas db))
    as [r |] eqn:Er; [| contradiction].
  destruct (sm_novo_status f); cbn [status_multa_texto];
    [ rewrite bool_decide_eq_false_2 by discriminate
    | rewrite bool_decide_eq_true_2 by reflexivity
    | rewrite bool_decide_eq_false_2 by discriminate ];
    cbn [snd]; rewrite atualizar_status_reserva_ok by assumption;
    unfold status_da_reserva; cbn [reservas com_reservas];
    rewrite select_by_id_update by (intros; reflexivity);
    rewrite Hdb1, Er; reflexivity.
Qed.

(** C2, on the handlers.  On a store that can be reached, the button of a
    fine leaves the reservation at "Finalizada" when the fine is marked Paga
    and at "Com Multa Pendente" when it is marked Isentada (or Pendente),
    whatever the other fines of the reservation are.  So a pending fine
    registered against a finalized reservation moves its operational status
    to "Com Multa Pendente", and marking the fine Paga moves it back to
    "Finalizada"; marking the fine Isentada instead goes through, leaves the
    reservation with no pending fine, and leaves its operational status at
    "Com Multa Pendente". *)
Theorem C2_fine_lifecycle :
  (forall amb db f multa,
      conexao_ok amb = true -> commit_ok amb = true ->
      List.forallb check_datas (reservas db) = true ->
      select_by_id multa_id (sm_multa f)
        (multas_listadas db (sm_filtro_inicio f) (sm_filtro_fim f))
      = Some multa ->
      sm_novo_status f <> multa_status multa ->
      select_by_id reserva_id (m_reserva_id multa) (reservas db) <> None ->
      status_da_reserva (snd (atualizar_status_multa amb db f))
        (m_reserva_id multa)
      = Some (match sm_novo_status f with
              | Paga => "Finalizada"
              | _ => "Com Multa Pendente"
              end))
  /\ status_da_reserva bd_finalizado 1 = Some "Finalizada"
  /\ fst (registrar_multa amb_cenario bd_finalizado multa_cenario) = Done tt
  /\ tem_multa_pendente bd_multado 1 = true
  /\ status_da_reserva bd_multado 1 = Some "Com Multa Pendente"
  /\ status_da_reserva
       (snd (atualizar_status_multa amb_cenario bd_multado marcar_paga)) 1
     = Some "Finalizada"
  /\ fst (atualizar_status_multa amb_cenario bd_multado marcar_isentada)
     = Done tt
  /\ tem_multa_pendente
       (snd (atualizar_status_multa amb_cenario bd_multado marcar_isentada)) 1
     = false
  /\ status_da_reserva
       (snd (atualizar_status_multa amb_cenario bd_multado marcar_isentada)) 1
     = Some "Com Multa Pendente".
Proof.
  split; [exact atualizar_status_multa_reserva |].
  repeat split; vm_compute; reflexivity.
Qed.

Lemma C2_fine_lifecycle_witness :
  status_da_reserva
    (snd (atualizar_status_multa amb_cenario bd_multado marcar_isentada)) 1
  = Some "Com Multa Pendente".
Proof.
  apply (proj1 C2_fine_lifecycle amb_cenario bd_multado marcar_isentada
           (mkMulta 1 1 "Excesso de Velocidade" 200 100 Pendente)).
  - reflexivity.
  - reflexivity.
  - vm_compute. reflexivity.
  - vm_compute. reflexivity.
  - vm_compute. discriminate.
  - vm_compute. discriminate.
Defined.

(** * Further properties of the handlers *)

(** ** Availability: the two tests and the check for one vehicle *)

Lemma length_filter_zero {A : Type} (p : A -> bool) (t : list A) :
  Nat.eqb (length (List.filter p t)) 0 = negb (List.existsb p t).
Proof.
  induction t as [| x t IH]; simpl; [reflexivity |].
  destruct (p x); simpl; [reflexivity | exact IH].
Qed.

Lemma periodo_conflita_estrito_fecho inicio fim r :
  periodo_conflita true inicio fim r = true ->
  periodo_conflita false inicio fim r = true.
Proof.
  rewrite periodo_conflita_estrito, periodo_conflita_fecho. lia.
Qed.

(** X1. The same-day option only widens the answer: a vehicle offered without
    it is offered with it. *)
Theorem X_disponibilidade_monotona amb db inicio fim c :
  In c (get_available_vehicles amb db inicio fim false) ->
  In c (get_available_vehicles amb db inicio fim true).
Proof.
  rewrite !get_available_vehicles_In. intros (Hc & Huso & Hoc & Hq).
  split; [exact Hc | split; [exact Huso | split; [| exact Hq]]].
  destruct (carro_ocupado db true inicio fim c) eqn:E; [| reflexivity].
  unfold carro_ocupado in E.
  apply List.existsb_exists in E. destruct E as (x & Hx & Hp).
  rewrite !andb_true_iff in Hp. destruct Hp as [[Hxc Hxo] Hxp].
  apply periodo_conflita_estrito_fecho in Hxp.
  assert (Hex : carro_ocupado db false inicio fim c = true).
  { unfold carro_ocupado. apply List.existsb_exists. exists x.
    split; [exact Hx |]. rewrite Hxc, Hxo, Hxp. reflexivity. }
  congruence.
Qed.

Lemma X_disponibilidade_monotona_witness :
  In carro_cenario (get_available_vehicles amb_cenario bd_devolve_103 104 105 true).
Proof.
  apply (X_disponibilidade_monotona amb_cenario bd_devolve_103 104 105
           carro_cenario).
  vm_compute. left. reflexivity.
Defined.

(** X2. For a vehicle of the fleet that is in use, the check for one vehicle and
    the list of available vehicles agree when their queries are answered.
    When they are not, the check answers that the vehicle is free and the
    list is empty. *)
Theorem X_check_concorda_com_lista amb db c inicio fim :
  In c (carros db) -> carro_fora_de_uso c = false ->
  (consulta_ok amb = true ->
   (check_vehicle_availability amb db (carro_id c) inicio fim None = true
    <-> In c (get_available_vehicles amb db inicio fim false)))
  /\ (consulta_ok amb = false ->
      check_vehicle_availability amb db (carro_id c) inicio fim None = true
      /\ get_available_vehicles amb db inicio fim false = []).
Proof.
  intros Hc Huso. split; intros Hq.
  2:{ unfold check_vehicle_availability, get_available_vehicles,
        run_query_dataframe. rewrite Hq. split; reflexivity. }
  rewrite get_available_vehicles_In.
  unfold check_vehicle_availability, carro_ocupado, run_query_dataframe.
  rewrite Hq, length_filter_zero, negb_true_iff.
  assert (Heq : List.existsb
                  (fun r => (r_carro_id r =? carro_id c) && reserva_ocupa r
                            && periodo_conflita false inicio fim r
                            && negb false) (reservas db)
                = List.existsb
                    (fun r => (r_carro_id r =? carro_id c) && reserva_ocupa r
                              && periodo_conflita false inicio fim r)
                    (reservas db)).
  { induction (reservas db) as [| x t IH]; cbn [List.existsb];
      [reflexivity |].
    rewrite IH. cbn [negb]. rewrite andb_true_r. reflexivity. }
  rewrite Heq. tauto.
Qed.

Lemma X_check_concorda_com_lista_witness :
  (check_vehicle_availability amb_cenario bd_devolve_103 1 104 105 None = true
   <-> In carro_cenario
         (get_available_vehicles amb_cenario bd_devolve_103 104 105 false))
  /\ check_vehicle_availability amb_sem_consulta bd_devolve_103 1 101 102 None
     = true
  /\ get_available_vehicles amb_sem_consulta bd_devolve_103 101 102 false = [].
Proof.
  split.
  - apply (X_check_concorda_com_lista amb_cenario bd_devolve_103
             carro_cenario 104 105).
    + left. reflexivity.
    + reflexivity.
    + reflexivity.
  - apply (X_check_concorda_com_lista amb_sem_consulta bd_devolve_103
             carro_cenario 101 102).
    + left. reflexivity.
    + reflexivity.
    + reflexivity.
Defined.

Lemma filter_exclui {A : Type} (p e : A -> bool) (t : list A) :
  List.filter (fun r => p r && negb (e r)) t
  = List.filter (fun r => p r && negb false)
      (List.filter (fun r => negb (e r)) t).
Proof.
  induction t as [| x t IH]; simpl; [reflexivity |].
  destruct (e x); simpl.
  - rewrite andb_false_r. exact IH.
  - rewrite !andb_true_r. destruct (p x); [f_equal |]; exact IH.
Qed.

(** X3. Setting a reservation aside in the check is checking the store without
    it; an id of zero sets nothing aside. *)
Theorem X_check_exclui_reserva amb db carro inicio fim k :
  k <> 0 ->
  check_vehicle_availability amb db carro inicio fim (Some k)
  = check_vehicle_availability amb
      (com_reservas
         (List.filter (fun r => negb (reserva_id r =? k)) (reservas db)) db)
      carro inicio fim None
  /\ check_vehicle_availability amb db carro inicio fim (Some 0)
     = check_vehicle_availability amb db carro inicio fim None.
Proof.
  intros Hk. unfold check_vehicle_availability. cbn [reservas com_reservas].
  destruct (Z.eqb_spec k 0) as [-> | _]; [contradiction |].
  split; [| reflexivity].
  rewrite (filter_exclui
           (fun r => (r_carro_id r =? carro) && reserva_ocupa r
                     && periodo_conflita false inicio fim r)
           (fun r => reserva_id r =? k)).
  reflexivity.
Qed.

Lemma X_check_exclui_reserva_witness :
  check_vehicle_availability amb_cenario bd_devolve_103 1 101 102 (Some 1) = true.
Proof.
  rewrite (proj1 (X_check_exclui_reserva amb_cenario bd_devolve_103 1 101 102 1
                    ltac:(discriminate))).
  vm_compute. reflexivity.
Defined.

(** ** Creation of a reservation *)

Lemma next_id_acima {A : Type} (key : A -> Z) (t : list A) (row : A) :
  In row t -> key row < next_id key t.
Proof.
  unfold next_id. induction t as [| x t IH]; simpl; [contradiction |].
  intros [-> | Hin]; [lia |]. specialize (IH Hin). lia.
Qed.

(** A creation that went through, in full: what was checked and what was
    written. *)
Lemma salvar_reserva_completo amb db f k db' :
  salvar_reserva amb db f = (Done (Some k), db') ->
  exists c cl,
    nr_inicio f <= nr_fim f
    /\ select_by_id cliente_id (nr_cliente f) (clientes_ativos db) = Some cl
    /\ select_by_id carro_id (nr_carro f)
         (get_available_vehicles amb db (nr_inicio f) (nr_fim f)
            (nr_permitir_dia_devolucao f)) = Some c
    /\ number_input 0 None (nr_desconto f) <> None
    /\ number_input_int 0 (nr_km_franquia f) <> None
    /\ number_input 0
         (if Qle_bool
               (total_diarias_reserva (diaria c)
                  (dias_periodo (nr_inicio f) (nr_fim f)) (nr_meia_diaria f)
                  (nr_desconto f)) 0
          then None
          else Some (total_diarias_reserva (diaria c)
                       (dias_periodo (nr_inicio f) (nr_fim f))
                       (nr_meia_diaria f) (nr_desconto f)))
         (nr_adiantamento f) <> None
    /\ k = next_id reserva_id (reservas db)
    /\ db' = com_reservas
               (reservas db ++ [armazenar (nova_reserva_row k f c)]) db.
Proof.
  unfold salvar_reserva.
  destruct (Z.leb_spec (nr_inicio f) (nr_fim f)) as [Hd | Hd]; [| discriminate].
  cbn [negb].
  destruct (get_available_vehicles _ _ _ _ _) as [| c0 t] eqn:Ed; [discriminate |].
  destruct (select_by_id cliente_id _ _) as [cl |] eqn:Ecl; [| discriminate].
  destruct (select_by_id carro_id (nr_carro f) (c0 :: t)) as [c |] eqn:Ec;
    [| discriminate].
  destruct (number_input 0 None _) eqn:E1; [| discriminate].
  destruct (number_input_int 0 _) eqn:E2; [| discriminate].
  destruct (number_input 0 _ (nr_adiantamento f)) eqn:E3; [| discriminate].
  unfold run_query, get_db_connection.
  destruct (conexao_ok amb); [| discriminate].
  unfold tx_bind, execute_insert_reserva.
  destruct (List.forallb cabe_decimal_10_2 _); [| discriminate]. cbn [negb].
  destruct (check_datas _); [| discriminate].
  unfold conn_commit. destruct (commit_ok amb); [| discriminate].
  intros H. inversion H. subst. exists c, cl.
  repeat split; try assumption; try congruence.
Qed.

(** X4. A reservation that was created is a new row with a key above all the
    others, in state Reservada and Ativa, for a customer who is Ativo and a
    vehicle of the fleet that is in use; its window is well formed and its
    odometer-out is 0.  The vehicles are not written: the status of the
    vehicle stays what it was. *)
Theorem X_criacao_efeitos amb db f k db' :
  salvar_reserva amb db f = (Done (Some k), db') ->
  carros db' = carros db /\ clientes db' = clientes db
  /\ multas db' = multas db
  /\ exists c cl r,
       reservas db' = reservas db ++ [r] /\ reserva_id r = k
       /\ (forall x, In x (reservas db) -> reserva_id x < k)
       /\ In c (carros db) /\ carro_id c = r_carro_id r
       /\ carro_fora_de_uso c = false
       /\ In cl (clientes db) /\ cliente_id cl = r_cliente_id r
       /\ cliente_status cl = "Ativo"
       /\ reserva_status r = "Reservada" /\ status r = "Ativa"
       /\ data_inicio r <= data_fim r /\ km_saida r = Some 0.
Proof.
  intros Hdone. apply salvar_reserva_completo in Hdone.
  destruct Hdone as (c & cl & Hd & Hcl & Hc & _ & _ & _ & Hk & ->).
  cbn. repeat split.
  exists c, cl. eexists. split; [reflexivity |]. cbn.
  apply select_by_id_some in Hc. destruct Hc as [Hin Hid].
  apply get_available_vehicles_In in Hin. destruct Hin as (Hin & Huso & _).
  apply select_by_id_some in Hcl. destruct Hcl as [Hcin Hcid].
  unfold clientes_ativos in Hcin. apply List.filter_In in Hcin.
  destruct Hcin as [Hcin Hst]. apply bool_decide_eq_true in Hst.
  repeat split; try assumption; try congruence.
  intros x Hx. subst k. apply next_id_acima. exact Hx.
Qed.

Lemma X_criacao_efeitos_witness :
  carros bd_reservado = carros bd_inicial.
Proof.
  apply (X_criacao_efeitos amb_cenario bd_inicial reserva_simples 1
           bd_reservado).
  vm_compute. reflexivity.
Defined.

Lemma number_input_limites lo hi x :
  number_input lo hi x <> None ->
  (lo <= x)%Q /\ match hi with Some h => (x <= h)%Q | None => True end.
Proof.
  unfold number_input. destruct (Qle_bool lo x) eqn:E1; [| congruence].
  apply Qle_bool_iff in E1. destruct hi as [h |].
  - destruct (Qle_bool x h) eqn:E2; [| congruence].
    apply Qle_bool_iff in E2. tauto.
  - tauto.
Qed.

(** X5. What a creation stores as money: the total equals the total of the
    days, the balance is the total less the advance when the advance typed
    has two decimals, the discount and the advance are not negative, and when
    the total is positive the advance is at most the total, so the balance is
    not negative.  (When the total is zero the advance has no upper
    bound.) *)
Theorem X_criacao_valores amb db f k db' :
  salvar_reserva amb db f = (Done (Some k), db') ->
  exists r,
    reservas db' = reservas db ++ [r]
    /\ valor_total r == total_diarias r
    /\ (decimal_10_2 (nr_adiantamento f) == nr_adiantamento f ->
        valor_restante r == valor_total r - adiantamento r)
    /\ (0 <= total_diarias r)%Q
    /\ (0 <= desconto_cliente r)%Q /\ (0 <= adiantamento r)%Q
    /\ (exists a, km_franquia r = Some a /\ 0 <= a)
    /\ ((0 < valor_total r)%Q ->
        (adiantamento r <= valor_total r)%Q /\ (0 <= valor_restante r)%Q).
Proof.
  intros Hdone. apply salvar_reserva_completo in Hdone.
  destruct Hdone as (c & cl & _ & _ & _ & Hdesc & Hfr & Had & _ & ->).
  eexists. split; [reflexivity |]. cbn.
  apply number_input_limites in Hdesc. destruct Hdesc as [Hdesc _].
  apply number_input_limites in Had. destruct Had as [Had0 Hadmax].
  set (total := total_diarias_reserva _ _ _ _) in *.
  assert (Htotal : (0 <= total)%Q) by apply Q.le_max_l.
  split; [reflexivity |]. split.
  { intros Hcent. rewrite Hcent. destruct (Qle_bool total 0) eqn:E.
    - apply Qle_bool_iff in E.
      assert (Hz : total == 0) by lra.
      rewrite (decimal_10_2_comp total 0 Hz).
      rewrite (decimal_10_2_comp (total - nr_adiantamento f)
                 (- nr_adiantamento f)) by lra.
      rewrite decimal_10_2_oposto, Hcent, decimal_10_2_zero. ring.
    - apply decimal_10_2_menos; assumption. }
  split; [apply decimal_10_2_nao_negativo, Htotal |].
  split; [apply decimal_10_2_nao_negativo, Hdesc |].
  split; [apply decimal_10_2_nao_negativo, Had0 |].
  split.
  - exists (nr_km_franquia f). split; [reflexivity |].
    unfold number_input_int in Hfr.
    destruct (Z.ltb_spec (nr_km_franquia f) 0); [congruence | lia].
  - intros Hpos. apply decimal_10_2_positivo in Hpos.
    destruct (Qle_bool total 0) eqn:E.
    + apply Qle_bool_iff in E. lra.
    + split; [apply decimal_10_2_mono, Hadmax |].
      apply decimal_10_2_nao_negativo. lra.
Qed.

Lemma X_criacao_valores_witness :
  exists r,
    reservas bd_reservado = reservas bd_inicial ++ [r]
    /\ valor_restante r == valor_total r - adiantamento r.
Proof.
  destruct (X_criacao_valores amb_cenario bd_inicial reserva_simples 1
              bd_reservado) as (r & Hr & _ & Hv & _).
  - vm_compute. reflexivity.
  - exists r. split; [exact Hr |]. apply Hv. vm_compute. reflexivity.
Defined.

(** ** No double booking *)

Lemma sobrepoe_estrito_sobrepoe a b :
  sobrepoe_estrito a b = true -> sobrepoe a b = true.
Proof.
  unfold sobrepoe_estrito, sobrepoe. rewrite !andb_true_iff.
  rewrite !Z.ltb_lt, !Z.leb_le. intuition lia.
Qed.

Lemma sem_sobreposicao_estrita_de db :
  sem_sobreposicao db -> sem_sobreposicao_estrita db.
Proof.
  intros H a b Ha Hb Hne. specialize (H a b Ha Hb Hne).
  destruct (sobrepoe_estrito a b) eqn:E; [| reflexivity].
  apply sobrepoe_estrito_sobrepoe in E. congruence.
Qed.

Lemma sobrepoe_sym a b : sobrepoe a b = sobrepoe b a.
Proof.
  unfold sobrepoe. rewrite (Z.eqb_sym (r_carro_id a)).
  destruct (r_carro_id b =? r_carro_id a), (reserva_ocupa a),
    (reserva_ocupa b), (data_inicio a <=? data_fim b),
    (data_inicio b <=? data_fim a); reflexivity.
Qed.

Lemma sobrepoe_estrito_sym a b : sobrepoe_estrito a b = sobrepoe_estrito b a.
Proof.
  unfold sobrepoe_estrito. rewrite (Z.eqb_sym (r_carro_id a)).
  destruct (r_carro_id b =? r_carro_id a), (reserva_ocupa a),
    (reserva_ocupa b), (data_inicio a <? data_fim b),
    (data_inicio b <? data_fim a); reflexivity.
Qed.

(** A vehicle that is not occupied in a window has no booked reservation
    that meets a reservation of that window. *)
Lemma carro_livre_sem_sobreposicao db permitir inicio fim c x r :
  carro_ocupado db permitir inicio fim c = false ->
  In x (reservas db) -> r_carro_id r = carro_id c ->
  data_inicio r = inicio -> data_fim r = fim ->
  (if permitir then sobrepoe_estrito x r else sobrepoe x r) = false.
Proof.
  intros Hoc Hx Hid Hi Hf. unfold carro_ocupado in Hoc.
  assert (Hp : (r_carro_id x =? carro_id c) && reserva_ocupa x
               && periodo_conflita permitir inicio fim x = false).
  { destruct ((r_carro_id x =? carro_id c) && reserva_ocupa x
              && periodo_conflita permitir inicio fim x) eqn:E;
      [| reflexivity].
    assert (Hex : List.existsb
              (fun y => (r_carro_id y =? carro_id c) && reserva_ocupa y
                        && periodo_conflita permitir inicio fim y)
              (reservas db) = true)
      by (apply List.existsb_exists; exists x; split; assumption).
    congruence. }
  unfold sobrepoe, sobrepoe_estrito, periodo_conflita in *.
  rewrite Hid, Hi, Hf.
  destruct permitir;
    destruct (r_carro_id x =? carro_id c), (reserva_ocupa x),
      (reserva_ocupa r); cbn in *; try reflexivity;
    rewrite ?Z.gtb_ltb, ?Z.geb_leb in Hp; rewrite Hp; reflexivity.
Qed.

(** X6. Creation keeps the bookings apart.  In a store where no two booked
    reservations of a vehicle share more than a boundary day, a creation
    leaves it so; and in a store where no two share a day at all, a creation
    without the same-day option leaves it so. *)
Theorem X_criacao_sem_sobreposicao amb db f k db' :
  salvar_reserva amb db f = (Done (Some k), db') ->
  (sem_sobreposicao_estrita db -> sem_sobreposicao_estrita db')
  /\ (nr_permitir_dia_devolucao f = false ->
      sem_sobreposicao db -> sem_sobreposicao db').
Proof.
  intros Hdone. pose proof (salvar_reserva_completo _ _ _ _ _ Hdone) as Hc.
  destruct Hc as (c & cl & _ & _ & Hc & _ & _ & _ & Hk & ->).
  apply select_by_id_some in Hc. destruct Hc as [Hin Hid].
  apply get_available_vehicles_In in Hin. destruct Hin as (_ & _ & Hoc & _).
  set (r := armazenar (nova_reserva_row k f c)).
  assert (Hfresh : forall x, In x (reservas db) -> reserva_id x <> reserva_id r).
  { intros x Hx. pose proof (next_id_acima reserva_id _ _ Hx). cbn. lia. }
  assert (Hestrito : forall x, In x (reservas db) -> sobrepoe_estrito x r = false).
  { intros x Hx. destruct (nr_permitir_dia_devolucao f) eqn:Ep.
    - apply (carro_livre_sem_sobreposicao db true _ _ c x r Hoc Hx);
        cbn; congruence.
    - pose proof (carro_livre_sem_sobreposicao db false _ _ c x r Hoc Hx)
        as H. cbn in H.
      destruct (sobrepoe_estrito x r) eqn:E; [| reflexivity].
      apply sobrepoe_estrito_sobrepoe in E. cbn in E.
      rewrite H in E; [discriminate | congruence | reflexivity | reflexivity]. }
  split.
  - intros Hinv a b Ha Hb Hne. cbn in Ha, Hb.
    apply List.in_app_or in Ha. apply List.in_app_or in Hb.
    destruct Ha as [Ha | [<- | []]], Hb as [Hb | [<- | []]].
    + apply Hinv; assumption.
    + apply Hestrito. exact Ha.
    + rewrite sobrepoe_estrito_sym. apply Hestrito. exact Hb.
    + contradiction.
  - intros Ep Hinv a b Ha Hb Hne. cbn in Ha, Hb. rewrite Ep in Hoc.
    assert (Hlivre : forall x, In x (reservas db) -> sobrepoe x r = false).
    { intros x Hx.
      apply (carro_livre_sem_sobreposicao db false _ _ c x r Hoc Hx);
        cbn; congruence. }
    apply List.in_app_or in Ha. apply List.in_app_or in Hb.
    destruct Ha as [Ha | [<- | []]], Hb as [Hb | [<- | []]].
    + apply Hinv; assumption.
    + apply Hlivre. exact Ha.
    + rewrite sobrepoe_sym. apply Hlivre. exact Hb.
    + contradiction.
Qed.

Lemma X_criacao_sem_sobreposicao_witness :
  length (reservas bd_duas_reservas) = 2%nat
  /\ sem_sobreposicao
       (snd (salvar_reserva amb_cenario bd_duas_reservas reserva_terceira)).
Proof.
  split; [reflexivity |].
  apply (proj2 (X_criacao_sem_sobreposicao amb_cenario bd_duas_reservas
                  reserva_terceira 3 _ ltac:(vm_compute; reflexivity))).
  - reflexivity.
  - intros a b Ha Hb Hne. vm_compute in Ha, Hb.
    destruct Ha as [<- | [<- | []]], Hb as [<- | [<- | []]];
      first [reflexivity | contradiction].
Defined.

(** ** Editing a reservation *)

(** The status the edit gives the chosen vehicle. *)
Lemma transacao_edicao_carros amb db r f c u c' :
  transacao_edicao amb db r f c = (Ok u, c') ->
  carros (confirmado c')
  = let destino :=
      if bool_decide (e_reserva_status f = "Reservada") then "Reservado"
      else if bool_decide (e_reserva_status f = "Locada") then "Locado"
           else "Disponível" in
    let t1 := fst (sql_update carro_id (e_carro f) (set_carro_status destino)
                     (carros (pendente c))) in
    if negb (e_carro f =? r_carro_id r)
    then fst (sql_update carro_id (r_carro_id r)
                (set_carro_status "Disponível") t1)
    else t1.
Proof.
  unfold transacao_edicao, tx_bind, execute_update_reservas_decimal.
  destruct (List.forallb _ (reservas (pendente c))); [| discriminate].
  unfold execute_update_reservas.
  destruct (sql_update reserva_id (e_reserva f)
              (fun x => armazenar (editar_row amb db r f x))
              (reservas (pendente c))) as [t n] eqn:Er.
  destruct (List.forallb _ (reservas (pendente c))); [| discriminate].
  destruct (Nat.eqb n 0); [discriminate |].
  unfold tx_getitem, tx_ret, execute_update_carros, conn_commit.
  rewrite status_carro_disponivel, status_reserva_reservada,
    status_carro_reservado, status_reserva_locada, status_carro_locado.
  cbn [pendente confirmado com_reservas carros].
  destruct (bool_decide (e_reserva_status f = "Reservada"));
    [| destruct (bool_decide (e_reserva_status f = "Locada"))];
    cbn zeta;
    destruct (sql_update carro_id (e_carro f) _ _) as [t1 n1] eqn:E1;
    cbn [fst];
    (destruct (negb (e_carro f =? r_carro_id r));
     [ cbn [pendente confirmado com_carros carros];
       destruct (sql_update carro_id (r_carro_id r) _ _) as [t2 n2] eqn:E2
     | ]);
    destruct (commit_ok amb); try discriminate;
    intros H; inversion H; reflexivity.
Qed.

(** An edit that went through, in full. *)
Lemma salvar_alteracoes_completo amb db f db' :
  salvar_alteracoes amb db f = (Done tt, db') ->
  exists r c,
    select_by_id reserva_id (e_reserva f) (reservas_edicao db) = Some r
    /\ select_by_id carro_id (e_carro f) (carros_disponiveis_edit amb db r f)
       = Some c
    /\ campos_edicao_validos amb f = true
    /\ check_vehicle_availability amb db (e_carro f) (e_inicio f) (e_fim f)
         (Some (e_reserva f)) = true
    /\ reservas db'
       = fst (sql_update reserva_id (e_reserva f)
                (fun x => armazenar (editar_row amb db r f x)) (reservas db))
    /\ carros db'
       = (let destino :=
            if bool_decide (e_reserva_status f = "Reservada") then "Reservado"
            else if bool_decide (e_reserva_status f = "Locada") then "Locado"
                 else "Disponível" in
          let t1 := fst (sql_update carro_id (e_carro f)
                           (set_carro_status destino) (carros db)) in
          if negb (e_carro f =? r_carro_id r)
          then fst (sql_update carro_id (r_carro_id r)
                      (set_carro_status "Disponível") t1)
          else t1).
Proof.
  unfold salvar_alteracoes.
  destruct (select_by_id reserva_id (e_reserva f) (reservas_edicao db))
    as [r |] eqn:Er; [| discriminate].
  destruct (clientes db) as [| cl0 cls] eqn:Ecl; [discriminate |].
  destruct (carros_df db r) as [| c0 cs] eqn:Edf; [discriminate |].
  destruct (campos_edicao_validos amb f) eqn:Ev; [| discriminate]. cbn [negb].
  destruct (select_by_id cliente_id (e_cliente f) (cl0 :: cls)) as [cl |];
    [| discriminate].
  destruct (select_by_id carro_id (e_carro f) (carros_disponiveis_edit amb db r f))
    as [c |] eqn:Ec; [| discriminate].
  destruct (e_fim f <? e_inicio f); [discriminate |].
  destruct (check_vehicle_availability _ _ _ _ _ _) eqn:Echk; [| discriminate].
  cbn [negb]. unfold em_transacao, get_db_connection.
  destruct (conexao_ok amb); [| discriminate].
  destruct (transacao_edicao amb db r f (mkConexao db db))
    as [[u | e] c'] eqn:E; [| discriminate].
  intros H. inversion H. subst.
  pose proof (transacao_edicao_ok _ _ _ _ _ _ _ E) as Hres.
  pose proof (transacao_edicao_carros _ _ _ _ _ _ _ E) as Hcar.
  exists r, c. unfold conn_close. repeat split; assumption.
Qed.

(** X7. An edit that does not go through, whether it is declined or fails in
    its transaction, leaves the store as it was. *)
Theorem X_edicao_atomica amb db f o db' :
  salvar_alteracoes amb db f = (o, db') -> is_done o = false -> db' = db.
Proof.
  unfold salvar_alteracoes.
  destruct (select_by_id reserva_id (e_reserva f) (reservas_edicao db))
    as [r |]; [| intros H; inversion H; reflexivity].
  destruct (clientes db) as [| cl0 cls]; [intros H; inversion H; reflexivity |].
  destruct (carros_df db r) as [| c0 cs];
    [intros H; inversion H; reflexivity |].
  destruct (negb (campos_edicao_validos amb f));
    [intros H; inversion H; reflexivity |].
  destruct (select_by_id cliente_id (e_cliente f) (cl0 :: cls)) as [cl |];
    [| intros H; inversion H; reflexivity].
  destruct (select_by_id carro_id (e_carro f) (carros_disponiveis_edit amb db r f))
    as [c |]; [| intros H; inversion H; reflexivity].
  destruct (e_fim f <? e_inicio f); [intros H; inversion H; reflexivity |].
  destruct (negb (check_vehicle_availability _ _ _ _ _ _));
    [intros H; inversion H; reflexivity |].
  destruct (em_transacao amb db (transacao_edicao amb db r f))
    as [[u | e] db1] eqn:E; intros H; inversion H; subst.
  - discriminate.
  - intros _. eapply em_transacao_raise; [| exact E].
    apply reversivel_transacao_edicao.
Qed.

Lemma X_edicao_atomica_witness :
  snd (salvar_alteracoes (mkAmbiente true true false (Ok "pdf") 100) bd_reservado
         edicao_desconto) = bd_reservado.
Proof.
  apply (X_edicao_atomica (mkAmbiente true true false (Ok "pdf") 100) bd_reservado
           edicao_desconto
           (fst (salvar_alteracoes (mkAmbiente true true false (Ok "pdf") 100)
                   bd_reservado edicao_desconto))).
  - apply surjective_pairing.
  - vm_compute. reflexivity.
Defined.

(** X8. An edit that went through gives the chosen vehicle the status that goes
    with the new state of the reservation (Reservado for Reservada, Locado
    for Locada, Disponível for the others), releases the vehicle the
    reservation had before when another one was chosen, and writes no other
    vehicle. *)
Theorem X_edicao_sincroniza_veiculo amb db f db' :
  bd_valido db = true ->
  salvar_alteracoes amb db f = (Done tt, db') ->
  exists r c,
    select_by_id reserva_id (e_reserva f) (reservas db) = Some r
    /\ select_by_id carro_id (e_carro f) (carros db) = Some c
    /\ select_by_id carro_id (e_carro f) (carros db')
       = Some (set_carro_status
                 (if bool_decide (e_reserva_status f = "Reservada")
                  then "Reservado"
                  else if bool_decide (e_reserva_status f = "Locada")
                       then "Locado" else "Disponível") c)
    /\ (e_carro f <> r_carro_id r ->
        select_by_id carro_id (r_carro_id r) (carros db')
        = option_map (set_carro_status "Disponível")
            (select_by_id carro_id (r_carro_id r) (carros db)))
    /\ (forall k, k <> e_carro f -> k <> r_carro_id r ->
                  select_by_id carro_id k (carros db')
                  = select_by_id carro_id k (carros db)).
Proof.
  intros Hbd Hdone.
  pose proof (salvar_alteracoes_done amb db f db' Hbd Hdone)
    as (r & c & Hr & _ & Hc & _).
  apply salvar_alteracoes_completo in Hdone.
  destruct Hdone as (r0 & c0 & Hr0 & _ & _ & _ & _ & Hcar).
  unfold bd_valido in Hbd. rewrite !andb_true_iff in Hbd.
  destruct Hbd as [[[[_ _] Hk] _] _].
  apply (select_by_id_filter reserva_id _ _ _ _ Hk) in Hr0.
  destruct Hr0 as [Hr0 _]. rewrite Hr in Hr0. inversion Hr0. subst r0.
  exists r, c. split; [exact Hr |]. split; [exact Hc |].
  rewrite Hcar. cbn zeta.
  assert (Hkey : forall s (row : Carro),
             carro_id (set_carro_status s row) = carro_id row)
    by reflexivity.
  destruct (Z.eqb_spec (e_carro f) (r_carro_id r)) as [Heq | Hne]; cbn [negb].
  - split; [| split].
    + rewrite select_by_id_update by apply Hkey. rewrite Hc. reflexivity.
    + intros Hdiff. contradiction.
    + intros k Hk1 _. apply select_by_id_update_other; [apply Hkey | exact Hk1].
  - split; [| split].
    + rewrite select_by_id_update_other by (auto; apply Hkey).
      rewrite select_by_id_update by apply Hkey. rewrite Hc. reflexivity.
    + intros _. rewrite select_by_id_update by apply Hkey.
      rewrite select_by_id_update_other by (auto; apply Hkey). reflexivity.
    + intros k Hk1 Hk2.
      rewrite select_by_id_update_other by (auto; apply Hkey).
      apply select_by_id_update_other; [apply Hkey | exact Hk1].
Qed.

Lemma X_edicao_sincroniza_veiculo_witness :
  option_map carro_status
    (select_by_id carro_id 1
       (carros (snd (salvar_alteracoes amb_cenario bd_reservado
                       edicao_desconto))))
  = Some "Reservado".
Proof.
  destruct (X_edicao_sincroniza_veiculo amb_cenario bd_reservado
              edicao_desconto
              (snd (salvar_alteracoes amb_cenario bd_reservado
                      edicao_desconto)))
    as (r & c & _ & _ & H & _).
  - vm_compute. reflexivity.
  - vm_compute. reflexivity.
  - change (e_carro edicao_desconto) with 1 in H. rewrite H. reflexivity.
Defined.

(** X9. An edit keeps the bookings apart when the query of its availability
    check is answered: in a store where no two booked reservations of a
    vehicle share a day, an edit that went through leaves it so, whatever
    vehicle, window and state it gave the reservation.  When the query is
    not answered the check lets the edit through: the second of two
    reservations of a vehicle, moved into the window of the first, is
    saved. *)
Theorem X_edicao_sem_sobreposicao :
  (forall amb db f db',
      consulta_ok amb = true ->
      e_reserva f <> 0 ->
      salvar_alteracoes amb db f = (Done tt, db') ->
      sem_sobreposicao db -> sem_sobreposicao db')
  /\ (sem_sobreposicao bd_duas_reservas
      /\ fst (salvar_alteracoes amb_sem_consulta bd_duas_reservas
                edicao_sobreposta) = Done tt
      /\ exists a b,
           let db' := snd (salvar_alteracoes amb_sem_consulta bd_duas_reservas
                             edicao_sobreposta) in
           In a (reservas db') /\ In b (reservas db')
           /\ reserva_id a <> reserva_id b /\ sobrepoe a b = true).
Proof.
  split.
  2:{ split; [| split; [vm_compute; reflexivity |]].
      - intros a b Ha Hb Hne. vm_compute in Ha, Hb.
        destruct Ha as [<- | [<- | []]], Hb as [<- | [<- | []]];
          first [reflexivity | contradiction].
      - eexists. eexists.
        split; [vm_compute; left; reflexivity |].
        split; [vm_compute; right; left; reflexivity |].
        split; [vm_compute; discriminate | vm_compute; reflexivity]. }
  intros amb db f db' Hq Hk0 Hdone Hinv.
  apply salvar_alteracoes_completo in Hdone.
  destruct Hdone as (r & c & _ & _ & _ & Hchk & Hres & _).
  assert (Hlivre : forall x, In x (reservas db) ->
                             reserva_id x <> e_reserva f ->
                             forall y,
                               sobrepoe x (armazenar (editar_row amb db r f y))
                               = false).
  { intros x Hx Hne y.
    unfold check_vehicle_availability, run_query_dataframe in Hchk.
    rewrite Hq, length_filter_zero, negb_true_iff in Hchk.
    destruct (Z.eqb_spec (e_reserva f) 0) as [H0 | _]; [contradiction |].
    assert (Hp : (r_carro_id x =? e_carro f) && reserva_ocupa x
                 && periodo_conflita false (e_inicio f) (e_fim f) x
                 && negb (reserva_id x =? e_reserva f) = false).
    { destruct ((r_carro_id x =? e_carro f) && reserva_ocupa x
                && periodo_conflita false (e_inicio f) (e_fim f) x
                && negb (reserva_id x =? e_reserva f)) eqn:E; [| reflexivity].
      assert (Hex : List.existsb
                (fun y => (r_carro_id y =? e_carro f) && reserva_ocupa y
                          && periodo_conflita false (e_inicio f) (e_fim f) y
                          && negb (reserva_id y =? e_reserva f))
                (reservas db) = true)
        by (apply List.existsb_exists; exists x; split; assumption).
      congruence. }
    destruct (Z.eqb_spec (reserva_id x) (e_reserva f)); [contradiction |].
    cbn [negb] in Hp. rewrite andb_true_r in Hp.
    unfold periodo_conflita in Hp. rewrite Z.geb_leb in Hp.
    unfold sobrepoe.
    cbn [armazenar editar_row r_carro_id data_inicio data_fim].
    destruct (r_carro_id x =? e_carro f), (reserva_ocupa x),
      (reserva_ocupa _), (data_inicio x <=? e_fim f),
      (e_inicio f <=? data_fim x); cbn in *; congruence. }
  intros a b Ha Hb Hne. rewrite Hres in Ha, Hb. cbn [fst sql_update] in Ha, Hb.
  apply List.in_map_iff in Ha. destruct Ha as (a0 & <- & Ha0).
  apply List.in_map_iff in Hb. destruct Hb as (b0 & <- & Hb0).
  destruct (Z.eqb_spec (reserva_id a0) (e_reserva f)) as [Ea | Ea];
    destruct (Z.eqb_spec (reserva_id b0) (e_reserva f)) as [Eb | Eb].
  - cbn in Hne. congruence.
  - rewrite sobrepoe_sym. apply Hlivre; assumption.
  - apply Hlivre; assumption.
  - apply Hinv; assumption.
Qed.

Lemma X_edicao_sem_sobreposicao_witness :
  length (reservas bd_duas_reservas) = 2%nat
  /\ sem_sobreposicao
       (snd (salvar_alteracoes amb_cenario bd_duas_reservas edicao_mudanca)).
Proof.
  split; [reflexivity |].
  apply (proj1 X_edicao_sem_sobreposicao amb_cenario bd_duas_reservas
           edicao_mudanca).
  - reflexivity.
  - vm_compute. discriminate.
  - vm_compute. reflexivity.
  - intros a b Ha Hb Hne. vm_compute in Ha, Hb.
    destruct Ha as [<- | [<- | []]], Hb as [<- | [<- | []]];
      first [reflexivity | contradiction].
Defined.

(** ** Delivery: what it checks and what it writes *)

Lemma select_by_id_ausente {A : Type} (key : A -> Z) (k : Z) (t : list A) :
  (forall row, In row t -> key row <> k) -> select_by_id key k t = None.
Proof.
  intros H. unfold select_by_id.
  induction t as [| x t IH]; simpl; [reflexivity |].
  destruct (Z.eqb_spec (key x) k) as [E | E].
  - exfalso. apply (H x); [left; reflexivity | exact E].
  - apply IH. intros row Hin. apply H. right. exact Hin.
Qed.

Lemma select_by_id_presente {A : Type} (key : A -> Z) (k : Z) (t : list A)
    (row : A) :
  In row t -> key row = k -> select_by_id key k t <> None.
Proof.
  intros Hin Hk Hnone. exact (select_by_id_none key k t Hnone row Hin Hk).
Qed.

Lemma existsb_sql_update {A : Type} (key : A -> Z) (k j : Z) (set : A -> A)
    (t : list A) :
  (forall row, key (set row) = key row) ->
  List.existsb (fun row => key row =? j) (fst (sql_update key k set t))
  = List.existsb (fun row => key row =? j) t.
Proof.
  intros Hset. unfold sql_update. cbn [fst].
  induction t as [| x t IH]; simpl; [reflexivity |].
  rewrite IH. destruct (key x =? k); [rewrite Hset |]; reflexivity.
Qed.

(** The rows a delivery writes pass the constraint on the dates. *)
Lemma transacao_entrega_check amb carro id km ds hor dc dr ad vr c pdf c' :
  transacao_entrega amb carro id km ds hor dc dr ad vr c = (Ok pdf, c') ->
  forall x, In x (reservas (pendente c)) -> reserva_id x = id ->
            ds <= data_fim x.
Proof.
  unfold transacao_entrega, tx_bind, tx_getitem.
  rewrite status_carro_locado, status_reserva_locada.
  unfold execute_update_carros.
  destruct (sql_update carro_id carro (entregar_carro "Locado" km)
              (carros (pendente c))) as [t n].
  destruct (Nat.eqb n 0); [discriminate |].
  unfold execute_update_reservas. cbn [pendente confirmado com_carros reservas].
  destruct (sql_update reserva_id id _ (reservas (pendente c))) as [t2 m].
  destruct (List.forallb _ (reservas (pendente c))) eqn:Ef; [| discriminate].
  intros _ x Hx Hid. rewrite List.forallb_forall in Ef.
  specialize (Ef x Hx). rewrite Hid, Z.eqb_refl in Ef.
  unfold check_datas in Ef. cbn in Ef. lia.
Qed.

(** A delivery that went through, in full. *)
Lemma confirmar_entrega_completo amb db f pdf db' :
  confirmar_entrega amb db f = (Done pdf, db') ->
  exists r c cl,
    select_by_id reserva_id (en_reserva f) (reservas_entrega db) = Some r
    /\ select_by_id carro_id (r_carro_id r) (carros db) = Some c
    /\ select_by_id cliente_id (r_cliente_id r) (clientes db) = Some cl
    /\ validar_cnh_simplificada amb cl = true
    /\ km_saida_entrega r c <= en_km_confirma f
    /\ en_data_saida f <= data_fim r
    /\ db'
       = com_reservas
           (fst (sql_update reserva_id (en_reserva f)
                   (entregar_row (en_km_confirma f) (en_data_saida f) "Locada"
                      (en_horario f) (adiantamento r + en_valor_pago_agora f)%Q
                      (diaria c
                       * inject_Z (Z.max 1 (data_fim r - en_data_saida f + 0)))%Q
                      (Qmax 0 (valor_previsto r c
                               - (adiantamento r + en_valor_pago_agora f))))
                   (reservas db)))
           (com_carros
              (fst (sql_update carro_id (r_carro_id r)
                      (entregar_carro "Locado" (en_km_confirma f)) (carros db)))
              db).
Proof.
  unfold confirmar_entrega.
  destruct (select_by_id reserva_id (en_reserva f) (reservas_entrega db))
    as [r |] eqn:Er; [| discriminate].
  destruct (select_by_id carro_id (r_carro_id r) (carros db)) as [c |] eqn:Ec;
    [| discriminate].
  destruct (select_by_id cliente_id (r_cliente_id r) (clientes db))
    as [cl |] eqn:Ecl; [| discriminate].
  destruct (validar_cnh_simplificada amb cl) eqn:Ecnh; [| discriminate].
  cbn [negb].
  destruct (number_input_int _ (en_km_confirma f)) as [km |] eqn:Ekm;
    [| discriminate].
  destruct (number_input 0 _ (en_valor_pago_agora f)) as [pago |] eqn:Ep;
    [| discriminate].
  apply number_input_int_some in Ekm. destruct Ekm as [-> Hkm].
  apply number_input_some in Ep. subst pago.
  unfold finalizar_entrega, em_transacao, get_db_connection.
  destruct (conexao_ok amb); [| discriminate].
  destruct (transacao_entrega _ _ _ _ _ _ _ _ _ _ (mkConexao db db))
    as [[p | e] c'] eqn:E; [| discriminate].
  intros H. inversion H. subst.
  pose proof (transacao_entrega_check _ _ _ _ _ _ _ _ _ _ _ _ _ E) as Hchk.
  apply transacao_entrega_ok in E. destruct E as (_ & _ & _ & Hconf).
  pose proof (select_by_id_some _ _ _ _ Er) as [Hin Hid].
  unfold reservas_entrega in Hin. apply List.filter_In in Hin.
  destruct Hin as [Hin _].
  exists r, c, cl. unfold conn_close. rewrite Hconf. cbn [pendente].
  repeat split; try assumption.
  apply (Hchk r Hin Hid).
Qed.

Lemma confirmar_entrega_reverte amb db f o db' :
  confirmar_entrega amb db f = (o, db') -> is_done o = false -> db' = db.
Proof.
  unfold confirmar_entrega.
  destruct (select_by_id reserva_id (en_reserva f) (reservas_entrega db))
    as [r |]; [| intros H; inversion H; reflexivity].
  destruct (select_by_id carro_id (r_carro_id r) (carros db)) as [c |];
    [| intros H; inversion H; reflexivity].
  destruct (select_by_id cliente_id (r_cliente_id r) (clientes db)) as [cl |];
    [| intros H; inversion H; reflexivity].
  destruct (negb (validar_cnh_simplificada amb cl));
    [intros H; inversion H; reflexivity |].
  destruct (number_input_int _ (en_km_confirma f)) as [km |];
    [| intros H; inversion H; reflexivity].
  destruct (number_input 0 _ (en_valor_pago_agora f)) as [pago |];
    [| intros H; inversion H; reflexivity].
  unfold finalizar_entrega.
  destruct (em_transacao amb db _) as [[p | e] db1] eqn:E;
    intros H; inversion H; subst.
  - discriminate.
  - intros _. eapply em_transacao_raise; [| exact E].
    apply reversivel_transacao_entrega.
Qed.

(** X10. A delivery that does not go through, whatever the reason (the form
    declined, the store unreachable, a statement refused, the contract not
    generated, the commit failing), leaves the store as it was. *)
Theorem X_entrega_atomica amb db f o db' :
  confirmar_entrega amb db f = (o, db') -> is_done o = false -> db' = db.
Proof. exact (confirmar_entrega_reverte amb db f o db'). Qed.

Lemma X_entrega_atomica_witness :
  snd (confirmar_entrega (mkAmbiente true true true (Raise (Exception "fpdf")) 100)
         bd_reservado entrega_cenario) = bd_reservado.
Proof.
  apply (X_entrega_atomica
           (mkAmbiente true true true (Raise (Exception "fpdf")) 100)
           bd_reservado entrega_cenario
           (fst (confirmar_entrega
                   (mkAmbiente true true true (Raise (Exception "fpdf")) 100)
                   bd_reservado entrega_cenario))).
  - apply surjective_pairing.
  - vm_compute. reflexivity.
Defined.

(** X11. A delivery is declined, with nothing written, when the licence of the
    customer has no expiry date on record or expired before today; a licence
    that expires today is accepted. *)
Theorem X_entrega_cnh amb db f r c cl :
  select_by_id reserva_id (en_reserva f) (reservas_entrega db) = Some r ->
  select_by_id carro_id (r_carro_id r) (carros db) = Some c ->
  select_by_id cliente_id (r_cliente_id r) (clientes db) = Some cl ->
  ((validade_cnh cl = None
    \/ exists v, validade_cnh cl = Some v /\ v < hoje amb) ->
   exists msg, confirmar_entrega amb db f = (Refused msg, db))
  /\ (validade_cnh cl = Some (hoje amb) ->
      validar_cnh_simplificada amb cl = true).
Proof.
  intros Hr Hc Hcl. split.
  - intros Hv. unfold confirmar_entrega. rewrite Hr, Hc, Hcl.
    assert (Hcnh : validar_cnh_simplificada amb cl = false).
    { unfold validar_cnh_simplificada.
      destruct Hv as [-> | (v & -> & Hlt)]; [reflexivity |].
      destruct (Z.ltb_spec v (hoje amb)); [reflexivity | lia]. }
    rewrite Hcnh. cbn. eexists. reflexivity.
  - intros Hv. unfold validar_cnh_simplificada. rewrite Hv.
    rewrite Z.ltb_irrefl. reflexivity.
Qed.

Lemma X_entrega_cnh_witness :
  exists msg,
    confirmar_entrega (mkAmbiente true true true (Ok "pdf") 401) bd_reservado
      entrega_cenario = (Refused msg, bd_reservado).
Proof.
  edestruct (X_entrega_cnh (mkAmbiente true true true (Ok "pdf") 401) bd_reservado
               entrega_cenario) as [H _].
  - vm_compute. reflexivity.
  - vm_compute. reflexivity.
  - vm_compute. reflexivity.
  - apply H. right. exists 400. split; [reflexivity | vm_compute; reflexivity].
Defined.

(** X12. A delivery whose departure date is after the scheduled end of the
    reservation fails on the constraint of the dates, and nothing of it
    stays: the vehicle is not marked as rented. *)
Theorem X_entrega_apos_o_fim amb db f r :
  select_by_id reserva_id (en_reserva f) (reservas_entrega db) = Some r ->
  data_fim r < en_data_saida f ->
  is_done (fst (confirmar_entrega amb db f)) = false
  /\ snd (confirmar_entrega amb db f) = db.
Proof.
  intros Hr Hlate.
  assert (Hnot : is_done (fst (confirmar_entrega amb db f)) = false).
  { destruct (confirmar_entrega amb db f) as [o db1] eqn:E.
    destruct o as [pdf | msg | e]; try reflexivity.
    apply confirmar_entrega_completo in E.
    destruct E as (r0 & c & cl & Hr0 & _ & _ & _ & _ & Hle & _).
    rewrite Hr in Hr0. inversion Hr0. subst r0. lia. }
  split; [exact Hnot |].
  apply (confirmar_entrega_reverte amb db f
           (fst (confirmar_entrega amb db f)));
    [apply surjective_pairing | exact Hnot].
Qed.

Lemma X_entrega_apos_o_fim_witness :
  is_done (fst (confirmar_entrega amb_cenario bd_reservado
                  (mkEntrega 1 1000 104 (Some 9) 150))) = false
  /\ snd (confirmar_entrega amb_cenario bd_reservado
            (mkEntrega 1 1000 104 (Some 9) 150)) = bd_reservado.
Proof.
  apply (X_entrega_apos_o_fim amb_cenario bd_reservado
           (mkEntrega 1 1000 104 (Some 9) 150)
           (nova_reserva_row 1 reserva_simples carro_cenario)).
  - vm_compute. reflexivity.
  - vm_compute. reflexivity.
Defined.

(** X13. What a delivery that went through has written: the vehicle is rented and
    its odometer is the reading taken, which for a reservation that has no
    reading of its own yet is not below the odometer the vehicle had; the
    reservation is rented from the day of departure with that reading; it is
    no longer offered for delivery and is offered for return; the other
    vehicles and reservations, the customers and the fines are untouched. *)
Theorem X_entrega_efeitos amb db f pdf db' :
  bd_valido db = true ->
  confirmar_entrega amb db f = (Done pdf, db') ->
  exists r c r',
    select_by_id reserva_id (en_reserva f) (reservas db) = Some r
    /\ select_by_id carro_id (r_carro_id r) (carros db) = Some c
    /\ select_by_id carro_id (r_carro_id r) (carros db')
       = Some (mkCarro (carro_id c) (placa c) (diaria c) (preco_km c)
                 (en_km_confirma f) "Locado")
    /\ ((km_saida r = None \/ km_saida r = Some 0) ->
        km_atual c <= en_km_confirma f)
    /\ select_by_id reserva_id (en_reserva f) (reservas db') = Some r'
    /\ reserva_status r' = "Locada" /\ status r' = "Ativa"
    /\ data_inicio r' = en_data_saida f /\ data_fim r' = data_fim r
    /\ data_inicio r' <= data_fim r'
    /\ km_saida r' = Some (en_km_confirma f)
    /\ r_carro_id r' = r_carro_id r /\ r_cliente_id r' = r_cliente_id r
    /\ select_by_id reserva_id (en_reserva f) (reservas_entrega db') = None
    /\ select_by_id reserva_id (en_reserva f) (locacoes_pendentes db') <> None
    /\ (forall k, k <> en_reserva f ->
          select_by_id reserva_id k (reservas db')
          = select_by_id reserva_id k (reservas db))
    /\ (forall k, k <> r_carro_id r ->
          select_by_id carro_id k (carros db')
          = select_by_id carro_id k (carros db))
    /\ clientes db' = clientes db /\ multas db' = multas db.
Proof.
  intros Hv H. apply confirmar_entrega_completo in H.
  destruct H as (r & c & cl & Hr & Hc & Hcl & Hcnh & Hkm & Hle & ->).
  unfold bd_valido in Hv.
  apply andb_prop in Hv. destruct Hv as [Hv _].
  apply andb_prop in Hv. destruct Hv as [Hv _].
  apply andb_prop in Hv. destruct Hv as [_ Hur].
  unfold reservas_entrega in Hr.
  apply (select_by_id_filter reserva_id _ _ _ _ Hur) in Hr.
  destruct Hr as [Hr Hp].
  apply andb_prop in Hp. destruct Hp as [Hp _].
  apply andb_prop in Hp. destruct Hp as [Hp Hcli].
  apply andb_prop in Hp. destruct Hp as [Hp _].
  apply bool_decide_eq_true in Hp.
  set (set_r := entregar_row _ _ _ _ _ _ _).
  set (set_c := entregar_carro _ _).
  assert (Hkr : forall x, reserva_id (set_r x) = reserva_id x) by reflexivity.
  assert (Hkc : forall x, carro_id (set_c x) = carro_id x) by reflexivity.
  exists r, c, (set_r r).
  cbn [reservas carros clientes multas com_reservas com_carros].
  split; [exact Hr |]. split; [exact Hc |].
  split; [rewrite (select_by_id_update carro_id _ _ _ Hkc), Hc; reflexivity |].
  split.
  { intros Hk. unfold km_saida_entrega in Hkm.
    destruct Hk as [Hk | Hk]; rewrite Hk in Hkm; cbn in Hkm; exact Hkm. }
  split; [rewrite (select_by_id_update reserva_id _ _ _ Hkr), Hr; reflexivity |].
  split; [reflexivity |]. split; [exact Hp |].
  split; [reflexivity |]. split; [reflexivity |]. split; [exact Hle |].
  split; [reflexivity |]. split; [reflexivity |]. split; [reflexivity |].
  pose proof (select_by_id_some _ _ _ _ Hr) as [Hin Hid].
  split.
  { apply select_by_id_ausente. intros x Hx Hxk.
    unfold reservas_entrega in Hx. apply List.filter_In in Hx.
    cbn [reservas carros clientes com_reservas com_carros] in Hx.
    destruct Hx as [Hx Hpx]. unfold sql_update in Hx. cbn [fst] in Hx.
    apply List.in_map_iff in Hx. destruct Hx as (x0 & Hx0 & _).
    destruct (Z.eqb_spec (reserva_id x0) (en_reserva f)) as [E | E].
    - subst x. cbn in Hpx. rewrite andb_false_r in Hpx. discriminate.
    - subst x. contradiction. }
  split.
  { apply (select_by_id_presente reserva_id _ _ (set_r r)); [| exact Hid].
    unfold locacoes_pendentes. apply List.filter_In.
    cbn [reservas carros clientes com_reservas com_carros]. split.
    - unfold sql_update. cbn [fst]. apply List.in_map_iff. exists r.
      split; [| exact Hin]. rewrite Hid, Z.eqb_refl. reflexivity.
    - unfold tem_carro, tem_cliente.
      cbn [reservas carros clientes com_reservas com_carros].
      rewrite (existsb_sql_update carro_id _ _ _ _ Hkc).
      assert (Hcar : List.existsb (fun x => carro_id x =? r_carro_id r)
                       (carros db) = true).
      { pose proof (select_by_id_some _ _ _ _ Hc) as [Hcin Hcid].
        apply List.existsb_exists. exists c. split; [exact Hcin | lia]. }
      subst set_r. cbn. rewrite Hp, Hcar.
      unfold tem_cliente in Hcli. rewrite Hcli.
      rewrite bool_decide_eq_true_2 by reflexivity. reflexivity. }
  split.
  { intros k Hk. apply (select_by_id_update_other reserva_id); assumption. }
  split.
  { intros k Hk. apply (select_by_id_update_other carro_id); assumption. }
  split; reflexivity.
Qed.

Lemma X_entrega_efeitos_witness :
  exists r',
    select_by_id reserva_id 1 (reservas bd_locado) = Some r'
    /\ reserva_status r' = "Locada".
Proof.
  edestruct (X_entrega_efeitos amb_cenario bd_reservado entrega_cenario "pdf"
               bd_locado)
    as (r & c & r' & _ & _ & _ & _ & Hr' & Hs & _).
  - vm_compute. reflexivity.
  - vm_compute. reflexivity.
  - exists r'. split; [exact Hr' | exact Hs].
Defined.

(** X14. On a delivery that went through, the term printed on the contract is the
    number of days the reservation is billed for, and the stored total is
    the daily rate times that term. *)
Theorem X_entrega_contrato amb db f pdf db' :
  bd_valido db = true ->
  confirmar_entrega amb db f = (Done pdf, db') ->
  exists r c r',
    select_by_id reserva_id (en_reserva f) (reservas db) = Some r
    /\ select_by_id carro_id (r_carro_id r) (carros db) = Some c
    /\ select_by_id reserva_id (en_reserva f) (reservas db') = Some r'
    /\ 1 <= prazo_dias (en_data_saida f) (data_fim r)
    /\ (valor_total r'
        == diaria c * inject_Z (prazo_dias (en_data_saida f) (data_fim r)))%Q.
Proof.
  intros Hv H. apply confirmar_entrega_completo in H.
  destruct H as (r & c & cl & Hr & Hc & Hcl & Hcnh & Hkm & Hle & ->).
  unfold bd_valido in Hv.
  apply andb_prop in Hv. destruct Hv as [Hv _].
  apply andb_prop in Hv. destruct Hv as [Hv _].
  apply andb_prop in Hv. destruct Hv as [_ Hur].
  unfold reservas_entrega in Hr.
  apply (select_by_id_filter reserva_id _ _ _ _ Hur) in Hr.
  destruct Hr as [Hr _].
  set (set_r := entregar_row _ _ _ _ _ _ _).
  assert (Hkr : forall x, reserva_id (set_r x) = reserva_id x) by reflexivity.
  assert (Hp : Z.max 1 (data_fim r - en_data_saida f + 0)
               = prazo_dias (en_data_saida f) (data_fim r)).
  { unfold prazo_dias.
    destruct (Z.eqb_spec (data_fim r - en_data_saida f) 0); lia. }
  exists r, c, (set_r r).
  cbn [reservas com_reservas com_carros].
  split; [exact Hr |]. split; [exact Hc |].
  split; [rewrite (select_by_id_update reserva_id _ _ _ Hkr), Hr; reflexivity |].
  split; [rewrite <- Hp; lia |].
  subst set_r. cbn [valor_total entregar_row]. rewrite Hp. reflexivity.
Qed.

Lemma X_entrega_contrato_witness :
  exists r',
    select_by_id reserva_id 1 (reservas bd_locado) = Some r'
    /\ (valor_total r' == 300)%Q.
Proof.
  edestruct (X_entrega_contrato amb_cenario bd_reservado entrega_cenario "pdf"
               bd_locado)
    as (r & c & r' & Hr & Hc & Hr' & _ & Ht).
  - vm_compute. reflexivity.
  - vm_compute. reflexivity.
  - exists r'. split; [exact Hr' |].
    vm_compute in Hr. inversion Hr. subst r.
    vm_compute in Hc. inversion Hc. subst c.
    rewrite Ht. vm_compute. reflexivity.
Defined.

(** ** Return: what it writes and what it frees *)

(** X15. A return that does not go through, whatever the reason, leaves the
    store as it was: the rental stays open and the vehicle stays rented. *)
Theorem X_devolucao_atomica amb db f o db' :
  finalizar_devolucao amb db f = (o, db') -> is_done o = false -> db' = db.
Proof.
  unfold finalizar_devolucao.
  destruct (select_by_id reserva_id (dv_reserva f) (locacoes_pendentes db))
    as [r |]; [| intros H; inversion H; reflexivity].
  destruct (select_by_id carro_id (r_carro_id r) (carros db)) as [c |];
    [| intros H; inversion H; reflexivity].
  destruct (negb (campos_devolucao_validos amb r (preco_km c) f));
    [intros H; inversion H; reflexivity |].
  destruct (em_transacao amb db _) as [[p | e] db1] eqn:E;
    intros H; inversion H; subst.
  - discriminate.
  - intros _. eapply em_transacao_raise; [| exact E].
    apply reversivel_transacao_devolucao.
Qed.

Lemma X_devolucao_atomica_witness :
  snd (finalizar_devolucao (mkAmbiente true true false (Ok "pdf") 103) bd_locado
         devolucao_cenario) = bd_locado.
Proof.
  apply (X_devolucao_atomica (mkAmbiente true true false (Ok "pdf") 103) bd_locado
           devolucao_cenario
           (fst (finalizar_devolucao (mkAmbiente true true false (Ok "pdf") 103)
                   bd_locado devolucao_cenario))).
  - apply surjective_pairing.
  - vm_compute. reflexivity.
Defined.

(** A return that went through, in full. *)
Lemma finalizar_devolucao_completo amb db f rec db' :
  finalizar_devolucao amb db f = (Done rec, db') ->
  exists r c,
    select_by_id reserva_id (dv_reserva f) (locacoes_pendentes db) = Some r
    /\ select_by_id carro_id (r_carro_id r) (carros db) = Some c
    /\ campos_devolucao_validos amb r (preco_km c) f = true
    /\ db'
       = com_carros
           (fst (sql_update carro_id (r_carro_id r)
                   (devolver_carro "Disponível" (dv_km_volta f)) (carros db)))
           (com_reservas
              (fst (sql_update reserva_id (dv_reserva f)
                      (devolver_row (dv_km_volta f)
                         (contas_devolucao amb r (preco_km c) f)
                         (dv_valor_multas f) (dv_valor_danos f)
                         (dv_valor_outros f)
                         (valor_restante_final
                            (contas_devolucao amb r (preco_km c) f)))
                      (reservas db)))
              db).
Proof.
  unfold finalizar_devolucao.
  destruct (select_by_id reserva_id (dv_reserva f) (locacoes_pendentes db))
    as [r |] eqn:Er; [| discriminate].
  destruct (select_by_id carro_id (r_carro_id r) (carros db)) as [c |] eqn:Ec;
    [| discriminate].
  destruct (campos_devolucao_validos amb r (preco_km c) f) eqn:Ev;
    [| discriminate].
  cbn [negb]. unfold em_transacao, get_db_connection.
  destruct (conexao_ok amb); [| discriminate].
  destruct (transacao_devolucao amb r f _ (mkConexao db db))
    as [[pdf | e] c'] eqn:E; [| discriminate].
  intros H. inversion H. subst. apply transacao_devolucao_ok in E.
  destruct E as [_ Hconf]. unfold conn_close. rewrite Hconf.
  exists r, c. repeat split; first [assumption | reflexivity].
Qed.

(** X16. What a return that went through has written: the vehicle is available
    again with the odometer read on return; the rental is closed in both of
    its status columns, ends on the day of the return (the day of departure
    when that is still ahead), keeps its day of departure and its
    odometer-out, and holds the odometer-in; it is no longer offered for
    return, for editing or for delivery; the other vehicles and
    reservations, the customers and the fines are untouched. *)
Theorem X_devolucao_efeitos amb db f rec db' :
  bd_valido db = true ->
  finalizar_devolucao amb db f = (Done rec, db') ->
  exists r c r',
    select_by_id reserva_id (dv_reserva f) (reservas db) = Some r
    /\ select_by_id carro_id (r_carro_id r) (carros db) = Some c
    /\ select_by_id carro_id (r_carro_id r) (carros db')
       = Some (mkCarro (carro_id c) (placa c) (diaria c) (preco_km c)
                 (dv_km_volta f) "Disponível")
    /\ select_by_id reserva_id (dv_reserva f) (reservas db') = Some r'
    /\ reserva_status r' = "Finalizada" /\ status r' = "Finalizada"
    /\ data_inicio r' = data_inicio r
    /\ data_fim r' = Z.max (hoje amb) (data_inicio r)
    /\ km_saida r' = km_saida r /\ km_volta r' = Some (dv_km_volta f)
    /\ r_carro_id r' = r_carro_id r /\ r_cliente_id r' = r_cliente_id r
    /\ select_by_id reserva_id (dv_reserva f) (locacoes_pendentes db') = None
    /\ select_by_id reserva_id (dv_reserva f) (reservas_edicao db') = None
    /\ select_by_id reserva_id (dv_reserva f) (reservas_entrega db') = None
    /\ (forall k, k <> dv_reserva f ->
          select_by_id reserva_id k (reservas db')
          = select_by_id reserva_id k (reservas db))
    /\ (forall k, k <> r_carro_id r ->
          select_by_id carro_id k (carros db')
          = select_by_id carro_id k (carros db))
    /\ clientes db' = clientes db /\ multas db' = multas db.
Proof.
  intros Hv H. apply finalizar_devolucao_completo in H.
  destruct H as (r & c & Hr & Hc & Hcampos & ->).
  unfold bd_valido in Hv.
  apply andb_prop in Hv. destruct Hv as [Hv _].
  apply andb_prop in Hv. destruct Hv as [Hv _].
  apply andb_prop in Hv. destruct Hv as [_ Hur].
  unfold locacoes_pendentes in Hr.
  apply (select_by_id_filter reserva_id _ _ _ _ Hur) in Hr.
  destruct Hr as [Hr _].
  set (set_r := devolver_row _ _ _ _ _ _).
  set (set_c := devolver_carro _ _).
  assert (Hkr : forall x, reserva_id (set_r x) = reserva_id x) by reflexivity.
  assert (Hkc : forall x, carro_id (set_c x) = carro_id x) by reflexivity.
  assert (Hfora : forall (p : Reserva -> bool),
             (forall x, status x = "Finalizada" -> p x = false) ->
             select_by_id reserva_id (dv_reserva f)
               (List.filter p
                  (fst (sql_update reserva_id (dv_reserva f) set_r
                          (reservas db)))) = None).
  { intros p Hp. apply select_by_id_ausente. intros x Hx Hxk.
    apply List.filter_In in Hx. destruct Hx as [Hx Hpx].
    unfold sql_update in Hx. cbn [fst] in Hx.
    apply List.in_map_iff in Hx. destruct Hx as (x0 & Hx0 & _).
    destruct (Z.eqb_spec (reserva_id x0) (dv_reserva f)) as [E | E].
    - subst x. rewrite Hp in Hpx by reflexivity. discriminate.
    - subst x. contradiction. }
  exists r, c, (set_r r).
  cbn [reservas carros clientes multas com_reservas com_carros].
  split; [exact Hr |]. split; [exact Hc |].
  split; [rewrite (select_by_id_update carro_id _ _ _ Hkc), Hc; reflexivity |].
  split; [rewrite (select_by_id_update reserva_id _ _ _ Hkr), Hr; reflexivity |].
  split; [reflexivity |]. split; [reflexivity |]. split; [reflexivity |].
  split.
  { subst set_r. cbn [data_fim devolver_row contas_devolucao ct_data_devolucao].
    destruct (Z.ltb_spec (hoje amb) (data_inicio r)); lia. }
  split; [reflexivity |]. split; [reflexivity |].
  split; [reflexivity |]. split; [reflexivity |].
  split.
  { unfold locacoes_pendentes.
    cbn [reservas carros clientes com_reservas com_carros].
    apply Hfora. intros x Hx. rewrite Hx. reflexivity. }
  split.
  { unfold reservas_edicao.
    cbn [reservas carros clientes com_reservas com_carros].
    apply Hfora. intros x Hx. rewrite Hx. reflexivity. }
  split.
  { unfold reservas_entrega.
    cbn [reservas carros clientes com_reservas com_carros].
    apply Hfora. intros x Hx. rewrite Hx. reflexivity. }
  split.
  { intros k Hk. apply (select_by_id_update_other reserva_id); assumption. }
  split.
  { intros k Hk. apply (select_by_id_update_other carro_id); assumption. }
  split; reflexivity.
Qed.

Lemma X_devolucao_efeitos_witness :
  exists r',
    select_by_id reserva_id 1 (reservas bd_finalizado) = Some r'
    /\ reserva_status r' = "Finalizada".
Proof.
  edestruct (X_devolucao_efeitos amb_cenario bd_locado devolucao_cenario)
    as (r & c & r' & _ & _ & _ & Hr' & Hs & _).
  - vm_compute. reflexivity.
  - vm_compute. reflexivity.
  - exists r'. split; [exact Hr' | exact Hs].
Defined.

Lemma length_filter_map {A : Type} (p p' : A -> bool) (g : A -> A)
    (t : list A) :
  (forall x, p' (g x) = p x) ->
  length (List.filter p' (List.map g t)) = length (List.filter p t).
Proof.
  intros H. induction t as [| x t IH]; simpl; [reflexivity |].
  rewrite H. destruct (p x); simpl; rewrite IH; reflexivity.
Qed.

(** X17. Once a rental is returned, its vehicle is free in a window exactly when
    it was free there with that rental left out of the check: the returned
    rental blocks no date any more, whatever dates it holds. *)
Theorem X_devolucao_libera_janela amb amb' db f rec db' carro inicio fim :
  dv_reserva f <> 0 ->
  finalizar_devolucao amb db f = (Done rec, db') ->
  check_vehicle_availability amb' db' carro inicio fim None
  = check_vehicle_availability amb' db carro inicio fim (Some (dv_reserva f)).
Proof.
  intros Hk0 H. apply finalizar_devolucao_completo in H.
  destruct H as (r & c & _ & _ & _ & ->).
  unfold check_vehicle_availability, run_query_dataframe.
  destruct (consulta_ok amb'); [| reflexivity].
  cbn [reservas com_reservas com_carros]. unfold sql_update. cbn [fst].
  f_equal. apply length_filter_map. intros x.
  destruct (Z.eqb_spec (dv_reserva f) 0) as [E0 | _]; [contradiction |].
  destruct (Z.eqb_spec (reserva_id x) (dv_reserva f)) as [E | E].
  - cbn. rewrite !andb_false_r. reflexivity.
  - reflexivity.
Qed.

Lemma X_devolucao_libera_janela_witness :
  check_vehicle_availability amb_cenario bd_finalizado 1 100 103 None = true.
Proof.
  eapply eq_trans.
  - eapply (X_devolucao_libera_janela amb_cenario amb_cenario bd_locado
              devolucao_cenario).
    + vm_compute. discriminate.
    + vm_compute. reflexivity.
  - vm_compute. reflexivity.
Defined.

(** The two ways the windows of booked reservations are kept apart survive
    an update of one row that leaves no new meeting with another row. *)
Lemma sem_sobreposicao_update (ov : Reserva -> Reserva -> bool) (k : Z)
    (set : Reserva -> Reserva) (t : list Reserva) :
  (forall a b, ov a b = ov b a) ->
  (forall x, reserva_id (set x) = reserva_id x) ->
  (forall x y, In x t -> In y t -> reserva_id x = k -> reserva_id y <> k ->
               ov x y = false -> ov (set x) y = false) ->
  (forall a b, In a t -> In b t -> reserva_id a <> reserva_id b ->
               ov a b = false) ->
  forall a b, In a (fst (sql_update reserva_id k set t)) ->
              In b (fst (sql_update reserva_id k set t)) ->
              reserva_id a <> reserva_id b -> ov a b = false.
Proof.
  intros Hsym Hkey Hset Hinv a b Ha Hb Hne.
  unfold sql_update in Ha, Hb. cbn [fst] in Ha, Hb.
  apply List.in_map_iff in Ha. destruct Ha as (a0 & <- & Ha0).
  apply List.in_map_iff in Hb. destruct Hb as (b0 & <- & Hb0).
  destruct (Z.eqb_spec (reserva_id a0) k) as [Ea | Ea];
    destruct (Z.eqb_spec (reserva_id b0) k) as [Eb | Eb].
  - rewrite !Hkey in Hne. congruence.
  - rewrite Hkey in Hne. apply Hset; try assumption.
    apply Hinv; assumption.
  - rewrite Hkey in Hne. rewrite Hsym. apply Hset; try assumption.
    apply Hinv; try assumption. congruence.
  - apply Hinv; assumption.
Qed.

(** X18. A return keeps the windows of the booked reservations apart, in the
    sense that counts a shared boundary day and in the one that does not:
    the rental it closes no longer counts as booked. *)
Theorem X_devolucao_sem_sobreposicao amb db f rec db' :
  finalizar_devolucao amb db f = (Done rec, db') ->
  (sem_sobreposicao db -> sem_sobreposicao db')
  /\ (sem_sobreposicao_estrita db -> sem_sobreposicao_estrita db').
Proof.
  intros H. apply finalizar_devolucao_completo in H.
  destruct H as (r & c & _ & _ & _ & ->).
  split; intros Hinv; unfold sem_sobreposicao, sem_sobreposicao_estrita;
    cbn [reservas com_reservas com_carros].
  - apply sem_sobreposicao_update;
      [exact sobrepoe_sym | reflexivity | | exact Hinv].
    intros x y _ _ _ _ _. unfold sobrepoe. cbn.
    rewrite andb_false_r. reflexivity.
  - apply sem_sobreposicao_update;
      [exact sobrepoe_estrito_sym | reflexivity | | exact Hinv].
    intros x y _ _ _ _ _. unfold sobrepoe_estrito. cbn.
    rewrite andb_false_r. reflexivity.
Qed.

Lemma X_devolucao_sem_sobreposicao_witness :
  length (reservas bd_duas_locado) = 2%nat
  /\ sem_sobreposicao
       (snd (finalizar_devolucao amb_cenario bd_duas_locado
               devolucao_cenario)).
Proof.
  split; [reflexivity |].
  edestruct (X_devolucao_sem_sobreposicao amb_cenario bd_duas_locado
               devolucao_cenario) as [H _].
  - vm_compute. reflexivity.
  - apply H. intros a b Ha Hb Hne. vm_compute in Ha, Hb.
    destruct Ha as [<- | [<- | []]], Hb as [<- | [<- | []]];
      first [reflexivity | contradiction].
Defined.

(** X19. A delivery on or after the first day of the reservation keeps the
    windows of the booked reservations apart: the window it writes lies
    within the one that was booked.  (The handler itself does not ask for
    availability again.) *)
Theorem X_entrega_sem_sobreposicao amb db f pdf db' r :
  bd_valido db = true ->
  select_by_id reserva_id (en_reserva f) (reservas db) = Some r ->
  data_inicio r <= en_data_saida f ->
  confirmar_entrega amb db f = (Done pdf, db') ->
  (sem_sobreposicao db -> sem_sobreposicao db')
  /\ (sem_sobreposicao_estrita db -> sem_sobreposicao_estrita db').
Proof.
  intros Hv Hr Hini H. apply confirmar_entrega_completo in H.
  destruct H as (r0 & c & cl & Hr0 & _ & _ & _ & _ & _ & ->).
  unfold bd_valido in Hv.
  apply andb_prop in Hv. destruct Hv as [Hv _].
  apply andb_prop in Hv. destruct Hv as [Hv _].
  apply andb_prop in Hv. destruct Hv as [_ Hur].
  unfold reservas_entrega in Hr0.
  apply (select_by_id_filter reserva_id _ _ _ _ Hur) in Hr0.
  destruct Hr0 as [Hr0 Hp]. rewrite Hr in Hr0. inversion Hr0. subst r0.
  clear Hr0.
  apply andb_prop in Hp. destruct Hp as [Hp _].
  apply andb_prop in Hp. destruct Hp as [Hp _].
  apply andb_prop in Hp. destruct Hp as [_ Hres].
  apply bool_decide_eq_true in Hres.
  assert (Hx : forall x, In x (reservas db) -> reserva_id x = en_reserva f ->
                         x = r).
  { intros x Hin Hid.
    pose proof (chaves_unicas_select reserva_id _ _ _ Hur Hin Hid) as Hs.
    congruence. }
  assert (Hor : reserva_ocupa r = true)
    by (unfold reserva_ocupa; rewrite Hres; reflexivity).
  assert (Hol : forall km ds h a v vr z,
             reserva_ocupa (entregar_row km ds "Locada" h a v vr z) = true)
    by (intros; reflexivity).
  split; intros Hinv; unfold sem_sobreposicao, sem_sobreposicao_estrita;
    cbn [reservas com_reservas com_carros].
  - apply sem_sobreposicao_update;
      [exact sobrepoe_sym | reflexivity | | exact Hinv].
    intros x y Hin _ Hid _. rewrite (Hx x Hin Hid).
    unfold sobrepoe. rewrite Hol, Hor.
    cbn [entregar_row r_carro_id data_inicio data_fim].
    destruct (r_carro_id r =? r_carro_id y), (reserva_ocupa y),
      (Z.leb_spec (data_inicio r) (data_fim y)),
      (Z.leb_spec (en_data_saida f) (data_fim y)),
      (Z.leb_spec (data_inicio y) (data_fim r));
      cbn; first [reflexivity | discriminate | lia].
  - apply sem_sobreposicao_update;
      [exact sobrepoe_estrito_sym | reflexivity | | exact Hinv].
    intros x y Hin _ Hid _. rewrite (Hx x Hin Hid).
    unfold sobrepoe_estrito. rewrite Hol, Hor.
    cbn [entregar_row r_carro_id data_inicio data_fim].
    destruct (r_carro_id r =? r_carro_id y), (reserva_ocupa y),
      (Z.ltb_spec (data_inicio r) (data_fim y)),
      (Z.ltb_spec (en_data_saida f) (data_fim y)),
      (Z.ltb_spec (data_inicio y) (data_fim r));
      cbn; first [reflexivity | discriminate | lia].
Qed.

Lemma X_entrega_sem_sobreposicao_witness :
  length (reservas bd_duas_reservas) = 2%nat
  /\ sem_sobreposicao bd_duas_locado.
Proof.
  split; [reflexivity |].
  edestruct (X_entrega_sem_sobreposicao amb_cenario bd_duas_reservas
               entrega_cenario) as [H _].
  - vm_compute. reflexivity.
  - vm_compute. reflexivity.
  - vm_compute. discriminate.
  - vm_compute. reflexivity.
  - apply H. intros a b Ha Hb Hne. vm_compute in Ha, Hb.
    destruct Ha as [<- | [<- | []]], Hb as [<- | [<- | []]];
      first [reflexivity | contradiction].
Defined.

(** ** Fines: what registering one does to the reservation *)

Lemma discreto_insert_multa (m : Multa) : discreto (execute_insert_multa m).
Proof.
  intros c r c' H. unfold execute_insert_multa in H.
  destruct (select_by_id _ _ _); inversion H; reflexivity.
Qed.

(** [run_query] on a store that cannot be reached, or that does not take
    the commit: the error text, and nothing written. *)
Lemma run_query_falha amb (stmt : tx unit) db :
  conexao_ok amb = false \/ commit_ok amb = false ->
  discreto stmt ->
  run_query amb stmt db = (Some "erro", db).
Proof.
  intros Hf Hd. unfold run_query, get_db_connection.
  destruct (conexao_ok amb) eqn:Hcon; [| reflexivity].
  destruct Hf as [Hf | Hf]; [discriminate |].
  unfold tx_bind.
  destruct (stmt (mkConexao db db)) as [[a | e] c1] eqn:E.
  - unfold conn_commit. rewrite Hf. unfold conn_close, conn_rollback.
    cbn [confirmado]. rewrite (Hd _ _ _ E). reflexivity.
  - unfold conn_close, conn_rollback. cbn [confirmado].
    rewrite (Hd _ _ _ E). reflexivity.
Qed.

Lemma run_query_ok amb (stmt : tx unit) db c1 :
  conexao_ok amb = true -> commit_ok amb = true ->
  stmt (mkConexao db db) = (Ok tt, c1) ->
  run_query amb stmt db = (None, pendente c1).
Proof.
  intros Hcon Hcom E. unfold run_query, get_db_connection. rewrite Hcon.
  unfold tx_bind. rewrite E. unfold conn_commit. rewrite Hcom. reflexivity.
Qed.

Lemma atualizar_status_reserva_falha amb k s db :
  conexao_ok amb = false \/ commit_ok amb = false ->
  atualizar_status_reserva amb k s db = db.
Proof.
  intros Hf. unfold atualizar_status_reserva.
  rewrite run_query_falha; [reflexivity | exact Hf |].
  apply discreto_bind; [apply discreto_update_reservas |].
  intros a. apply discreto_ret.
Qed.

(** A fine registered on a store that can be reached, in full. *)
Lemma registrar_multa_ok amb db f r :
  conexao_ok amb = true -> commit_ok amb = true ->
  List.forallb check_datas (reservas db) = true ->
  select_by_id reserva_id (nm_reserva f)
    (reservas_na_data db (nm_data_consulta f)) = Some r ->
  (0 <= nm_valor f)%Q ->
  registrar_multa amb db f
  = (Done tt,
     com_reservas
       (fst (sql_update reserva_id (nm_reserva f)
               (set_reserva_status_operacional "Com Multa Pendente")
               (reservas db)))
       (com_multas
          (multas db
           ++ [mkMulta (next_id multa_id (multas db)) (nm_reserva f)
                 (nm_tipo f) (nm_valor f) (nm_data_hora f) Pendente])
          db)).
Proof.
  intros Hcon Hcom Hchk Hr Hval. unfold registrar_multa. rewrite Hr.
  pose proof (select_by_id_some _ _ _ _ Hr) as [Hin Hid].
  unfold reservas_na_data in Hin. apply List.filter_In in Hin.
  destruct Hin as [Hin _].
  unfold number_input. apply Qle_bool_iff in Hval. rewrite Hval.
  rewrite Hid.
  assert (Hsel : select_by_id reserva_id (nm_reserva f) (reservas db) <> None)
    by (apply (select_by_id_presente reserva_id _ _ r); assumption).
  destruct (select_by_id reserva_id (nm_reserva f) (reservas db)) as [r0 |] eqn:E;
    [| contradiction].
  erewrite run_query_ok; [| exact Hcon | exact Hcom |].
  2:{ unfold execute_insert_multa. cbn [pendente confirmado m_reserva_id].
      rewrite E. reflexivity. }
  cbn [snd pendente].
  rewrite atualizar_status_reserva_ok by assumption. reflexivity.
Qed.



(** A reservation whose operational status is not "Ativa" is in none of the
    three working lists. *)
Lemma fora_das_listas db k :
  (forall x, In x (reservas db) -> reserva_id x = k -> status x <> "Ativa") ->
  select_by_id reserva_id k (locacoes_pendentes db) = None
  /\ select_by_id reserva_id k (reservas_edicao db) = None
  /\ select_by_id reserva_id k (reservas_entrega db) = None.
Proof.
  intros H.
  assert (Hp : forall p : Reserva -> bool,
             (forall x, status x <> "Ativa" -> p x = false) ->
             select_by_id reserva_id k (List.filter p (reservas db)) = None).
  { intros p Hp. apply select_by_id_ausente. intros x Hx Hk.
    apply List.filter_In in Hx. destruct Hx as [Hx Hpx].
    rewrite (Hp x (H x Hx Hk)) in Hpx. discriminate. }
  unfold locacoes_pendentes, reservas_edicao, reservas_entrega.
  repeat split; apply Hp; intros x Hx;
    rewrite (bool_decide_eq_false_2 _ Hx); reflexivity.
Qed.

Lemma status_apos_update k s t x :
  In x (fst (sql_update reserva_id k (set_reserva_status_operacional s) t)) ->
  reserva_id x = k -> status x = s.
Proof.
  unfold sql_update. cbn [fst]. intros Hx Hk.
  apply List.in_map_iff in Hx. destruct Hx as (x0 & Hx0 & _).
  destruct (Z.eqb_spec (reserva_id x0) k) as [E | E].
  - subst x. reflexivity.
  - subst x. contradiction.
Qed.

(** X21. Once a fine is registered against a reservation, the reservation is
    offered neither for return nor for editing nor for delivery, so a rental
    that is out can no longer be returned: the return is declined and
    writes nothing.  The windows it blocks stay blocked. *)
Theorem X_multa_bloqueia_devolucao amb db f r db' :
  conexao_ok amb = true -> commit_ok amb = true ->
  List.forallb check_datas (reservas db) = true ->
  select_by_id reserva_id (nm_reserva f)
    (reservas_na_data db (nm_data_consulta f)) = Some r ->
  (0 <= nm_valor f)%Q ->
  db' = snd (registrar_multa amb db f) ->
  select_by_id reserva_id (nm_reserva f) (locacoes_pendentes db') = None
  /\ select_by_id reserva_id (nm_reserva f) (reservas_edicao db') = None
  /\ select_by_id reserva_id (nm_reserva f) (reservas_entrega db') = None
  /\ (forall amb' g, dv_reserva g = nm_reserva f ->
        exists msg, finalizar_devolucao amb' db' g = (Refused msg, db'))
  /\ (forall amb' carro inicio fim excluir,
        check_vehicle_availability amb' db' carro inicio fim excluir
        = check_vehicle_availability amb' db carro inicio fim excluir).
Proof.
  intros Hcon Hcom Hchk Hr Hval ->.
  rewrite (registrar_multa_ok amb db f r Hcon Hcom Hchk Hr Hval). cbn [snd].
  set (db' := com_reservas _ _).
  assert (Hl : select_by_id reserva_id (nm_reserva f) (locacoes_pendentes db')
               = None
               /\ select_by_id reserva_id (nm_reserva f) (reservas_edicao db')
                  = None
               /\ select_by_id reserva_id (nm_reserva f) (reservas_entrega db')
                  = None).
  { apply fora_das_listas. intros x Hx Hk. subst db'.
    cbn [reservas com_reservas] in Hx.
    rewrite (status_apos_update _ _ _ _ Hx Hk). discriminate. }
  destruct Hl as (Hl1 & Hl2 & Hl3).
  split; [exact Hl1 |]. split; [exact Hl2 |]. split; [exact Hl3 |].
  split.
  - intros amb' g Hg. unfold finalizar_devolucao. rewrite Hg, Hl1.
    eexists. reflexivity.
  - intros amb' carro inicio fim excluir.
    unfold check_vehicle_availability, run_query_dataframe.
    destruct (consulta_ok amb'); [| reflexivity].
    subst db'. cbn [reservas com_reservas com_multas].
    unfold sql_update. cbn [fst]. f_equal. apply length_filter_map.
    intros x. destruct (reserva_id x =? nm_reserva f); reflexivity.
Qed.

Lemma X_multa_bloqueia_devolucao_witness :
  exists msg,
    finalizar_devolucao amb_cenario
      (snd (registrar_multa amb_cenario bd_locado multa_cenario))
      devolucao_cenario
    = (Refused msg,
       snd (registrar_multa amb_cenario bd_locado multa_cenario)).
Proof.
  edestruct (X_multa_bloqueia_devolucao amb_cenario bd_locado multa_cenario)
    as (_ & _ & _ & H & _).
  - reflexivity.
  - reflexivity.
  - vm_compute. reflexivity.
  - vm_compute. reflexivity.
  - vm_compute. discriminate.
  - reflexivity.
  - apply (H amb_cenario devolucao_cenario). reflexivity.
Defined.

(** The rows of [reservas] after the button of a fine, on a store that can
    be reached. *)
Lemma atualizar_status_multa_reservas amb db f multa :
  conexao_ok amb = true -> commit_ok amb = true ->
  List.forallb check_datas (reservas db) = true ->
  select_by_id multa_id (sm_multa f)
    (multas_listadas db (sm_filtro_inicio f) (sm_filtro_fim f)) = Some multa ->
  sm_novo_status f <> multa_status multa ->
  fst (atualizar_status_multa amb db f) = Done tt
  /\ reservas (snd (atualizar_status_multa amb db f))
     = fst (sql_update reserva_id (m_reserva_id multa)
              (set_reserva_status_operacional
                 (match sm_novo_status f with
                  | Paga => "Finalizada"
                  | _ => "Com Multa Pendente"
                  end))
              (reservas db))
  /\ carros (snd (atualizar_status_multa amb db f)) = carros db
  /\ clientes (snd (atualizar_status_multa amb db f)) = clientes db
  /\ multas (snd (atualizar_status_multa amb db f))
     = fst (sql_update multa_id (multa_id multa)
              (set_multa_status (sm_novo_status f)) (multas db)).
Proof.
  intros Hcon Hcom Hchk Hm Hne. unfold atualizar_status_multa. rewrite Hm.
  assert (Hneq : status_multa_eqb (sm_novo_status f) (multa_status multa) = false).
  { destruct (sm_novo_status f), (multa_status multa);
      try reflexivity; contradiction. }
  rewrite Hneq. cbn [negb].
  set (db1 := snd (run_query amb _ db)).
  assert (Hdb1 : db1 = com_multas
                         (fst (sql_update multa_id (multa_id multa)
                                 (set_multa_status (sm_novo_status f))
                                 (multas db))) db).
  { subst db1. unfold run_query, get_db_connection. rewrite Hcon.
    unfold tx_bind. cbn [pendente confirmado].
    destruct (sql_update multa_id _ _ _) as [t n].
    unfold conn_commit. rewrite Hcom. reflexivity. }
  assert (Hchk1 : List.forallb check_datas (reservas db1) = true)
    by (rewrite Hdb1; exact Hchk).
  destruct (sm_novo_status f); cbn [status_multa_texto];
    [ rewrite bool_decide_eq_false_2 by discriminate
    | rewrite bool_decide_eq_true_2 by reflexivity
    | rewrite bool_decide_eq_false_2 by discriminate ];
    cbn [fst snd]; rewrite atualizar_status_reserva_ok by assumption;
    rewrite Hdb1; repeat split; reflexivity.
Qed.

(** X22. The button of a fine never gives the reservation back to the working
    lists: whichever status is chosen for the fine, the reservation is
    afterwards offered neither for return nor for editing nor for
    delivery. *)
Theorem X_multa_status_sem_retorno amb db f multa db' :
  conexao_ok amb = true -> commit_ok amb = true ->
  List.forallb check_datas (reservas db) = true ->
  select_by_id multa_id (sm_multa f)
    (multas_listadas db (sm_filtro_inicio f) (sm_filtro_fim f)) = Some multa ->
  sm_novo_status f <> multa_status multa ->
  db' = snd (atualizar_status_multa amb db f) ->
  select_by_id reserva_id (m_reserva_id multa) (locacoes_pendentes db') = None
  /\ select_by_id reserva_id (m_reserva_id multa) (reservas_edicao db') = None
  /\ select_by_id reserva_id (m_reserva_id multa) (reservas_entrega db') = None.
Proof.
  intros Hcon Hcom Hchk Hm Hne ->.
  destruct (atualizar_status_multa_reservas amb db f multa Hcon Hcom Hchk Hm Hne)
    as (_ & Hres & _).
  apply fora_das_listas. intros x Hx Hk. rewrite Hres in Hx.
  rewrite (status_apos_update _ _ _ _ Hx Hk).
  destruct (sm_novo_status f); discriminate.
Qed.

Lemma X_multa_status_sem_retorno_witness :
  select_by_id reserva_id 1
    (locacoes_pendentes
       (snd (atualizar_status_multa amb_cenario
               (snd (registrar_multa amb_cenario bd_locado multa_cenario))
               marcar_paga))) = None.
Proof.
  edestruct (X_multa_status_sem_retorno amb_cenario
               (snd (registrar_multa amb_cenario bd_locado multa_cenario))
               marcar_paga
               (mkMulta 1 1 "Excesso de Velocidade" 200 100 Pendente))
    as (H & _).
  - reflexivity.
  - reflexivity.
  - vm_compute. reflexivity.
  - vm_compute. reflexivity.
  - vm_compute. discriminate.
  - reflexivity.
  - exact H.
Defined.

(** X23. On a store that cannot be reached, or that does not take the commit,
    the two buttons of the fines still report success, and nothing is
    written. *)
Theorem X_multa_erro_silencioso amb db :
  conexao_ok amb = false \/ commit_ok amb = false ->
  (forall f r,
      select_by_id reserva_id (nm_reserva f)
        (reservas_na_data db (nm_data_consulta f)) = Some r ->
      (0 <= nm_valor f)%Q ->
      registrar_multa amb db f = (Done tt, db))
  /\ (forall g multa,
        select_by_id multa_id (sm_multa g)
          (multas_listadas db (sm_filtro_inicio g) (sm_filtro_fim g))
        = Some multa ->
        sm_novo_status g <> multa_status multa ->
        atualizar_status_multa amb db g = (Done tt, db)).
Proof.
  intros Hf. split.
  - intros f r Hr Hval. unfold registrar_multa. rewrite Hr.
    unfold number_input. apply Qle_bool_iff in Hval. rewrite Hval.
    rewrite run_query_falha by (first [exact Hf | apply discreto_insert_multa]).
    cbn [snd]. rewrite atualizar_status_reserva_falha by exact Hf.
    reflexivity.
  - intros g multa Hm Hne. unfold atualizar_status_multa. rewrite Hm.
    assert (Hneq : status_multa_eqb (sm_novo_status g) (multa_status multa)
                   = false).
    { destruct (sm_novo_status g), (multa_status multa);
        try reflexivity; contradiction. }
    rewrite Hneq. cbn [negb].
    rewrite run_query_falha.
    + cbn [snd]. rewrite !atualizar_status_reserva_falha by exact Hf.
      destruct (bool_decide _); reflexivity.
    + exact Hf.
    + intros c r c' H. destruct (sql_update multa_id _ _ _).
      inversion H. reflexivity.
Qed.

Lemma X_multa_erro_silencioso_witness :
  registrar_multa (mkAmbiente false true true (Ok "pdf") 100) bd_finalizado
    multa_cenario = (Done tt, bd_finalizado).
Proof.
  eapply (proj1 (X_multa_erro_silencioso (mkAmbiente false true true (Ok "pdf") 100)
                   bd_finalizado (or_introl eq_refl))
            multa_cenario).
  - vm_compute. reflexivity.
  - vm_compute. discriminate.
Defined.

(** ** The documents: the term in words and the receipts *)

Lemma extensos_ausente (n : Z) :
  n < 1 \/ 15 < n ->
  n mod 10 <> 0 \/ n < 20 \/ 100 <= n ->
  extensos !! n = None.
Proof.
  intros H1 H2. unfold extensos. apply not_elem_of_list_to_map_1.
  intros Hin. cbn in Hin.
  repeat (apply elem_of_cons in Hin;
          destruct Hin as [-> | Hin]; [Z.div_mod_to_equations; lia |]).
  inversion Hin.
Qed.

Lemma extensos_dezena (n : Z) :
  20 <= n < 100 -> exists d, extensos !! (n / 10 * 10) = Some d.
Proof.
  intros Hn.
  assert (H : n / 10 = 2 \/ n / 10 = 3 \/ n / 10 = 4 \/ n / 10 = 5
              \/ n / 10 = 6 \/ n / 10 = 7 \/ n / 10 = 8 \/ n / 10 = 9)
    by (Z.div_mod_to_equations; lia).
  repeat (destruct H as [-> | H]; [eexists; vm_compute; reflexivity |]).
  rewrite H. eexists. vm_compute. reflexivity.
Qed.

Lemma extensos_unidade (u : Z) :
  1 <= u <= 9 -> exists s, extensos !! u = Some s.
Proof.
  intros Hu.
  assert (H : u = 1 \/ u = 2 \/ u = 3 \/ u = 4 \/ u = 5 \/ u = 6 \/ u = 7
              \/ u = 8 \/ u = 9) by lia.
  repeat (destruct H as [-> | H]; [eexists; vm_compute; reflexivity |]).
  rewrite H. eexists. vm_compute. reflexivity.
Qed.

(** X24. The term in words never fails on a missing key, whatever the number;
    it is the numeral in digits, not words, for 16 to 19, for 100 and
    more, and for zero and below; and for a number between 20 and 99 that
    is not a multiple of ten it is the word of the tens, " E ", and the
    word of the units. *)
Theorem X_numero_por_extenso :
  (forall n, exists s, _numero_por_extenso n = Ok s)
  /\ (forall n, n <= 0 \/ 16 <= n <= 19 \/ 100 <= n ->
        _numero_por_extenso n = Ok (pretty n))
  /\ (forall n, 20 <= n < 100 -> n mod 10 <> 0 ->
        exists d u,
          extensos !! (n / 10 * 10) = Some d
          /\ extensos !! (n mod 10) = Some u
          /\ _numero_por_extenso n = Ok (d +:+ " E " +:+ u)).
Proof.
  split; [| split].
  - intros n. unfold _numero_por_extenso.
    destruct (extensos !! n) as [s |]; [eexists; reflexivity |].
    destruct (Z.ltb_spec n 20); [eexists; reflexivity |].
    destruct (Z.ltb_spec n 100); [| eexists; reflexivity].
    destruct (extensos_dezena n) as [d Hd]; [lia |]. rewrite Hd.
    destruct (n mod 10 =? 0); eexists; reflexivity.
  - intros n Hn. unfold _numero_por_extenso.
    rewrite extensos_ausente by lia.
    destruct (Z.ltb_spec n 20); [reflexivity |].
    destruct (Z.ltb_spec n 100); [lia | reflexivity].
  - intros n Hn Hu. unfold _numero_por_extenso.
    rewrite (extensos_ausente n); [| lia | left; exact Hu].
    destruct (Z.ltb_spec n 20); [lia |].
    destruct (Z.ltb_spec n 100); [| lia].
    destruct (extensos_dezena n) as [d Hd]; [lia |].
    destruct (extensos_unidade (n mod 10)) as [u Hun].
    { pose proof (Z.mod_pos_bound n 10). lia. }
    exists d, u. rewrite Hd, Hun.
    destruct (Z.eqb_spec (n mod 10) 0); [contradiction |].
    repeat split; reflexivity.
Qed.

Lemma X_numero_por_extenso_witness :
  _numero_por_extenso 17 = Ok "17"
  /\ _numero_por_extenso 21 = Ok "VINTE E UM".
Proof.
  split.
  - apply (proj1 (proj2 X_numero_por_extenso) 17). lia.
  - destruct (proj2 (proj2 X_numero_por_extenso) 21) as (d & u & Hd & Hu & H).
    + lia.
    + vm_compute. discriminate.
    + rewrite H. vm_compute in Hd, Hu. inversion Hd. inversion Hu.
      reflexivity.
Defined.

Lemma positivo_Qmax_maior (x : Q) : (0 < x)%Q -> positivo (Qmax 0 x) = true.
Proof.
  intros H. unfold positivo. destruct (Qle_bool (Qmax 0 x) 0) eqn:E;
    [| reflexivity].
  apply Qle_bool_iff in E. pose proof (Q.le_max_r 0 x). lra.
Qed.

Lemma positivo_Qmax_menor (x : Q) : (x <= 0)%Q -> positivo (Qmax 0 x) = false.
Proof.
  intros H. unfold positivo. apply negb_false_iff, Qle_bool_iff.
  apply Q.max_lub; lra.
Qed.

(** The label of the receipt drawn after the transaction, by the total of
    the page and the payment typed. *)
Lemma label_total_comprovante (T pago : Q) :
  (positivo T = true -> 0 <= pago)%Q ->
  let vp := if positivo T then pago else 0%Q in
  let vr := if positivo T then Qmax 0 (T - vp) else 0%Q in
  let rotulo :=
    label_total T (if positivo vr then Qmin vp vr else 0%Q)
      (if positivo vr then Qmax 0 (vr - vp) else 0%Q) in
  ((T < 0)%Q -> rotulo = "VALOR A DEVOLVER AO CLIENTE")
  /\ ((T == 0)%Q -> rotulo = "VALOR A PAGAR")
  /\ ((0 < T)%Q ->
      (rotulo = "VALOR QUITADO" <-> (pago < T)%Q /\ (T <= 2 * pago)%Q)
      /\ (rotulo = "VALOR A PAGAR" <-> (T <= pago)%Q \/ (2 * pago < T)%Q)).
Proof.
  intros Hpago. cbv zeta. unfold label_total.
  destruct (positivo T) eqn:HP.
  - apply positivo_true in HP. specialize (Hpago eq_refl).
    assert (H0 : Qle_bool 0 T = true) by (apply Qle_bool_iff; lra).
    rewrite H0.
    split; [intros H; lra |]. split; [intros H; lra |]. intros _.
    destruct (Qlt_le_dec pago T) as [Hlt | Hge].
    + rewrite positivo_Qmax_maior by lra.
      assert (Hvr : Qmax 0 (T - pago) == T - pago) by (apply Q.max_r; lra).
      destruct (Qlt_le_dec (2 * pago) T) as [H2 | H2].
      * assert (Hr : Qle_bool (Qmax 0 (Qmax 0 (T - pago) - pago)) 0 = false).
        { destruct (Qle_bool _ 0) eqn:E; [| reflexivity].
          apply Qle_bool_iff in E.
          pose proof (Q.le_max_r 0 (Qmax 0 (T - pago) - pago)). lra. }
        rewrite Hr, andb_false_r.
        split; split; first [discriminate | reflexivity | intros; lra
                             | intros _; right; exact H2].
      * assert (Hp : positivo (Qmin pago (Qmax 0 (T - pago))) = true).
        { unfold positivo.
          destruct (Qle_bool (Qmin pago (Qmax 0 (T - pago))) 0) eqn:E;
            [| reflexivity].
          apply Qle_bool_iff in E.
          assert (0 < Qmin pago (Qmax 0 (T - pago)))%Q
            by (apply Q.min_glb_lt; lra).
          lra. }
        assert (Hr : Qle_bool (Qmax 0 (Qmax 0 (T - pago) - pago)) 0 = true).
        { apply Qle_bool_iff. apply Q.max_lub; lra. }
        rewrite Hp, Hr. cbn [andb].
        split; split; first [discriminate | reflexivity | intros; lra
                             | intros _; split; assumption].
    + rewrite positivo_Qmax_menor by lra.
      change (positivo 0) with false. cbn [andb].
      split; split; first [discriminate | reflexivity | intros; lra
                           | intros _; left; exact Hge].
  - apply positivo_false in HP. change (positivo 0) with false.
    split; [| split].
    + intros H. destruct (Qle_bool 0 T) eqn:E; [| reflexivity].
      apply Qle_bool_iff in E. lra.
    + intros H.
      assert (H0 : Qle_bool 0 T = true) by (apply Qle_bool_iff; lra).
      rewrite H0. reflexivity.
    + intros H. lra.
Qed.

(** X25. What the last line of the receipt offered for download after a return
    calls the total: the amount to give back to the customer when the total
    is negative; the amount to pay when it is zero; and, when it is
    positive, "settled" exactly when the payment typed is less than the
    total and at least half of it, and the amount to pay otherwise, also
    when the payment covers the total. *)
Theorem X_recibo_rotulo amb db f rec :
  comprovante_devolucao amb db f = Ok (Some rec) ->
  ((rc_total_final rec < 0)%Q ->
   label_total (rc_total_final rec) (rc_valor_pago rec) (rc_valor_restante rec)
   = "VALOR A DEVOLVER AO CLIENTE")
  /\ ((rc_total_final rec == 0)%Q ->
      label_total (rc_total_final rec) (rc_valor_pago rec)
        (rc_valor_restante rec) = "VALOR A PAGAR")
  /\ ((0 < rc_total_final rec)%Q ->
      (label_total (rc_total_final rec) (rc_valor_pago rec)
         (rc_valor_restante rec) = "VALOR QUITADO"
       <-> (dv_valor_pago f < rc_total_final rec)%Q
           /\ (rc_total_final rec <= 2 * dv_valor_pago f)%Q)
      /\ (label_total (rc_total_final rec) (rc_valor_pago rec)
            (rc_valor_restante rec) = "VALOR A PAGAR"
          <-> (rc_total_final rec <= dv_valor_pago f)%Q
              \/ (2 * dv_valor_pago f < rc_total_final rec)%Q)).
Proof.
  unfold comprovante_devolucao.
  destruct (select_by_id reserva_id (dv_reserva f) (locacoes_pendentes db))
    as [r |]; [| discriminate].
  destruct (select_by_id carro_id (r_carro_id r) (carros db)) as [c |];
    [| discriminate].
  destruct (campos_devolucao_validos amb r (preco_km c) f) eqn:Hv;
    [| discriminate].
  cbn [negb]. cbv zeta.
  destruct (conexao_ok amb); [| discriminate]. cbn [negb].
  destruct (select_by_id carro_id (r_carro_id r) _); [| discriminate].
  destruct (documento amb) as [pdf | e]; [| discriminate].
  intros H. inversion H. subst rec. clear H.
  set (ct := contas_devolucao amb r (preco_km c) f).
  assert (Hpago : (positivo (ct_total_final ct) = true
                   -> 0 <= dv_valor_pago f)%Q).
  { intros HP. unfold campos_devolucao_validos in Hv. fold ct in Hv.
    rewrite HP in Hv.
    destruct (number_input 0 (Some (ct_total_final ct * 2)%Q) (dv_valor_pago f))
      eqn:E.
    - assert (Hn : number_input 0 (Some (ct_total_final ct * 2)%Q)
                     (dv_valor_pago f) <> None) by congruence.
      apply number_input_limites in Hn. tauto.
    - repeat match type of Hv with
             | context [match ?x with _ => _ end] => destruct x
             end; discriminate. }
  exact (label_total_comprovante (ct_total_final ct) (dv_valor_pago f) Hpago).
Qed.

Lemma X_recibo_rotulo_witness :
  (exists rec,
      comprovante_devolucao amb_cenario bd_locado devolucao_metade
      = Ok (Some rec)
      /\ (rc_total_final rec == 280)%Q
      /\ label_total (rc_total_final rec) (rc_valor_pago rec)
           (rc_valor_restante rec) = "VALOR QUITADO")
  /\ (exists rec,
        comprovante_devolucao amb_cenario bd_locado devolucao_quitada
        = Ok (Some rec)
        /\ label_total (rc_total_final rec) (rc_valor_pago rec)
             (rc_valor_restante rec) = "VALOR A PAGAR").
Proof.
  split.
  - eexists. split; [vm_compute; reflexivity |].
    split; [vm_compute; reflexivity |].
    edestruct (X_recibo_rotulo amb_cenario bd_locado devolucao_metade)
      as (_ & _ & H).
    + vm_compute. reflexivity.
    + apply H; [vm_compute; reflexivity |].
      split; vm_compute; [reflexivity | discriminate].
  - eexists. split; [vm_compute; reflexivity |].
    edestruct (X_recibo_rotulo amb_cenario bd_locado devolucao_quitada)
      as (_ & _ & H).
    + vm_compute. reflexivity.
    + apply H; [vm_compute; reflexivity |].
      left. vm_compute. discriminate.
Defined.

Lemma select_by_id_filter_some {A : Type} (key : A -> Z) (p : A -> bool)
    (k : Z) (t : list A) (row : A) :
  select_by_id key k t = Some row -> p row = true ->
  select_by_id key k (List.filter p t) = Some row.
Proof.
  unfold select_by_id. intros H Hp.
  induction t as [| x t IH]; simpl in *; [discriminate |].
  destruct (Z.eqb_spec (key x) k) as [E | E].
  - inversion H. subst x. rewrite Hp. simpl.
    destruct (Z.eqb_spec (key row) k); [reflexivity | contradiction].
  - destruct (p x); simpl; [| exact (IH H)].
    destruct (Z.eqb_spec (key x) k); [contradiction | exact (IH H)].
Qed.

(** X26. The receipt drawn again from the history after a return is not the
    receipt of the return.  Its total is the stored total, which is the
    total of the return with the advance added back; its days are the days
    between departure and return, none for a return on the day of
    departure, and its charge for the days is the daily rate times those
    days; its kilometre charge is for the kilometres above the allowance
    only, so that, once the kilometres driven exceeded the allowance, it is
    below the charge of the return by the allowance times the rate; and it
    never calls the total settled. *)
Theorem X_recibo_historico amb db f rec db' amb' r c kmOut A :
  bd_valido db = true ->
  select_by_id reserva_id (dv_reserva f) (locacoes_pendentes db) = Some r ->
  select_by_id carro_id (r_carro_id r) (carros db) = Some c ->
  km_saida r = Some kmOut -> km_franquia r = Some A ->
  finalizar_devolucao amb db f = (Done rec, db') ->
  conexao_ok amb' = true ->
  exists h,
    gerar_recibo_para_download amb' db' (dv_reserva f) = Ok (Some h)
    /\ (rh_total_final h == rc_total_final rec + adiantamento r)%Q
    /\ rh_dias_cobranca h = Z.max (hoje amb) (data_inicio r) - data_inicio r
    /\ (rh_custo_diarias h == diaria c * inject_Z (rh_dias_cobranca h))%Q
    /\ (rh_custo_km h
        == inject_Z (Z.max 0 (dv_km_volta f - kmOut - A)) * preco_km c)%Q
    /\ (0 <= A < dv_km_volta f - kmOut ->
        (rc_custo_km rec - rh_custo_km h == inject_Z A * preco_km c)%Q)
    /\ rh_label_total h <> "VALOR QUITADO".
Proof.
  intros Hv Hr Hc Hs Hf Hdone Hcon.
  pose proof (finalizar_devolucao_done _ _ _ _ _ Hdone)
    as (r1 & c1 & pdf & Hr1 & Hc1 & Hcampos & Hrec & _).
  rewrite Hr in Hr1. inversion Hr1. subst r1.
  rewrite Hc in Hc1. inversion Hc1. subst c1. clear Hr1 Hc1.
  apply finalizar_devolucao_completo in Hdone.
  destruct Hdone as (r0 & c0 & Hr0 & Hc0 & _ & ->).
  rewrite Hr in Hr0. inversion Hr0. subst r0.
  rewrite Hc in Hc0. inversion Hc0. subst c0. clear Hr0 Hc0.
  unfold bd_valido in Hv.
  apply andb_prop in Hv. destruct Hv as [Hv _].
  apply andb_prop in Hv. destruct Hv as [Hv _].
  apply andb_prop in Hv. destruct Hv as [_ Hur].
  unfold locacoes_pendentes in Hr.
  apply (select_by_id_filter reserva_id _ _ _ _ Hur) in Hr.
  destruct Hr as [Hr Hp].
  apply andb_prop in Hp. destruct Hp as [Hp Hcli].
  apply andb_prop in Hp. destruct Hp as [_ Hcar].
  set (ct := contas_devolucao amb r (preco_km c) f) in *.
  set (set_r := devolver_row _ _ _ _ _ _).
  set (set_c := devolver_carro _ _).
  assert (Hkr : forall x, reserva_id (set_r x) = reserva_id x) by reflexivity.
  assert (Hkc : forall x, carro_id (set_c x) = carro_id x) by reflexivity.
  set (db' := com_carros _ _).
  assert (Hsel : select_by_id reserva_id (dv_reserva f)
                   (List.filter (fun x => tem_cliente db' x && tem_carro db' x)
                      (reservas db')) = Some (set_r r)).
  { apply select_by_id_filter_some.
    - subst db'. cbn [reservas com_reservas com_carros].
      rewrite (select_by_id_update reserva_id _ _ _ Hkr), Hr. reflexivity.
    - unfold tem_cliente, tem_carro. subst db'.
      cbn [carros clientes com_reservas com_carros].
      rewrite (existsb_sql_update carro_id _ _ _ _ Hkc).
      unfold tem_cliente in Hcli. unfold tem_carro in Hcar.
      subst set_r. cbn [devolver_row r_cliente_id r_carro_id].
      rewrite Hcli, Hcar. reflexivity. }
  assert (Hcarro : select_by_id carro_id (r_carro_id (set_r r)) (carros db')
                   = Some (set_c c)).
  { subst db'. cbn [carros com_carros]. subst set_r.
    cbn [devolver_row r_carro_id].
    rewrite (select_by_id_update carro_id _ _ _ Hkc), Hc. reflexivity. }
  unfold gerar_recibo_para_download. rewrite Hcon, Hsel, Hcarro.
  assert (Hkv : km_volta (set_r r) = Some (dv_km_volta f)) by reflexivity.
  assert (Hks : km_saida (set_r r) = Some kmOut) by exact Hs.
  rewrite Hkv, Hks. eexists. split; [reflexivity |].
  cbn [rh_total_final rh_dias_cobranca rh_custo_diarias rh_custo_km
       rh_label_total].
  assert (Hkm : kmOut <= dv_km_volta f).
  { apply campos_devolucao_km in Hcampos. unfold km_saida_safe in Hcampos.
    rewrite Hs in Hcampos. exact Hcampos. }
  split.
  { subst rec set_r. cbn. ring. }
  split.
  { subst set_r. cbn [data_fim data_inicio devolver_row].
    subst ct. cbn [contas_devolucao ct_data_devolucao].
    destruct (Z.ltb_spec (hoje amb) (data_inicio r)); lia. }
  split; [reflexivity |].
  split.
  { unfold custo_km_recibo. subst set_r set_c.
    cbn [devolver_row devolver_carro km_franquia preco_km]. rewrite Hf.
    reflexivity. }
  split.
  { intros HA. subst rec. unfold custo_km_recibo. subst set_r set_c ct.
    cbn [recibo_dados rc_custo_km contas_devolucao ct_custo_km devolver_row
         devolver_carro km_franquia preco_km].
    unfold custo_km, km_saida_safe. rewrite Hs, Hf.
    rewrite km_a_cobrar_cases by exact Hkm.
    destruct (Z.gtb_spec (dv_km_volta f - kmOut) A) as [Hgt | Hle]; [| lia].
    rewrite Z.max_r by lia.
    replace (dv_km_volta f - kmOut - A) with ((dv_km_volta f - kmOut) + - A)
      by lia.
    rewrite inject_Z_plus, inject_Z_opp. ring. }
  unfold label_total. destruct (Qle_bool 0 _); [| discriminate].
  cbn. discriminate.
Qed.

Lemma X_recibo_historico_witness :
  exists h,
    gerar_recibo_para_download amb_cenario bd_finalizado 1 = Ok (Some h)
    /\ (rh_total_final h == 580)%Q /\ (rh_custo_km h == 40)%Q.
Proof.
  edestruct (X_recibo_historico amb_cenario bd_locado devolucao_cenario)
    with (amb' := amb_cenario) (kmOut := 1000) (A := 300)
    as (h & Hh & Ht & _ & _ & Hk & _).
  - vm_compute. reflexivity.
  - vm_compute. reflexivity.
  - vm_compute. reflexivity.
  - vm_compute. reflexivity.
  - vm_compute. reflexivity.
  - vm_compute. reflexivity.
  - reflexivity.
  - exists h. split; [exact Hh |].
    split; [rewrite Ht; vm_compute; reflexivity |].
    rewrite Hk. vm_compute. reflexivity.
Defined.

(** ** Customers: removal *)

Lemma status_cliente_removido :
  getitem STATUS_CLIENTE "REMOVIDO" = Ok "Removido".
Proof. reflexivity. Qed.

Lemma discreto_update_clientes (k : Z) (set : Cliente -> Cliente) :
  discreto (execute_update_clientes k set).
Proof.
  intros c r c' H. unfold execute_update_clientes in H.
  destruct (sql_update cliente_id k set (clientes (pendente c))).
  inversion H. reflexivity.
Qed.

(** X27. A customer who has a reservation that is booked or out is not removed:
    the button declines and writes nothing. *)
Theorem X_cliente_remocao_guarda amb db id_cliente_sel r :
  In r (reservas db) -> r_cliente_id r = id_cliente_sel ->
  reserva_ocupa r = true ->
  exists msg, marcar_como_removido amb db id_cliente_sel = (Refused msg, db).
Proof.
  intros Hin Hid Hoc. unfold marcar_como_removido.
  rewrite status_cliente_removido.
  destruct (select_by_id cliente_id id_cliente_sel _);
    [| eexists; reflexivity].
  assert (Hn : Nat.eqb
                 (length
                    (List.filter
                       (fun x => (r_cliente_id x =? id_cliente_sel)
                                 && reserva_ocupa x)
                       (reservas db))) 0 = false).
  { destruct (Nat.eqb _ 0) eqn:E; [| reflexivity].
    rewrite length_filter_zero in E. apply negb_true_iff in E.
    assert (Hex : List.existsb
                    (fun x => (r_cliente_id x =? id_cliente_sel)
                              && reserva_ocupa x)
                    (reservas db) = true).
    { apply List.existsb_exists. exists r. split; [exact Hin |].
      rewrite Hid, Z.eqb_refl, Hoc. reflexivity. }
    congruence. }
  rewrite Hn. eexists. reflexivity.
Qed.

Lemma X_cliente_remocao_guarda_witness :
  exists msg, marcar_como_removido amb_cenario bd_reservado 1
              = (Refused msg, bd_reservado).
Proof.
  apply (X_cliente_remocao_guarda amb_cenario bd_reservado 1
           (nova_reserva_row 1 reserva_simples carro_cenario)).
  - vm_compute. left. reflexivity.
  - reflexivity.
  - reflexivity.
Defined.

(** X28. A removal that went through, on a store that takes the commit: the
    customer was listed and had no reservation booked or out; the row keeps
    its data with the status "Removido"; the customer is no longer listed
    and no longer among the active ones, so that no reservation can be
    created for them; the other customers, the vehicles, the reservations
    and the fines are untouched. *)
Theorem X_cliente_remocao_efeitos amb db id_cliente_sel db' :
  commit_ok amb = true ->
  bd_valido db = true ->
  marcar_como_removido amb db id_cliente_sel = (Done tt, db') ->
  exists cl,
    select_by_id cliente_id id_cliente_sel (clientes db) = Some cl
    /\ cliente_status cl <> "Removido"
    /\ (forall r, In r (reservas db) -> r_cliente_id r = id_cliente_sel ->
                  reserva_ocupa r = false)
    /\ select_by_id cliente_id id_cliente_sel (clientes db')
       = Some (mkCliente (cliente_id cl) (nome cl) (validade_cnh cl) "Removido")
    /\ (forall amb2,
          select_by_id cliente_id id_cliente_sel (df_clientes amb2 db' "Removido")
          = None)
    /\ select_by_id cliente_id id_cliente_sel (clientes_ativos db') = None
    /\ (forall amb2 f, nr_cliente f = id_cliente_sel ->
          exists msg, salvar_reserva amb2 db' f = (Refused msg, db'))
    /\ (forall k, k <> id_cliente_sel ->
          select_by_id cliente_id k (clientes db')
          = select_by_id cliente_id k (clientes db))
    /\ carros db' = carros db /\ reservas db' = reservas db
    /\ multas db' = multas db.
Proof.
  intros Hcom Hv. unfold marcar_como_removido.
  rewrite status_cliente_removido. unfold df_clientes.
  destruct (conexao_ok amb) eqn:Hcon; [| discriminate].
  destruct (select_by_id cliente_id id_cliente_sel _) as [cl |] eqn:Ecl;
    [| discriminate].
  destruct (Nat.eqb _ 0) eqn:Hn; [| discriminate].
  cbn [negb]. intros H. inversion H as [Hdb]. clear H.
  unfold bd_valido in Hv.
  apply andb_prop in Hv. destruct Hv as [Hv _].
  apply andb_prop in Hv. destruct Hv as [Hv _].
  apply andb_prop in Hv. destruct Hv as [Hv _].
  apply andb_prop in Hv. destruct Hv as [_ Huc].
  apply (select_by_id_filter cliente_id _ _ _ _ Huc) in Ecl.
  destruct Ecl as [Ecl Hst]. apply negb_true_iff in Hst.
  apply bool_decide_eq_false in Hst.
  assert (Hkey : forall x, cliente_id (set_cliente_status "Removido" x)
                           = cliente_id x) by reflexivity.
  assert (Hdb' : snd (run_query amb
                        (let* _ := execute_update_clientes id_cliente_sel
                                     (set_cliente_status "Removido") in
                         tx_ret tt) db)
                 = com_clientes
                     (fst (sql_update cliente_id id_cliente_sel
                             (set_cliente_status "Removido") (clientes db)))
                     db).
  { erewrite run_query_ok; [| exact Hcon | exact Hcom |]; [| reflexivity].
    reflexivity. }
  rewrite Hdb'. clear Hdb Hdb'.
  set (db1 := com_clientes _ db).
  assert (Hfora : forall p : Cliente -> bool,
             (forall x, cliente_status x = "Removido" -> p x = false) ->
             select_by_id cliente_id id_cliente_sel
               (List.filter p (clientes db1)) = None).
  { intros p Hp. apply select_by_id_ausente. intros x Hx Hxk.
    apply List.filter_In in Hx. destruct Hx as [Hx Hpx].
    subst db1. cbn [clientes com_clientes] in Hx.
    unfold sql_update in Hx. cbn [fst] in Hx.
    apply List.in_map_iff in Hx. destruct Hx as (x0 & Hx0 & _).
    destruct (Z.eqb_spec (cliente_id x0) id_cliente_sel) as [E | E].
    - subst x. rewrite Hp in Hpx by reflexivity. discriminate.
    - subst x. contradiction. }
  assert (Hativos : select_by_id cliente_id id_cliente_sel (clientes_ativos db1)
                    = None).
  { unfold clientes_ativos. apply Hfora. intros x Hx. rewrite Hx. reflexivity. }
  exists cl. split; [exact Ecl |]. split; [exact Hst |].
  split.
  { intros r Hr Hid. rewrite length_filter_zero in Hn.
    apply negb_true_iff in Hn.
    destruct (reserva_ocupa r) eqn:Hoc; [| reflexivity].
    assert (Hex : List.existsb
                    (fun x => (r_cliente_id x =? id_cliente_sel)
                              && reserva_ocupa x)
                    (reservas db) = true).
    { apply List.existsb_exists. exists r. split; [exact Hr |].
      rewrite Hid, Z.eqb_refl, Hoc. reflexivity. }
    congruence. }
  split.
  { subst db1. cbn [clientes com_clientes].
    rewrite (select_by_id_update cliente_id _ _ _ Hkey), Ecl. reflexivity. }
  split.
  { intros amb2. unfold df_clientes. destruct (conexao_ok amb2);
      [| reflexivity].
    apply Hfora. intros x Hx. rewrite Hx. reflexivity. }
  split; [exact Hativos |].
  split.
  { intros amb2 f Hf. unfold salvar_reserva. rewrite Hf, Hativos.
    destruct (negb _); [eexists; reflexivity |].
    destruct (get_available_vehicles _ _ _ _ _); eexists; reflexivity. }
  split.
  { intros k Hk. subst db1. cbn [clientes com_clientes].
    apply (select_by_id_update_other cliente_id); assumption. }
  repeat split; reflexivity.
Qed.

Lemma X_cliente_remocao_efeitos_witness :
  exists cl,
    select_by_id cliente_id 1
      (clientes (snd (marcar_como_removido amb_cenario bd_finalizado 1)))
    = Some cl
    /\ cliente_status cl = "Removido".
Proof.
  edestruct (X_cliente_remocao_efeitos amb_cenario bd_finalizado 1
               (snd (marcar_como_removido amb_cenario bd_finalizado 1)))
    as (cl & _ & _ & _ & H & _).
  - reflexivity.
  - vm_compute. reflexivity.
  - vm_compute. reflexivity.
  - eexists. split; [exact H | reflexivity].
Defined.

(** ** Fleet: the update of a vehicle *)

Lemma discreto_update_carro_dados (k : Z) (f : AtualizacaoCarro) :
  discreto (execute_update_carro_dados k f).
Proof.
  intros c r c' H. unfold execute_update_carro_dados in H.
  destruct (sql_update carro_id k _ (carros (pendente c))).
  destruct (_ && _); inversion H; reflexivity.
Qed.

(** X29. The update of a vehicle is declined, with nothing written, when the
    odometer submitted is below the one on record, and when the plate was
    changed to one that another vehicle carries, excluded vehicles
    included. *)
Theorem X_frota_recusas amb db id_edit f dados_atuais :
  select_by_id carro_id id_edit (frota_atual amb db "Excluído")
  = Some dados_atuais ->
  up_km f < km_atual dados_atuais
  \/ (up_placa f <> placa dados_atuais
      /\ exists outro, In outro (carros db) /\ placa outro = up_placa f
                       /\ carro_id outro <> id_edit) ->
  exists msg, atualizar_dados_e_status amb db id_edit f = (Refused msg, db).
Proof.
  intros Hsel Hcaso. unfold atualizar_dados_e_status.
  rewrite status_carro_excluido, Hsel.
  destruct (negb (bool_decide (up_status f ∈ valores_status_carro)));
    [eexists; reflexivity |].
  destruct (Z.ltb_spec (up_km f) (km_atual dados_atuais)) as [Hkm | Hkm];
    [eexists; reflexivity |].
  destruct (_ || _); [eexists; reflexivity |].
  destruct Hcaso as [Hlt | (Hpl & outro & Hin & Hplaca & Hid)]; [lia |].
  rewrite (bool_decide_eq_false_2 _ Hpl). cbn [negb].
  assert (Hex : List.existsb
                  (fun c => bool_decide (placa c = up_placa f)
                            && negb (carro_id c =? id_edit))
                  (carros db) = true).
  { apply List.existsb_exists. exists outro. split; [exact Hin |].
    rewrite (bool_decide_eq_true_2 _ Hplaca).
    destruct (Z.eqb_spec (carro_id outro) id_edit); [contradiction |].
    reflexivity. }
  rewrite Hex. eexists. reflexivity.
Qed.

Lemma X_frota_recusas_witness :
  exists msg,
    atualizar_dados_e_status amb_cenario bd_inicial 1
      (mkAtualizacaoCarro "Fiat" "Uno" "ABC1D23" 100 (4 # 5) 999 "Disponível")
    = (Refused msg, bd_inicial).
Proof.
  apply (X_frota_recusas amb_cenario bd_inicial 1
           (mkAtualizacaoCarro "Fiat" "Uno" "ABC1D23" 100 (4 # 5) 999
              "Disponível")
           carro_cenario).
  - vm_compute. reflexivity.
  - left. vm_compute. reflexivity.
Defined.


